(** * StandardConnectionService: connection creation, cleanup and app settings

    A shallow embedding of
    [libs/services/designer-client-services/src/lib/standard/connection.ts].

    The pure helpers at the bottom of the source file (the [convertTo...]
    functions and [escapeSpecialChars]) are plain functions.  The methods of
    [StandardConnectionService] are asynchronous and talk to remote services;
    they are embedded in a small monad [Async] that threads the history of
    the calls made so far and either resolves with a value or rejects with
    the thrown value.

    Conventions of the embedding:
    - the service locators [LoggerService()], [OAuthService()] and
      [getIntl()] are initialised, and [intl.formatMessage] answers with the
      default message;
    - the methods inherited from [BaseConnectionService] are asynchronous:
      [this.deleteConnection(id)] without [await] records the call and
      cannot throw into its caller;
    - error entries of the logger are recorded, telemetry traces
      ([startTrace], [endTrace]) and [console.log] are not;
    - an object is the list of its properties in [Object.keys] order, a
      [Record<string, string>] that is only looked up and assigned is a
      finite map. *)

From Stdlib Require Import ZArith Ascii String.
From stdpp Require Import base option strings list gmap.

Local Open Scope string_scope.
Local Open Scope list_scope.

(** ** Strings *)

Module Str.

(** [value.replace(/c/g, r)] for a one-character pattern [c] and a
    replacement [r] without [$] patterns: every occurrence of [c], from
    left to right, becomes [r]. *)
Fixpoint replaceAll (c : ascii) (r : string) (value : string) : string :=
  match value with
  | EmptyString => EmptyString
  | String a rest =>
      if Ascii.eqb a c then r +:+ replaceAll c r rest
      else String a (replaceAll c r rest)
  end.

(** [value.includes(c)] for a single character. *)
Fixpoint contains (c : ascii) (value : string) : bool :=
  match value with
  | EmptyString => false
  | String a rest => Ascii.eqb a c || contains c rest
  end.

(** [value.split(sep)] for a one-character separator.  The result is never
    empty: the empty string splits into one empty segment. *)
Fixpoint split (sep : ascii) (value : string) : list string :=
  match value with
  | EmptyString => [EmptyString]
  | String a rest =>
      if Ascii.eqb a sep then EmptyString :: split sep rest
      else match split sep rest with
           | seg :: segs => String a seg :: segs
           | [] => [String a EmptyString]
           end
  end.

(** [value.split('/').at(-1)]. *)
Definition lastSegment (value : string) : string :=
  List.last (split "/" value) EmptyString.

(** [value.startsWith(p)]. *)
Fixpoint startsWith (p value : string) : bool :=
  match p, value with
  | EmptyString, _ => true
  | String a p', String b value' => Ascii.eqb a b && startsWith p' value'
  | String _ _, EmptyString => false
  end.

(** [value.slice(n)] *)
Fixpoint drop (n : nat) (value : string) : string :=
  match n, value with
  | O, _ => value
  | S n', String _ rest => drop n' rest
  | S _, EmptyString => EmptyString
  end.

(** [value.replace(pattern, replacement)] with a string pattern: only the
    first occurrence is replaced. *)
Fixpoint replaceFirst (pattern replacement value : string) : string :=
  match value with
  | EmptyString => if startsWith pattern EmptyString then replacement else EmptyString
  | String a rest =>
      if startsWith pattern value
      then replacement +:+ drop (String.length pattern) value
      else String a (replaceFirst pattern replacement rest)
  end.

End Str.

(** ** [escapeSpecialChars] and the app-setting names built from it *)

(** [[
function escapeSpecialChars(value: string): string {
  const escapedUnderscore = value.replace(/_/g, '__');
  return escapedUnderscore.replace(/-/g, '_1');
}
]] *)
Definition escapeSpecialChars (value : string) : string :=
  let escapedUnderscore := Str.replaceAll "_" "__" value in
  Str.replaceAll "-" "_1" escapedUnderscore.

(** The three [appSettingName] constants of the source:
    [`${escapeSpecialChars(connectionKey)}_${escapeSpecialChars(parameterKey)}`],
    [`${escapeSpecialChars(connectionKey)}_functionAppKey`] and
    [`${escapeSpecialChars(connectionKey)}_SubscriptionKey`]. *)
Definition serviceProviderAppSettingName (connectionKey parameterKey : string) : string :=
  escapeSpecialChars connectionKey +:+ "_" +:+ escapeSpecialChars parameterKey.

Definition functionAppSettingName (connectionKey : string) : string :=
  escapeSpecialChars connectionKey +:+ "_functionAppKey".

Definition apimAppSettingName (connectionKey : string) : string :=
  escapeSpecialChars connectionKey +:+ "_SubscriptionKey".

(** [`@appsetting('${appSettingName}')`] *)
Definition appSettingReference (appSettingName : string) : string :=
  "@appsetting('" +:+ appSettingName +:+ "')".

(** What one character of the input contributes to the escaped output. *)
Definition escapeChar (a : ascii) : string :=
  if Ascii.eqb a "_" then "__"
  else if Ascii.eqb a "-" then "_1"
  else String a EmptyString.

(** ** JavaScript values and thrown values *)

(** Untyped ([any]) values that flow through the connection payloads.  An
    object is its list of properties in [Object.keys] order. *)
#[local] Set Warnings "-register-all".
Inductive JsValue : Type :=
| JsUndefined
| JsNull
| JsBool (b : bool)
| JsNumber (n : Z)
| JsString (s : string)
| JsObject (fields : list (string * JsValue)).

Abbreviation JsRecord := (list (string * JsValue)).

Module Js.

(** [o[k]] on an object: [undefined] when the property is missing. *)
Fixpoint getField (k : string) (fields : JsRecord) : JsValue :=
  match fields with
  | [] => JsUndefined
  | (k', v) :: rest => if String.eqb k' k then v else getField k rest
  end.

(** [o[k] = v]: an existing property keeps its place, a new one goes last. *)
Fixpoint setField (k : string) (v : JsValue) (fields : JsRecord) : JsRecord :=
  match fields with
  | [] => [(k, v)]
  | (k', v') :: rest =>
      if String.eqb k' k then (k', v) :: rest else (k', v') :: setField k v rest
  end.

(** [Object.keys(o)]. *)
Definition keys (fields : JsRecord) : list string := fields.*1.

(** [record?.[k]] for an optional record. *)
Definition optField (k : string) (record : option JsRecord) : JsValue :=
  match record with
  | Some fields => getField k fields
  | None => JsUndefined
  end.

(** Truthiness of an optional string: [undefined] and [''] are falsy. *)
Definition truthy (s : option string) : bool :=
  match s with
  | Some s => negb (String.eqb s "")
  | None => false
  end.

(** The property names every plain object inherits from
    [Object.prototype]: looked up on an object that does not own them, they
    answer with a function (or, for [__proto__], with the prototype), all
    truthy. *)
Definition inheritedFromObject (name : string) : bool :=
  bool_decide (name ∈ ["constructor"; "hasOwnProperty"; "isPrototypeOf";
                       "propertyIsEnumerable"; "toLocaleString"; "toString"; "valueOf";
                       "__proto__"; "__defineGetter__"; "__defineSetter__";
                       "__lookupGetter__"; "__lookupSetter__"]).

(** [x < n] and [x >= n] for a value [x] of type [any] that converts to
    the number [Some z], or to [NaN] ([None]): every comparison with [NaN]
    is false. *)
Definition lessThan (x : option Z) (n : Z) : bool :=
  match x with
  | Some z => (z <? n)%Z
  | None => false
  end.

Definition atLeast (x : option Z) (n : Z) : bool :=
  match x with
  | Some z => (z >=? n)%Z
  | None => false
  end.

(** How a template literal prints an optional string. *)
Definition template (s : option string) : string :=
  match s with
  | Some s => s
  | None => "undefined"
  end.

End Js.

(** A truthy answer of [httpClient.post<any, any>] as far as the service
    looks at it.  The answer is an [any]: [status] is the number that
    [response.status] converts to, [None] when it converts to [NaN] (no
    [status] property, or one that is not numeric). *)
Record HttpResponse := { status : option Z; body : JsValue }.

(** What a [throw] or a rejected promise carries. *)
Inductive Thrown : Type :=
| ThrownError (message : string)
| ThrownTypeError (message : string)
| ThrownAssertionException (code message : string)
| ThrownString (message : string)
| ThrownResponse (response : option HttpResponse)
| ThrownValue (v : JsValue).

(** The outcome of a computation that may throw. *)
Abbreviation Outcome A := (Thrown + A)%type.

(** ** The data model of the source file *)

Record Connection := {
  conn_name : string;
  conn_id : string;
  conn_type : string;
  conn_location : option string;
  conn_apiId : string;
  conn_createdTime : string;
  conn_displayName : option string;
  conn_statuses : list string;
  conn_overallStatus : option string;
}.

Record Connector := {
  connector_id : string;
  connector_name : string;
  connector_type : string;
  testConnectionUrl : option string;
}.

Record ServiceProviderConnectionModel := {
  sp_parameterValues : JsRecord;
  sp_serviceProviderId : string;
  sp_parameterSetName : option string;
  sp_displayName : option string;
}.

Record FunctionsConnectionModel := {
  fn_function : JsValue;
  fn_triggerUrl : JsValue;
  fn_authentication : JsValue;
  fn_displayName : option string;
}.

Record APIManagementConnectionModel := {
  apim_apiId : JsValue;
  apim_baseUrl : JsValue;
  apim_subscriptionKey : JsValue;
  apim_authentication : JsValue;
  apim_displayName : option string;
}.

(** [type LocalConnectionModel = FunctionsConnectionModel |
    ServiceProviderConnectionModel | APIManagementConnectionModel] *)
Inductive LocalConnectionModel : Type :=
| FunctionsModel (m : FunctionsConnectionModel)
| ServiceProviderModel (m : ServiceProviderConnectionModel)
| APIManagementModel (m : APIManagementConnectionModel).

Record ConnectionAndAppSetting (T : Type) := {
  connectionKey : string;
  connectionData : T;
  settings : gmap string JsValue;
  pathLocation : list string;
}.
Arguments connectionKey {T} _.
Arguments connectionData {T} _.
Arguments settings {T} _.
Arguments pathLocation {T} _.

(** [readConnections] resolves with this; each table is in [Object.keys]
    order. *)
Record ConnectionsData := {
  serviceProviderConnections : option (list (string * ServiceProviderConnectionModel));
  functionConnections : option (list (string * FunctionsConnectionModel));
  apiManagementConnections : option (list (string * APIManagementConnectionModel));
}.

Definition serviceProviderLocation : string := "serviceProviderConnections".
Definition functionsLocation : string := "functionConnections".
Definition apimLocation : string := "apiManagementConnections".

(** The members of the enumerations that the source file names, and
    whatever else a value of that type may be. *)
Inductive ConnectionParameterSource := AppConfiguration | OtherParameterSource (name : string).

Inductive ConnectionType :=
| Function
| ApiManagement
| ServiceProvider
| OtherConnectionType (name : string).

(** A connector's declaration of one connection parameter;
    [propertyPath] is [uiDefinition?.constraints?.propertyPath]. *)
Record ConnectionParameter := {
  parameterSource : option ConnectionParameterSource;
  propertyPath : option (list string);
}.

Record ConnectionMetadata := {
  metadata_type : option ConnectionType;
  connectionCreationClient : option string;
}.

Record ConnectionParametersMetadata := {
  connectionMetadata : option ConnectionMetadata;
  meta_connectionParameters : option (gmap string ConnectionParameter);
  (** [connectionParameterSet?.parameters] *)
  meta_connectionParameterSet : option (gmap string ConnectionParameter);
}.

(** [values] pairs each key with [values[key].value]. *)
Record ConnectionParameterSetValues := {
  set_name : string;
  set_values : JsRecord;
}.

Record ConnectionCreationInfo := {
  connectionParametersSet : option ConnectionParameterSetValues;
  info_connectionParameters : option JsRecord;
  displayName : option string;
  appSettings : option (gmap string JsValue);
}.

Record UserAssignedIdentity := { ua_principalId : option string }.

(** [ManagedIdentity]; [userAssignedIdentities] is in [Object.keys] order. *)
Record ManagedIdentity := {
  identity_type : option string;
  principalId : option string;
  identity_tenantId : option string;
  userAssignedIdentities : option (list (string * UserAssignedIdentity));
}.

(** ** What the source file imports

    Functions and constants of [@microsoft/utils-logic-apps],
    [../base/operationmanifest], the base class and the browser that the
    source file uses but does not define.  Everything below is proved for
    every choice of them. *)
Record Imports := {
  isArmResourceId : string → bool;
  isIdentityAssociatedWithLogicApp : option ManagedIdentity → bool;
  equals : option string → option string → bool;
  (** the pair [optional(key, value)] contributes to an object spread *)
  optional : option string → option string;
  safeSetObjectPropertyValue : JsRecord → list string → JsValue → JsRecord;
  apiManagementConnectorId : string;
  azureFunctionConnectorId : string;
  SYSTEM_ASSIGNED : string;
  SYSTEM_ASSIGNED_USER_ASSIGNED : string;
  atob : string → Outcome string;
  (** [BaseConnectionService.getAzureConnectionRequestPath] *)
  getAzureConnectionRequestPath : string → string;
  (** [BaseConnectionService.tryParseErrorMessage] *)
  tryParseErrorMessage : Thrown → string;
}.

(** ** Local connection payloads *)

Record ServiceProviderConversion := {
  connectionAndSettings : ConnectionAndAppSetting ServiceProviderConnectionModel;
  rawConnection : ServiceProviderConnectionModel;
}.

Section Conversions.

Context (lib : Imports).

Definition convertServiceProviderConnectionDataToConnection
    (connectionKey : string) (connectionData : ServiceProviderConnectionModel) : Connection :=
  let apiId := sp_serviceProviderId connectionData in
  {| conn_name := connectionKey;
     conn_id := apiId +:+ "/connections/" +:+ connectionKey;
     conn_type := "connections";
     conn_location := None;
     conn_apiId := apiId;
     conn_createdTime := "";
     conn_displayName := sp_displayName connectionData;
     conn_statuses := ["Connected"];
     conn_overallStatus := Some "Connected" |}.

Definition convertApimConnectionDataToConnection
    (connectionKey : string) (connectionData : APIManagementConnectionModel) : Connection :=
  {| conn_name := connectionKey;
     conn_id := apiManagementConnectorId lib +:+ "/connections/" +:+ connectionKey;
     conn_type := "connections";
     conn_location := None;
     conn_apiId := apiManagementConnectorId lib;
     conn_createdTime := "";
     conn_displayName := apim_displayName connectionData;
     conn_statuses := ["Connected"];
     conn_overallStatus := Some "Connected" |}.

Definition convertFunctionsConnectionDataToConnection
    (connectionKey : string) (connectionData : FunctionsConnectionModel) : Connection :=
  {| conn_name := connectionKey;
     conn_id := azureFunctionConnectorId lib +:+ "/connections/" +:+ connectionKey;
     conn_type := "connections";
     conn_location := None;
     conn_apiId := azureFunctionConnectorId lib;
     conn_createdTime := "";
     conn_displayName := fn_displayName connectionData;
     conn_statuses := ["Connected"];
     conn_overallStatus := Some "Connected" |}.

(** [connectionParameter?.parameterSource === ConnectionParameterSource.AppConfiguration] *)
Definition isAppConfiguration (connectionParameter : option ConnectionParameter) : bool :=
  match connectionParameter ≫= parameterSource with
  | Some AppConfiguration => true
  | _ => false
  end.

(** [[...(connectionParameter?.uiDefinition?.constraints?.propertyPath ?? []), parameterKey]] *)
Definition parameterPath (connectionParameter : option ConnectionParameter)
    (parameterKey : string) : list string :=
  default [] (connectionParameter ≫= propertyPath) ++ [parameterKey].

(** The value the stored payload gets for one parameter. *)
Definition storedParameterValue (connectionKey : string)
    (connectionParameter : option ConnectionParameter)
    (parameterKey : string) (rawValue : JsValue) : JsValue :=
  if isAppConfiguration connectionParameter
  then JsString (appSettingReference (serviceProviderAppSettingName connectionKey parameterKey))
  else rawValue.

(** The state of the [for ... of Object.keys(parameterValues)] loop:
    [connectionsData.settings], [connectionsData.connectionData.parameterValues]
    and [rawConnection.parameterValues]. *)
Record ParameterLoop := {
  loop_settings : gmap string JsValue;
  loop_parameterValues : JsRecord;
  loop_rawParameterValues : JsRecord;
}.

(** One iteration of the loop. *)
Definition parameterLoopBody (connectionKey : string)
    (connectionParameters : option (gmap string ConnectionParameter))
    (parameterValues : JsRecord) (st : ParameterLoop) (parameterKey : string) : ParameterLoop :=
  let connectionParameter := connectionParameters ≫= (.!! parameterKey) in
  let rawValue := Js.getField parameterKey parameterValues in
  let path := parameterPath connectionParameter parameterKey in
  {| loop_settings :=
       if isAppConfiguration connectionParameter
       then <[serviceProviderAppSettingName connectionKey parameterKey := rawValue]> (loop_settings st)
       else loop_settings st;
     loop_parameterValues :=
       safeSetObjectPropertyValue lib (loop_parameterValues st) path
         (storedParameterValue connectionKey connectionParameter parameterKey rawValue);
     loop_rawParameterValues :=
       safeSetObjectPropertyValue lib (loop_rawParameterValues st) path rawValue |}.

(** The declarations the parameters are looked up in: those of the
    parameter set when a set was chosen, the connector's plain ones
    otherwise. *)
Definition declaredParameters (connectionInfo : ConnectionCreationInfo)
    (connectionParameterMetadata : ConnectionParametersMetadata)
    : option (gmap string ConnectionParameter) :=
  match connectionParametersSet connectionInfo with
  | Some _ => meta_connectionParameterSet connectionParameterMetadata
  | None => meta_connectionParameters connectionParameterMetadata
  end.

(** The values given: those of the chosen set, or the plain ones. *)
Definition givenParameterValues (connectionInfo : ConnectionCreationInfo) : option JsRecord :=
  match connectionParametersSet connectionInfo with
  | Some connectionParametersSetValues => Some (set_values connectionParametersSetValues)
  | None => info_connectionParameters connectionInfo
  end.

(** [Object.keys(undefined)] throws; so the conversion throws when neither
    a parameter set nor plain parameter values are given.  [rawConnection]
    starts as a deep copy of the payload and gets the raw values. *)
Definition convertToServiceProviderConnectionsData
    (connectionKey connectorId : string) (connectionInfo : ConnectionCreationInfo)
    (connectionParameterMetadata : ConnectionParametersMetadata)
    : Outcome ServiceProviderConversion :=
  let connectionParametersSetValues := connectionParametersSet connectionInfo in
  let connectionParameters := declaredParameters connectionInfo connectionParameterMetadata in
  let withParameterValues (values : JsRecord) : ServiceProviderConnectionModel :=
    {| sp_parameterValues := values;
       sp_parameterSetName := optional lib (set_name <$> connectionParametersSetValues);
       sp_serviceProviderId := connectorId;
       sp_displayName := displayName connectionInfo |} in
  match givenParameterValues connectionInfo with
  | None => inl (ThrownTypeError "Cannot convert undefined or null to object")
  | Some parameterValues =>
      let final :=
        foldl (parameterLoopBody connectionKey connectionParameters parameterValues)
          {| loop_settings := default ∅ (appSettings connectionInfo);
             loop_parameterValues := [];
             loop_rawParameterValues := [] |}
          (Js.keys parameterValues) in
      inr {| connectionAndSettings :=
               {| connectionKey := connectionKey;
                  connectionData := withParameterValues (loop_parameterValues final);
                  settings := loop_settings final;
                  pathLocation := [serviceProviderLocation] |};
             rawConnection := withParameterValues (loop_rawParameterValues final) |}
  end.

(** [authentication.value] is read and then overwritten, so
    [authentication] has to be an object: reading a property of
    [undefined] or [null] throws, and so does writing one on a primitive
    (module code is strict).  The write goes to the object that
    [connectionInfo] holds; nothing reads that object again. *)
Definition convertToFunctionsConnectionsData
    (connectionKey : string) (connectionInfo : ConnectionCreationInfo)
    : Outcome (ConnectionAndAppSetting FunctionsConnectionModel) :=
  let connectionParameters := info_connectionParameters connectionInfo in
  let authentication := Js.optField "authentication" connectionParameters in
  match authentication with
  | JsObject fields =>
      let functionAppKey := Js.getField "value" fields in
      let appSettingName := functionAppSettingName connectionKey in
      let authentication :=
        JsObject (Js.setField "value" (JsString (appSettingReference appSettingName)) fields) in
      inr {| connectionKey := connectionKey;
             connectionData :=
               {| fn_function := Js.optField "function" connectionParameters;
                  fn_triggerUrl := Js.optField "triggerUrl" connectionParameters;
                  fn_authentication := authentication;
                  fn_displayName := displayName connectionInfo |};
             settings := {[ appSettingName := functionAppKey ]};
             pathLocation := [functionsLocation] |}
  | JsUndefined | JsNull => inl (ThrownTypeError "Cannot read properties of undefined (reading 'value')")
  | _ => inl (ThrownTypeError "Cannot create property 'value' on a primitive")
  end.

Definition convertToApimConnectionsData
    (connectionKey : string) (connectionInfo : ConnectionCreationInfo)
    : ConnectionAndAppSetting APIManagementConnectionModel :=
  let connectionParameters := info_connectionParameters connectionInfo in
  let subscriptionKey := Js.optField "subscriptionKey" connectionParameters in
  let appSettingName := apimAppSettingName connectionKey in
  {| connectionKey := connectionKey;
     connectionData :=
       {| apim_apiId := Js.optField "apiId" connectionParameters;
          apim_baseUrl := Js.optField "baseUrl" connectionParameters;
          apim_subscriptionKey := JsString (appSettingReference appSettingName);
          apim_authentication := Js.optField "authentication" connectionParameters;
          apim_displayName := displayName connectionInfo |};
     settings := {[ appSettingName := subscriptionKey ]};
     pathLocation := [apimLocation] |}.

End Conversions.

(** ** Remote calls and their history *)

Record ConnectionAcl := {
  acl_id : string;
  acl_name : string;
  acl_objectId : string;
  acl_tenantId : string;
}.

(** The [content] of the access-policy [PUT]. *)
Record AccessPolicy := {
  policy_name : string;
  policy_type : string;
  policy_location : option string;
  principal_type : string;
  policy_objectId : option string;
  policy_tenantId : option string;
}.

Record IdentityDetails := {
  details_principalId : option string;
  details_tenantId : option string;
}.

Record LoginResponse := {
  code : option string;
  error : option string;
}.


Record ApiHubServiceDetails := {
  hub_apiVersion : string;
  hub_baseUrl : string;
  hub_tenantId : option string;
}.

Record WorkflowAppDetails := {
  appName : string;
  identity : option ManagedIdentity;
}.

(** [writeConnection] tells whether the callback was passed;
    [connectionCreationClients] holds the names of the registered clients. *)
Record StandardConnectionServiceOptions := {
  apiVersion : string;
  baseUrl : string;
  apiHubServiceDetails : ApiHubServiceDetails;
  workflowAppDetails : option WorkflowAppDetails;
  writeConnection : bool;
  connectionCreationClients : option (gset string);
}.

(** Every call that leaves the source file: to the HTTP client, to the
    callbacks of the options, to the OAuth service, to the methods inherited
    from [BaseConnectionService], to the connection cache and to the logger
    (error entries only; telemetry traces are left out). *)
Inductive Event : Type :=
| GetConnectionsForConnector (connectorId : string)
| ReadConnections
| GetConnectionsInApiHub
| AllConnectionsInitialized
| CacheConnection (connectionId : string) (connection : Connection)
| GetAzureConnector (connectorId : string)
| HttpGet (uri : string) (queryParameters headers : list (string * string))
| HttpPut (uri : string) (queryParameters headers : list (string * string)) (content : AccessPolicy)
| HttpPost (uri : string) (queryParameters : list (string * string)) (content : ServiceProviderConnectionModel)
| CreateConnectionInApiHub (connectionName connectorId : string) (connectionInfo : ConnectionCreationInfo)
| DeleteConnection (connectionId : string)
| TestConnection (connection : Connection)
| GetConnection (connectionId : string)
| ConnectionCreationFunc (client : string) (connectionInfo : ConnectionCreationInfo) (connectionName : string)
| WriteConnection (connectionsData : ConnectionAndAppSetting LocalConnectionModel)
| FetchConsentUrlForConnection (connectionId : string)
| OpenLoginPopup (consentUrl : string)
| AwaitLogin
| ConfirmConsentCodeForConnection (connectionId code : string)
| LogError (area message : string).

Abbreviation History := (list Event).

(** How the outside answers.  Each answer may depend on everything that was
    called before, so the remote side may be stateful. *)
Record World := {
  readConnections : History → Outcome ConnectionsData;
  getConnectionsInApiHub : History → Outcome (list Connection);
  getConnectionsForConnector : History → string → Outcome (list Connection);
  (** when both promises of a [Promise.all] reject: does the first one
      reject first? *)
  firstRejectsFirst : History → bool;
  getAzureConnector : History → string → Outcome Connector;
  httpGetConnector : History → string → Outcome Connector;
  (** [response.value] of the access-policy listing *)
  httpGetAcls : History → string → Outcome (option (list ConnectionAcl));
  httpPut : History → string → AccessPolicy → Outcome ();
  httpPost : History → string → ServiceProviderConnectionModel → Outcome (option HttpResponse);
  createConnectionInApiHub : History → string → string → ConnectionCreationInfo → Outcome Connection;
  testConnection : History → Connection → Outcome ();
  getConnection : History → string → Outcome Connection;
  connectionCreationFunc : History → string → ConnectionCreationInfo → string → Outcome ConnectionCreationInfo;
  writeConnectionCallback : History → ConnectionAndAppSetting LocalConnectionModel → Outcome ();
  fetchConsentUrlForConnection : History → string → Outcome string;
  openLoginPopup : History → string → Outcome ();
  loginPromise : History → Outcome LoginResponse;
  confirmConsentCodeForConnection : History → string → string → Outcome ();
}.

(** ** The [Async] monad

    An asynchronous method takes the history so far, extends it with the
    calls it makes, and resolves ([inr]) or rejects ([inl]). *)
Definition Async (A : Type) : Type := History → History * Outcome A.

Module Async.

Definition resolve {A} (a : A) : Async A := λ h, (h, inr a).

Definition throw {A} (e : Thrown) : Async A := λ h, (h, inl e).

(** [await m; k]: a rejection of [m] skips [k]. *)
Definition bind {A B} (m : Async A) (k : A → Async B) : Async B :=
  λ h, match m h with
       | (h', inr a) => k a h'
       | (h', inl e) => (h', inl e)
       end.

(** [try { m } catch (e) { handler(e) }] *)
Definition tryCatch {A} (m : Async A) (handler : Thrown → Async A) : Async A :=
  λ h, match m h with
       | (h', inl e) => handler e h'
       | (h', inr a) => (h', inr a)
       end.

(** An awaited call: it is recorded, and the world answers from what
    happened before. *)
Definition call {A} (ev : Event) (answer : History → Outcome A) : Async A :=
  λ h, (h ++ [ev], answer h).

(** A call whose result is not awaited (or that has none). *)
Definition emit (ev : Event) : Async () := λ h, (h ++ [ev], inr ()).

(** A synchronous computation that may throw. *)
Definition lift {A} (o : Outcome A) : Async A := λ h, (h, o).

(** [await Promise.all([m1, m2])]: both calls are made, in order, whatever
    the other one does; the result rejects as soon as one of them does. *)
Definition all2 {A B} (firstRejectsFirst : History → bool)
    (m1 : Async A) (m2 : Async B) : Async (A * B) :=
  λ h, let '(h1, r1) := m1 h in
       let '(h2, r2) := m2 h1 in
       (h2, match r1, r2 with
            | inr a, inr b => inr (a, b)
            | inl e, inr _ => inl e
            | inr _, inl e => inl e
            | inl e1, inl e2 => if firstRejectsFirst h then inl e1 else inl e2
            end).

(** [items.map(f)] where [f] has effects. *)
Fixpoint mapM {A B} (f : A → Async B) (items : list A) : Async (list B) :=
  match items with
  | [] => resolve []
  | item :: rest =>
      bind (f item) (λ b, bind (mapM f rest) (λ bs, resolve (b :: bs)))
  end.

End Async.

Notation "'let*' x ':=' m 'in' k" := (Async.bind m (fun x => k))
  (at level 10, x pattern, m at level 200, k at level 200).


(** ** [StandardConnectionService] *)

Section Service.

Context (lib : Imports) (world : World) (options : StandardConnectionServiceOptions).

(** [string === (string | undefined)] *)
Definition strictEquals (a : string) (b : option string) : bool :=
  match b with
  | Some b => String.eqb a b
  | None => false
  end.



(** [this._connections[connection.id] = connection; return connection;] *)
Definition cacheConnection (connection : Connection) : Async Connection :=
  let* _ := Async.emit (CacheConnection (conn_id connection) connection) in
  Async.resolve connection.

Definition getConnections (connectorId : option string) : Async (list Connection) :=
  if Js.truthy connectorId
  then
    let connectorId := default "" connectorId in
    Async.call (GetConnectionsForConnector connectorId)
      (λ h, getConnectionsForConnector world h connectorId)
  else
    let* (localConnections, apiHubConnections) :=
      Async.all2 (firstRejectsFirst world)
        (Async.call ReadConnections (readConnections world))
        (Async.call GetConnectionsInApiHub (getConnectionsInApiHub world)) in
    let serviceProviderConnections := default [] (serviceProviderConnections localConnections) in
    let functionConnections := default [] (functionConnections localConnections) in
    let apimConnections := default [] (apiManagementConnections localConnections) in
    let* _ := Async.emit AllConnectionsInitialized in
    let* fromServiceProviders :=
      Async.mapM (λ '(key, data),
        cacheConnection (convertServiceProviderConnectionDataToConnection key data))
        serviceProviderConnections in
    let* fromFunctions :=
      Async.mapM (λ '(key, data),
        cacheConnection (convertFunctionsConnectionDataToConnection lib key data))
        functionConnections in
    let* fromApim :=
      Async.mapM (λ '(key, data),
        cacheConnection (convertApimConnectionDataToConnection lib key data))
        apimConnections in
    Async.resolve (fromServiceProviders ++ fromFunctions ++ fromApim ++ apiHubConnections).

(** [baseUrl.replace('/runtime/webhooks/workflow/api/management', '')] followed
    by the request URL. *)
Definition testConnectionUri (requestUrl : string) : string :=
  Str.replaceFirst "/runtime/webhooks/workflow/api/management" "" (baseUrl options)
  +:+ requestUrl.

Definition _testServiceProviderConnection (requestUrl : string)
    (connectionData : ServiceProviderConnectionModel) : Async HttpResponse :=
  Async.tryCatch
    (let uri := testConnectionUri requestUrl in
     let* response :=
       Async.call (HttpPost uri [("api-version", apiVersion options)] connectionData)
         (λ h, httpPost world h uri connectionData) in
     match response with
     | None => Async.throw (ThrownResponse None)
     | Some r =>
         if Js.lessThan (status r) 200 || Js.atLeast (status r) 300
         then Async.throw (ThrownResponse response)
         else Async.resolve r
     end)
    (λ e, Async.throw e).

(** The union type forgets which model a payload is; the embedding keeps a
    tag. *)
Definition asLocal {T} (inject : T → LocalConnectionModel)
    (connectionsData : ConnectionAndAppSetting T) : ConnectionAndAppSetting LocalConnectionModel :=
  {| connectionKey := connectionKey connectionsData;
     connectionData := inject (connectionData connectionsData);
     settings := settings connectionsData;
     pathLocation := pathLocation connectionsData |}.

Definition _getConnectionsConfiguration (connectionName : string)
    (connectionInfo : ConnectionCreationInfo) (connector : Connector)
    (parametersMetadata : option ConnectionParametersMetadata)
    : Async (ConnectionAndAppSetting LocalConnectionModel * Connection) :=
  let connectionType := (parametersMetadata ≫= connectionMetadata) ≫= metadata_type in
  match connectionType with
  | Some Function =>
      let* connectionsData :=
        Async.lift (convertToFunctionsConnectionsData connectionName connectionInfo) in
      let connection :=
        convertFunctionsConnectionDataToConnection lib
          (connectionKey connectionsData) (connectionData connectionsData) in
      Async.resolve (asLocal FunctionsModel connectionsData, connection)
  | Some ApiManagement =>
      let connectionsData := convertToApimConnectionsData connectionName connectionInfo in
      let connection :=
        convertApimConnectionDataToConnection lib
          (connectionKey connectionsData) (connectionData connectionsData) in
      Async.resolve (asLocal APIManagementModel connectionsData, connection)
  | _ =>
      match parametersMetadata with
      | None =>
          Async.throw (ThrownTypeError "Cannot read properties of undefined (reading 'connectionParameters')")
      | Some metadata =>
          let* converted :=
            Async.lift (convertToServiceProviderConnectionsData lib connectionName
                          (connector_id connector) connectionInfo metadata) in
          let connectionsData := connectionAndSettings converted in
          let connection :=
            convertServiceProviderConnectionDataToConnection
              (connectionKey connectionsData) (connectionData connectionsData) in
          let* _ :=
            if Js.truthy (testConnectionUrl connector)
            then let* _ := _testServiceProviderConnection
                             (default "" (testConnectionUrl connector))
                             (rawConnection converted) in
                 Async.resolve ()
            else Async.resolve () in
          Async.resolve (asLocal ServiceProviderModel connectionsData, connection)
      end
  end.

(** The [if (connectionCreationClientName) { ... }] block of
    [createConnectionInLocal]: it resolves with the connection info to go
    on with.  [connectionCreationClients] is a plain object, given by the
    names it owns: [connectionCreationClients?.[name]] is truthy for a name
    it owns and for a name it inherits from [Object.prototype]; what is
    inherited has no [connectionCreationFunc], so calling it throws. *)
Definition callConnectionCreationClient (connectionName : string)
    (connectionInfo : ConnectionCreationInfo) (metadata : ConnectionParametersMetadata)
    : Async ConnectionCreationInfo :=
  let connectionCreationClientName := connectionMetadata metadata ≫= connectionCreationClient in
  if Js.truthy connectionCreationClientName
  then
    let client := default "" connectionCreationClientName in
    let notRegistered :=
      Async.throw (ThrownAssertionException "CONNECTION_CREATION_CLIENT_NOTREGISTERED"
        ("The connection creation client for " +:+ client +:+ " is not registered")) in
    match connectionCreationClients options with
    | Some registered =>
        if bool_decide (client ∈ registered)
        then Async.call (ConnectionCreationFunc client connectionInfo connectionName)
               (λ h, connectionCreationFunc world h client connectionInfo connectionName)
        else if Js.inheritedFromObject client
        then Async.throw (ThrownTypeError
               "connectionCreationClients[connectionCreationClientName].connectionCreationFunc is not a function")
        else notRegistered
    | None => notRegistered
    end
  else Async.resolve connectionInfo.

Definition createConnectionInLocal (connectionName : string) (connector : Connector)
    (connectionInfo : ConnectionCreationInfo)
    (parametersMetadata : option ConnectionParametersMetadata) : Async Connection :=
  match parametersMetadata with
  | None =>
      Async.throw (ThrownTypeError "Cannot read properties of undefined (reading 'connectionMetadata')")
  | Some metadata =>
      let* connectionInfo :=
        callConnectionCreationClient connectionName connectionInfo metadata in
      if negb (writeConnection options)
      then Async.throw (ThrownAssertionException "CALLBACK_NOTREGISTERED"
             "Callback for write connection is not passed in service.")
      else
        let* (connectionsData, connection) :=
          _getConnectionsConfiguration connectionName connectionInfo connector parametersMetadata in
        let* _ := Async.call (WriteConnection connectionsData)
                    (λ h, writeConnectionCallback world h connectionsData) in
        cacheConnection connection
  end.

(** NOTE: Use the system-assigned MI if exists, else use the first user
    assigned identity if identity is not specified. *)
Definition _getIdentityDetailsForApiHubAuth (managedIdentity : option ManagedIdentity)
    (tenantId : option string) (identityIdForConnection : option string)
    : Outcome IdentityDetails :=
  match managedIdentity with
  | None => inl (ThrownTypeError "Cannot read properties of undefined (reading 'type')")
  | Some managedIdentity =>
      if negb (Js.truthy identityIdForConnection)
         && (equals lib (identity_type managedIdentity) (Some (SYSTEM_ASSIGNED lib))
             || equals lib (identity_type managedIdentity) (Some (SYSTEM_ASSIGNED_USER_ASSIGNED lib)))
      then inr {| details_principalId := principalId managedIdentity;
                  details_tenantId := identity_tenantId managedIdentity |}
      else
        let identityKeys := (default [] (userAssignedIdentities managedIdentity)).*1 in
        let selectedIdentity :=
          match List.find (λ identityKey, equals lib (Some identityKey) identityIdForConnection)
                  identityKeys with
          | Some identityKey => Some identityKey
          | None => head identityKeys
          end in
        match userAssignedIdentities managedIdentity with
        | None => inr {| details_principalId := None; details_tenantId := tenantId |}
        | Some table =>
            match selectedIdentity ≫=
                    (λ selected, List.find (λ entry, String.eqb entry.1 selected) table) with
            | Some entry => inr {| details_principalId := ua_principalId entry.2;
                                   details_tenantId := tenantId |}
            | None => inl (ThrownTypeError "Cannot read properties of undefined (reading 'principalId')")
            end
        end
  end.

Definition _getConnectionAcls (connectionId : string) : Async (option (list ConnectionAcl)) :=
  let uri := connectionId +:+ "/accessPolicies" in
  Async.call
    (HttpGet uri [("api-version", hub_apiVersion (apiHubServiceDetails options))]
       [("x-ms-command-name", "LADesigner.getConnectionAcls")])
    (λ h, httpGetAcls world h uri).

(** [`${baseUrl}${connectionId}/accessPolicies/${policyName}`] with
    [policyName = `${appName}-${objectId}`] *)
Definition accessPolicyUri (connectionId appName : string) (objectId : option string) : string :=
  let policyName := appName +:+ "-" +:+ Js.template objectId in
  hub_baseUrl (apiHubServiceDetails options) +:+ connectionId +:+ "/accessPolicies/" +:+ policyName.

Definition accessPolicyContent (appName : string) (identityDetails : IdentityDetails)
    (location : option string) : AccessPolicy :=
  {| policy_name := appName;
     policy_type := "Microsoft.Web/connections/accessPolicy";
     policy_location := location;
     principal_type := "ActiveDirectory";
     policy_objectId := details_principalId identityDetails;
     policy_tenantId := details_tenantId identityDetails |}.

(** The [PUT] that [_createAccessPolicyInConnection] sends. *)
Definition accessPolicyPut (connectionId appName : string)
    (identityDetails : IdentityDetails) (location : option string) : Event :=
  HttpPut (accessPolicyUri connectionId appName (details_principalId identityDetails))
    [("api-version", hub_apiVersion (apiHubServiceDetails options))]
    [("If-Match", "*"); ("x-ms-command-name", "LADesigner.createAccessPolicyInConnection")]
    (accessPolicyContent appName identityDetails location).

Definition _createAccessPolicyInConnection (connectionId appName : string)
    (identityDetails : IdentityDetails) (location : option string) : Async () :=
  Async.call (accessPolicyPut connectionId appName identityDetails location)
    (λ h, httpPut world h
            (accessPolicyUri connectionId appName (details_principalId identityDetails))
            (accessPolicyContent appName identityDetails location)).

(** The predicate of [connectionAcls.some(...)]. *)
Definition aclMatches (identityDetailsForApiHubAuth : IdentityDetails)
    (tenantId : option string) (acl : ConnectionAcl) : bool :=
  strictEquals (acl_objectId acl) (details_principalId identityDetailsForApiHubAuth)
  && strictEquals (acl_tenantId acl) tenantId.

Definition _createConnectionAclIfNeeded (connection : Connection)
    (identityId : option string) : Async () :=
  let tenantId := hub_tenantId (apiHubServiceDetails options) in
  match workflowAppDetails options with
  | None => Async.resolve ()
  | Some details =>
      if negb (isArmResourceId lib (conn_id connection)) then Async.resolve ()
      else if negb (isIdentityAssociatedWithLogicApp lib (identity details))
      then Async.throw (ThrownError "A managed identity is not configured on the logic app.")
      else
        let* fetched := _getConnectionAcls (conn_id connection) in
        let connectionAcls := default [] fetched in
        let* identityDetailsForApiHubAuth :=
          Async.lift (_getIdentityDetailsForApiHubAuth (identity details) tenantId identityId) in
        Async.tryCatch
          (if negb (existsb (aclMatches identityDetailsForApiHubAuth tenantId) connectionAcls)
           then _createAccessPolicyInConnection (conn_id connection) (appName details)
                  identityDetailsForApiHubAuth (conn_location connection)
           else Async.resolve ())
          (λ _, Async.emit (LogError "ConnectionACLCreate" "Acl creation failed for connection."))
  end.

Definition aclCreationFailedMessage : string :=
  "Acl creation failed for connection. Deleting the connection.".

(** NOTE: Block connection creation if identity does not exist on Logic App. *)
Definition identityMissing : bool :=
  match workflowAppDetails options with
  | Some details => negb (isIdentityAssociatedWithLogicApp lib (identity details))
  | None => false
  end.

Definition _createConnectionInApiHub (connectionName connectorId : string)
    (connectionInfo : ConnectionCreationInfo) (shouldTestConnection : bool) : Async Connection :=
  if identityMissing
  then Async.throw (ThrownError
         "To create and use an API connection, you must have a managed identity configured on this logic app.")
  else
    let connectionId := getAzureConnectionRequestPath lib connectionName in
    let* connection :=
      Async.call (CreateConnectionInApiHub connectionName connectorId connectionInfo)
        (λ h, createConnectionInApiHub world h connectionName connectorId connectionInfo) in
    let* _ :=
      Async.tryCatch (_createConnectionAclIfNeeded connection None)
        (λ _,
           (* NOTE: Delete the connection created in this method if Acl creation failed. *)
           let* _ := Async.emit (DeleteConnection connectionId) in
           Async.throw (ThrownError aclCreationFailedMessage)) in
    let* _ :=
      if shouldTestConnection
      then Async.call (TestConnection connection) (λ h, testConnection world h connection)
      else Async.resolve () in
    Async.resolve connection.

(** The creation path [createConnection] chooses. *)
Definition createConnectionPath (connectionName : string) (connector : Connector)
    (connectionInfo : ConnectionCreationInfo)
    (parametersMetadata : option ConnectionParametersMetadata)
    (shouldTestConnection : bool) : Async Connection :=
  if isArmResourceId lib (connector_id connector)
  then _createConnectionInApiHub connectionName (connector_id connector) connectionInfo
         shouldTestConnection
  else createConnectionInLocal connectionName connector connectionInfo parametersMetadata.

Definition createConnection (connectionId : string) (connector : Connector)
    (connectionInfo : ConnectionCreationInfo)
    (parametersMetadata : option ConnectionParametersMetadata)
    (shouldTestConnection : bool) : Async Connection :=
  let connectionName := Str.lastSegment connectionId in
  Async.tryCatch
    (createConnectionPath connectionName connector connectionInfo parametersMetadata
       shouldTestConnection)
    (λ error,
       let* _ := Async.emit (DeleteConnection connectionId) in
       let errorMessage := "Failed to create connection: " +:+ tryParseErrorMessage lib error in
       let* _ := Async.emit (LogError "createConnection" errorMessage) in
       Async.throw (ThrownString errorMessage)).

(** Run when assigning a connection to an operation. *)
Definition setupConnectionIfNeeded (connection : Connection) (identityId : option string)
    : Async () :=
  _createConnectionAclIfNeeded connection identityId.





End Service.

(** ** Observations on histories *)

Definition isDeleteConnection (ev : Event) : bool :=
  match ev with
  | DeleteConnection _ => true
  | _ => false
  end.

(** How often [deleteConnection] was invoked. *)
Definition deletions (evs : History) : nat := length (filter isDeleteConnection evs).


Definition isHttpPut (ev : Event) : bool :=
  match ev with
  | HttpPut _ _ _ _ => true
  | _ => false
  end.

(** The events of the access-control step: the listing, the policy [PUT]
    and the log entry of a failed [PUT]. *)
Definition isAclEvent (ev : Event) : bool :=
  match ev with
  | HttpGet _ _ _ | HttpPut _ _ _ _ | LogError _ _ => true
  | _ => false
  end.

(** Bookkeeping on the service object itself: no call leaves the process. *)
Definition isBookkeeping (ev : Event) : bool :=
  match ev with
  | AllConnectionsInitialized | CacheConnection _ _ => true
  | _ => false
  end.

(** The storage location that belongs to a payload's model. *)
Definition modelLocation (model : LocalConnectionModel) : string :=
  match model with
  | ServiceProviderModel _ => serviceProviderLocation
  | FunctionsModel _ => functionsLocation
  | APIManagementModel _ => apimLocation
  end.

(** A write of a local connection goes to the location of its model. *)
Definition writesToOwnLocation (ev : Event) : Prop :=
  ∀ connectionsData, ev = WriteConnection connectionsData →
    pathLocation connectionsData = [modelLocation (connectionData connectionsData)].

(** [connectionData.authentication.value] of a function payload. *)
Definition authenticationValue (connectionData : FunctionsConnectionModel) : JsValue :=
  match fn_authentication connectionData with
  | JsObject fields => Js.getField "value" fields
  | _ => JsUndefined
  end.

(** The reference with its name in double quotes, [@appsetting("name")]:
    the spelling that the description of the payloads gives, to be compared
    with [appSettingReference]. *)
Definition doubleQuotedReference (appSettingName : string) : string :=
  "@appsetting(" +:+ String "034" (appSettingName +:+ String "034" ")").

(** What the entries of the three local tables convert to. *)
Definition fromServiceProvider (entry : string * ServiceProviderConnectionModel) : Connection :=
  convertServiceProviderConnectionDataToConnection entry.1 entry.2.

Definition fromFunction (lib : Imports) (entry : string * FunctionsConnectionModel) : Connection :=
  convertFunctionsConnectionDataToConnection lib entry.1 entry.2.

Definition fromApim (lib : Imports) (entry : string * APIManagementConnectionModel) : Connection :=
  convertApimConnectionDataToConnection lib entry.1 entry.2.

(** [this._connections[connection.id] = connection] *)
Definition cached (connection : Connection) : Event :=
  CacheConnection (conn_id connection) connection.


(** Whenever [m] resolves, its result satisfies [Q]. *)
Definition resolvesWith {A} (Q : A → Prop) (m : Async A) : Prop :=
  ∀ h h' a, m h = (h', inr a) → Q a.

(** [m] only ever appends events that satisfy [P]. *)
Definition emits {A} (P : Event → Prop) (m : Async A) : Prop :=
  ∀ h, ∃ evs, (m h).1 = h ++ evs ∧ Forall P evs.

(** ** A concrete setting

    One instance of the imports, the options and the world, to run the
    service on.  The imports follow the library's behaviour in the simplest
    way that fits their use here. *)
Module Sample.

(** Sets a value at a path of nested objects, creating the objects on the
    way. *)
Fixpoint setAtPath (target : JsRecord) (path : list string) (value : JsValue) : JsRecord :=
  match path with
  | [] => target
  | [leaf] => Js.setField leaf value target
  | property :: rest =>
      let inner := match Js.getField property target with
                   | JsObject fields => fields
                   | _ => []
                   end in
      Js.setField property (JsObject (setAtPath inner rest value)) target
  end.

Definition describe (e : Thrown) : string :=
  match e with
  | ThrownError message | ThrownTypeError message | ThrownString message => message
  | ThrownAssertionException _ message => message
  | ThrownResponse _ | ThrownValue _ => "Unknown error"
  end.

Definition sameText (a b : option string) : bool :=
  match a, b with
  | Some a, Some b => String.eqb a b
  | _, _ => false
  end.

Definition lib : Imports :=
  {| isArmResourceId := Str.startsWith "/subscriptions/";
     isIdentityAssociatedWithLogicApp := λ managedIdentity, bool_decide (is_Some managedIdentity);
     equals := sameText;
     optional := λ value, value;
     safeSetObjectPropertyValue := setAtPath;
     apiManagementConnectorId := "/connectionProviders/apiManagementOperation";
     azureFunctionConnectorId := "/connectionProviders/azureFunctionOperation";
     SYSTEM_ASSIGNED := "SystemAssigned";
     SYSTEM_ASSIGNED_USER_ASSIGNED := "SystemAssigned, UserAssigned";
     atob := λ encoded, inr encoded;
     getAzureConnectionRequestPath := λ connectionName,
       "/subscriptions/s1/resourceGroups/rg/providers/Microsoft.Web/connections/" +:+ connectionName;
     tryParseErrorMessage := describe |}.

Definition systemIdentity : ManagedIdentity :=
  {| identity_type := Some "SystemAssigned";
     principalId := Some "principal-1";
     identity_tenantId := Some "tenant-1";
     userAssignedIdentities := None |}.

Definition options : StandardConnectionServiceOptions :=
  {| apiVersion := "2018-11-01";
     baseUrl := "https://app.example/runtime/webhooks/workflow/api/management";
     apiHubServiceDetails :=
       {| hub_apiVersion := "2018-07-01-preview";
          hub_baseUrl := "https://management.azure.com";
          hub_tenantId := Some "tenant-1" |};
     workflowAppDetails := Some {| appName := "app"; identity := Some systemIdentity |};
     writeConnection := true;
     connectionCreationClients := None |}.

Definition office365 : Connector :=
  {| connector_id := "/subscriptions/s1/providers/Microsoft.Web/locations/westus/managedApis/office365";
     connector_name := "office365";
     connector_type := "Microsoft.Web/locations/managedApis";
     testConnectionUrl := None |}.

Definition sql : Connector :=
  {| connector_id := "/serviceProviders/sql";
     connector_name := "sql";
     connector_type := "ServiceProvider";
     testConnectionUrl := Some "/serviceProviders/sql/testConnection" |}.

Definition office365Id : string :=
  "/subscriptions/s1/resourceGroups/rg/providers/Microsoft.Web/connections/office365-1".

Definition created : Connection :=
  {| conn_name := "office365-1";
     conn_id := office365Id;
     conn_type := "Microsoft.Web/connections";
     conn_location := Some "westus";
     conn_apiId := connector_id office365;
     conn_createdTime := "";
     conn_displayName := Some "Mail";
     conn_statuses := [];
     conn_overallStatus := None |}.

Definition noParameters : ConnectionCreationInfo :=
  {| connectionParametersSet := None;
     info_connectionParameters := None;
     displayName := Some "Mail";
     appSettings := None |}.

(** A SQL connection whose connection string is kept in the app settings
    and whose server name is stored in the payload. *)
Definition sqlInfo : ConnectionCreationInfo :=
  {| connectionParametersSet := None;
     info_connectionParameters :=
       Some [("connectionString", JsString "Server=db;Password=hunter2");
             ("serverName", JsString "db")];
     displayName := Some "Orders";
     appSettings := None |}.

Definition sqlMetadata : ConnectionParametersMetadata :=
  {| connectionMetadata :=
       Some {| metadata_type := Some ServiceProvider; connectionCreationClient := None |};
     meta_connectionParameters :=
       Some {[ "connectionString" :=
                 {| parameterSource := Some AppConfiguration; propertyPath := None |};
               "serverName" :=
                 {| parameterSource := None; propertyPath := None |} ]};
     meta_connectionParameterSet := None |}.

(** An Azure function connection with its function key. *)
Definition functionInfo : ConnectionCreationInfo :=
  {| connectionParametersSet := None;
     info_connectionParameters :=
       Some [("function", JsObject [("id", JsString "/sites/app/functions/f")]);
             ("triggerUrl", JsString "https://app.example/api/f");
             ("authentication",
              JsObject [("type", JsString "QueryString");
                        ("name", JsString "Code");
                        ("value", JsString "secret-key")])];
     displayName := Some "f";
     appSettings := None |}.

(** An API-management connection with its subscription key. *)
Definition apimInfo : ConnectionCreationInfo :=
  {| connectionParametersSet := None;
     info_connectionParameters :=
       Some [("apiId", JsString "/service/apim/apis/orders");
             ("baseUrl", JsString "https://apim.example/orders");
             ("subscriptionKey", JsString "subscription-secret")];
     displayName := Some "orders";
     appSettings := None |}.

Definition existingAcl : ConnectionAcl :=
  {| acl_id := office365Id +:+ "/accessPolicies/app-principal-1";
     acl_name := "app-principal-1";
     acl_objectId := "principal-1";
     acl_tenantId := "tenant-1" |}.

(** A world described by its answers to the calls the proofs vary;
    everything else succeeds. *)
Definition worldWith
    (creation : Outcome Connection)
    (acls : Outcome (option (list ConnectionAcl)))
    (put : Outcome ())
    (test : Outcome ())
    (login : Outcome LoginResponse)
    (post : Outcome (option HttpResponse))
    (localConnections : Outcome ConnectionsData)
    (hubConnections : Outcome (list Connection)) : World :=
  {| readConnections := λ _, localConnections;
     getConnectionsInApiHub := λ _, hubConnections;
     getConnectionsForConnector := λ _ _, inr [];
     firstRejectsFirst := λ _, true;
     getAzureConnector := λ _ _, inr office365;
     httpGetConnector := λ _ _, inr sql;
     httpGetAcls := λ _ _, acls;
     httpPut := λ _ _ _, put;
     httpPost := λ _ _ _, post;
     createConnectionInApiHub := λ _ _ _ _, creation;
     testConnection := λ _ _, test;
     getConnection := λ _ _, creation;
     connectionCreationFunc := λ _ _ connectionInfo _, inr connectionInfo;
     writeConnectionCallback := λ _ _, inr ();
     fetchConsentUrlForConnection := λ _ _, inr "https://login.example/consent";
     openLoginPopup := λ _ _, inr ();
     loginPromise := λ _, login;
     confirmConsentCodeForConnection := λ _ _ _, inr () |}.

Definition noLocalConnections : ConnectionsData :=
  {| serviceProviderConnections := None;
     functionConnections := None;
     apiManagementConnections := None |}.

Definition loggedIn : LoginResponse := {| code := Some "code-1"; error := None |}.

(** Everything succeeds; the connection has no access policy yet. *)
Definition calm : World :=
  worldWith (inr created) (inr (Some [])) (inr ()) (inr ()) (inr loggedIn)
    (inr (Some {| status := Some 200%Z; body := JsUndefined |})) (inr noLocalConnections) (inr [created]).

(** The API hub refuses to create the connection. *)
Definition creationRefused : World :=
  worldWith (inl (ThrownError "Conflict")) (inr (Some [])) (inr ()) (inr ()) (inr loggedIn)
    (inr None) (inr noLocalConnections) (inr []).

(** The connection is created, but its access policies cannot be listed. *)
Definition aclsUnreachable : World :=
  worldWith (inr created) (inl (ThrownError "Forbidden")) (inr ()) (inr ()) (inr loggedIn)
    (inr None) (inr noLocalConnections) (inr []).

(** The connection is created, but the policy [PUT] is refused. *)
Definition putRefused : World :=
  worldWith (inr created) (inr (Some [])) (inl (ThrownError "Forbidden")) (inr ()) (inr loggedIn)
    (inr None) (inr noLocalConnections) (inr []).

(** The user cancels the login. *)
Definition loginCancelled : World :=
  worldWith (inr created) (inr (Some [])) (inr ()) (inr ())
    (inr {| code := None; error := Some "access_denied" |})
    (inr None) (inr noLocalConnections) (inr []).

End Sample.

(** ** Further observations *)

(** A connection as the three [convert...DataToConnection] functions build
    it from a key. *)
Definition isLocalConnection (connectionKey : string) (connection : Connection) : Prop :=
  conn_name connection = connectionKey
  ∧ conn_id connection = conn_apiId connection +:+ "/connections/" +:+ connectionKey
  ∧ conn_type connection = "connections"
  ∧ conn_statuses connection = ["Connected"]
  ∧ conn_overallStatus connection = Some "Connected".


(** The condition under which [_getIdentityDetailsForApiHubAuth] answers
    with the system-assigned identity: no identity was asked for and the
    type of the managed identity includes the system-assigned one. *)
Definition usesSystemAssigned (lib : Imports) (managedIdentity : ManagedIdentity)
    (identityIdForConnection : option string) : bool :=
  negb (Js.truthy identityIdForConnection)
  && (equals lib (identity_type managedIdentity) (Some (SYSTEM_ASSIGNED lib))
      || equals lib (identity_type managedIdentity) (Some (SYSTEM_ASSIGNED_USER_ASSIGNED lib))).

(** What [createConnectionInLocal] may call before it writes: the
    connection creation client and the test of a service-provider
    connection. *)
Definition isPreparation (ev : Event) : bool :=
  match ev with
  | ConnectionCreationFunc _ _ _ | HttpPost _ _ _ => true
  | _ => false
  end.

Definition isWriteConnection (ev : Event) : bool :=
  match ev with
  | WriteConnection _ => true
  | _ => false
  end.

Definition isCacheConnection (ev : Event) : bool :=
  match ev with
  | CacheConnection _ _ => true
  | _ => false
  end.

(** What [_testServiceProviderConnection] makes of the answer to its
    [POST]: it rejects with the error of the call, or with the answer
    itself when the answer is falsy or its status is a number below 200 or
    from 300 on. *)
Definition testOutcome (answer : Outcome (option HttpResponse)) : Outcome HttpResponse :=
  match answer with
  | inl e => inl e
  | inr None => inl (ThrownResponse None)
  | inr (Some r) =>
      if Js.lessThan (status r) 200 || Js.atLeast (status r) 300
      then inl (ThrownResponse (Some r))
      else inr r
  end.

(** The end of [createConnectionInLocal]: the payload goes to the
    [writeConnection] callback and, when the callback accepts it, the
    connection goes to the cache and is returned. *)
Definition writtenThenCached (world : World)
    (payload : ConnectionAndAppSetting LocalConnectionModel) (connection : Connection)
    (h : History) : History * Outcome Connection :=
  match writeConnectionCallback world h payload with
  | inl e => (h ++ [WriteConnection payload], inl e)
  | inr _ => (h ++ [WriteConnection payload; cached connection], inr connection)
  end.

(** An answer that passes the check of [_testServiceProviderConnection]:
    it is truthy and its status is not a number below 200 or from 300 on.
    A status that is no number at all passes. *)
Definition passesStatusCheck (response : option HttpResponse) : Prop :=
  ∃ r, response = Some r
       ∧ match status r with
         | Some n => (200 ≤ n < 300)%Z
         | None => True
         end.

(** [connectionData.displayName] of a payload, whatever its model. *)
Definition modelDisplayName (model : LocalConnectionModel) : option string :=
  match model with
  | ServiceProviderModel m => sp_displayName m
  | FunctionsModel m => fn_displayName m
  | APIManagementModel m => apim_displayName m
  end.

(** The connector a payload belongs to: the service provider it names, or
    the built-in function or API-management connector. *)
Definition modelApiId (lib : Imports) (model : LocalConnectionModel) : string :=
  match model with
  | ServiceProviderModel m => sp_serviceProviderId m
  | FunctionsModel _ => azureFunctionConnectorId lib
  | APIManagementModel _ => apiManagementConnectorId lib
  end.


(** The path that [_testServiceProviderConnection] takes out of the base
    URL. *)
Definition managementPath : string := "/runtime/webhooks/workflow/api/management".

(** ** More concrete cases *)
Module Cases.

(** The SQL connector declared without any app-configuration parameter. *)
Definition plainMetadata : ConnectionParametersMetadata :=
  {| connectionMetadata :=
       Some {| metadata_type := Some ServiceProvider; connectionCreationClient := None |};
     meta_connectionParameters :=
       Some {[ "connectionString" :=
                 {| parameterSource := Some (OtherParameterSource "Inline"); propertyPath := None |};
               "serverName" :=
                 {| parameterSource := None; propertyPath := None |} ]};
     meta_connectionParameterSet := None |}.

(** A logic app with two user-assigned identities. *)
Definition userIdentities : ManagedIdentity :=
  {| identity_type := Some "UserAssigned";
     principalId := None;
     identity_tenantId := None;
     userAssignedIdentities :=
       Some [("/identities/a", {| ua_principalId := Some "principal-a" |});
             ("/identities/b", {| ua_principalId := Some "principal-b" |})] |}.

(** A workflow with one stored service-provider connection and one stored
    function connection. *)
Definition storedConnections : ConnectionsData :=
  {| serviceProviderConnections :=
       Some [("sql-1", {| sp_parameterValues := [];
                          sp_serviceProviderId := "/serviceProviders/sql";
                          sp_parameterSetName := None;
                          sp_displayName := Some "orders" |})];
     functionConnections :=
       Some [("fn-1", {| fn_function := JsUndefined;
                         fn_triggerUrl := JsUndefined;
                         fn_authentication := JsUndefined;
                         fn_displayName := None |})];
     apiManagementConnections := None |}.

Definition storedWorld : World :=
  Sample.worldWith (inr Sample.created) (inr (Some [])) (inr ()) (inr ()) (inr Sample.loggedIn)
    (inr None) (inr storedConnections) (inr [Sample.created]).

(** A service that was given no [writeConnection] callback but has the
    creation client ["FileSystem"] registered. *)
Definition readOnlyOptions : StandardConnectionServiceOptions :=
  {| apiVersion := "2018-11-01";
     baseUrl := "https://app.example/runtime/webhooks/workflow/api/management";
     apiHubServiceDetails := apiHubServiceDetails Sample.options;
     workflowAppDetails := None;
     writeConnection := false;
     connectionCreationClients := Some {[ "FileSystem" ]} |}.

Definition fileSystemMetadata : ConnectionParametersMetadata :=
  {| connectionMetadata :=
       Some {| metadata_type := Some ServiceProvider;
               connectionCreationClient := Some "FileSystem" |};
     meta_connectionParameters := None;
     meta_connectionParameterSet := None |}.

(** A logic app without a managed identity. *)
Definition noIdentityOptions : StandardConnectionServiceOptions :=
  {| apiVersion := "2018-11-01";
     baseUrl := "https://app.example/runtime/webhooks/workflow/api/management";
     apiHubServiceDetails := apiHubServiceDetails Sample.options;
     workflowAppDetails := Some {| appName := "app"; identity := None |};
     writeConnection := true;
     connectionCreationClients := None |}.

(** The logic app of [Sample.options] with the two user-assigned
    identities instead of the system-assigned one. *)
Definition userIdentityOptions : StandardConnectionServiceOptions :=
  {| apiVersion := "2018-11-01";
     baseUrl := "https://app.example/runtime/webhooks/workflow/api/management";
     apiHubServiceDetails := apiHubServiceDetails Sample.options;
     workflowAppDetails := Some {| appName := "app"; identity := Some userIdentities |};
     writeConnection := true;
     connectionCreationClients := None |}.

Definition functionMetadata : ConnectionParametersMetadata :=
  {| connectionMetadata :=
       Some {| metadata_type := Some Function; connectionCreationClient := None |};
     meta_connectionParameters := None;
     meta_connectionParameterSet := None |}.

End Cases.
Section EscapeFacts.

Lemma append_nil_l (s : string) : "" +:+ s = s.
Proof. reflexivity. Qed.

Lemma append_cons a (s t : string) : String a s +:+ t = String a (s +:+ t).
Proof. reflexivity. Qed.

Lemma append_assoc (s t u : string) : (s +:+ t) +:+ u = s +:+ (t +:+ u).
Proof.
  induction s as [|a s IH]; [done|]. by rewrite !append_cons, IH.
Qed.

Lemma append_length (s t : string) :
  String.length (s +:+ t) = String.length s + String.length t.
Proof.
  induction s as [|a s IH]; [done|]. rewrite append_cons. simpl. by rewrite IH.
Qed.

Lemma append_inj_l (p s t : string) : p +:+ s = p +:+ t → s = t.
Proof. apply String.app_inj. Qed.

Lemma append_inj_r (s t q : string) : s +:+ q = t +:+ q → s = t.
Proof.
  revert t. induction s as [|a s IH]; intros [|b t]; intros Heq.
  - done.
  - apply (f_equal String.length) in Heq.
    rewrite append_cons, append_nil_l in Heq. simpl in Heq.
    rewrite append_length in Heq. lia.
  - apply (f_equal String.length) in Heq.
    rewrite append_cons, append_nil_l in Heq. simpl in Heq.
    rewrite append_length in Heq. lia.
  - rewrite !append_cons in Heq. injection Heq as -> Heq. f_equal. by apply IH.
Qed.

Lemma replaceAll_app c r s t :
  Str.replaceAll c r (s +:+ t) = Str.replaceAll c r s +:+ Str.replaceAll c r t.
Proof.
  induction s as [|a s IH]; [done|].
  rewrite append_cons. simpl.
  destruct (Ascii.eqb a c); rewrite IH; [|done].
  by rewrite append_assoc.
Qed.

Lemma escapeSpecialChars_cons a s :
  escapeSpecialChars (String a s) = escapeChar a +:+ escapeSpecialChars s.
Proof.
  unfold escapeSpecialChars, escapeChar. simpl.
  destruct (Ascii.eqb a "_") eqn:Hu.
  - by rewrite replaceAll_app.
  - simpl. by destruct (Ascii.eqb a "-").
Qed.

(** The three code words: ["__"], ["_1"], and any other single character
    (never ['_'] nor ['-']).  No code word is a prefix of another. *)
Lemma escapeChar_cases a :
  (a = "_"%char ∧ escapeChar a = "__")
  ∨ (a = "-"%char ∧ escapeChar a = "_1")
  ∨ (a ≠ "_"%char ∧ a ≠ "-"%char ∧ escapeChar a = String a EmptyString).
Proof.
  unfold escapeChar.
  destruct (Ascii.eqb_spec a "_") as [->|Hu]; [by left|].
  destruct (Ascii.eqb_spec a "-") as [->|Hd]; [by right; left|].
  by right; right.
Qed.

Lemma escapeSpecialChars_inj x y :
  escapeSpecialChars x = escapeSpecialChars y → x = y.
Proof.
  revert y. induction x as [|a x IH]; intros [|b y].
  - done.
  - rewrite escapeSpecialChars_cons.
    destruct (escapeChar_cases b) as [[_ ->]|[[_ ->]|(_ & _ & ->)]]; discriminate.
  - rewrite escapeSpecialChars_cons.
    destruct (escapeChar_cases a) as [[_ ->]|[[_ ->]|(_ & _ & ->)]]; discriminate.
  - rewrite !escapeSpecialChars_cons.
    destruct (escapeChar_cases a) as [[-> ->]|[[-> ->]|(Ha1 & Ha2 & ->)]];
      destruct (escapeChar_cases b) as [[-> ->]|[[-> ->]|(Hb1 & Hb2 & ->)]];
      rewrite ?append_cons, ?append_nil_l; intros Heq;
      injection Heq as Heq; subst; try congruence;
      try (injection Heq as Heq; subst); try congruence;
      f_equal; by apply IH.
Qed.

Lemma contains_app c s t :
  Str.contains c (s +:+ t) = Str.contains c s || Str.contains c t.
Proof.
  induction s as [|a s IH]; [done|].
  rewrite append_cons. simpl. by rewrite IH, orb_assoc.
Qed.

Lemma escapeSpecialChars_no_dash value :
  Str.contains "-" (escapeSpecialChars value) = false.
Proof.
  induction value as [|a s IH]; [done|].
  rewrite escapeSpecialChars_cons, contains_app, IH, orb_false_r.
  destruct (escapeChar_cases a) as [[_ ->]|[[_ ->]|(_ & Hd & ->)]]; [done..|].
  simpl. rewrite orb_false_r. by apply Ascii.eqb_neq.
Qed.

End EscapeFacts.


(** ** Facts about [Async] *)

Section AsyncFacts.

Context {A B : Type}.

Lemma run_bind (m : Async A) (k : A → Async B) h :
  Async.bind m k h =
    match m h with
    | (h', inr a) => k a h'
    | (h', inl e) => (h', inl e)
    end.
Proof. reflexivity. Qed.

Lemma run_tryCatch (m : Async A) (handler : Thrown → Async A) h :
  Async.tryCatch m handler h =
    match m h with
    | (h', inl e) => handler e h'
    | (h', inr a) => (h', inr a)
    end.
Proof. reflexivity. Qed.

Lemma emits_resolve (P : Event → Prop) (a : A) : emits P (Async.resolve a).
Proof. intros h. exists []. by rewrite app_nil_r. Qed.

Lemma emits_throw (P : Event → Prop) e : emits P (Async.throw (A := A) e).
Proof. intros h. exists []. by rewrite app_nil_r. Qed.

Lemma emits_lift (P : Event → Prop) (o : Outcome A) : emits P (Async.lift o).
Proof. intros h. exists []. by rewrite app_nil_r. Qed.

Lemma emits_call (P : Event → Prop) ev (answer : History → Outcome A) :
  P ev → emits P (Async.call ev answer).
Proof. intros HP h. exists [ev]. split; [done|]. by constructor. Qed.

Lemma emits_bind (P : Event → Prop) (m : Async A) (k : A → Async B) :
  emits P m → (∀ a, emits P (k a)) → emits P (Async.bind m k).
Proof.
  intros Hm Hk h. rewrite run_bind.
  destruct (Hm h) as (evs & Eh & Hevs).
  destruct (m h) as [h' [e|a]]; simpl in Eh; subst h'.
  - by exists evs.
  - destruct (Hk a (h ++ evs)) as (evs' & Eh' & Hevs').
    exists (evs ++ evs'). rewrite Eh', app_assoc. split; [done|].
    by apply Forall_app.
Qed.

Lemma emits_tryCatch (P : Event → Prop) (m : Async A) (handler : Thrown → Async A) :
  emits P m → (∀ e, emits P (handler e)) → emits P (Async.tryCatch m handler).
Proof.
  intros Hm Hk h. rewrite run_tryCatch.
  destruct (Hm h) as (evs & Eh & Hevs).
  destruct (m h) as [h' [e|a]]; simpl in Eh; subst h'.
  - destruct (Hk e (h ++ evs)) as (evs' & Eh' & Hevs').
    exists (evs ++ evs'). rewrite Eh', app_assoc. split; [done|].
    by apply Forall_app.
  - by exists evs.
Qed.

Lemma emits_all2 (P : Event → Prop) first (m1 : Async A) (m2 : Async B) :
  emits P m1 → emits P m2 → emits P (Async.all2 first m1 m2).
Proof.
  intros H1 H2 h. unfold Async.all2.
  destruct (H1 h) as (evs1 & E1 & F1).
  destruct (m1 h) as [h1 r1]; simpl in E1; subst h1.
  destruct (H2 (h ++ evs1)) as (evs2 & E2 & F2).
  destruct (m2 (h ++ evs1)) as [h2 r2]; simpl in E2; subst h2.
  exists (evs1 ++ evs2). rewrite app_assoc. split; [done|]. by apply Forall_app.
Qed.


End AsyncFacts.

Lemma emits_mapM {A B} (P : Event → Prop) (f : A → Async B) items :
  (∀ item, emits P (f item)) → emits P (Async.mapM f items).
Proof.
  intros Hf. induction items as [|item rest IH]; simpl.
  - apply emits_resolve.
  - apply emits_bind; [apply Hf|]. intros b.
    apply emits_bind; [apply IH|]. intros bs. apply emits_resolve.
Qed.

Lemma emits_emit (P : Event → Prop) ev : P ev → emits P (Async.emit ev).
Proof. intros HP h. exists [ev]. split; [done|]. by constructor. Qed.

(** Breaks a goal [emits P m] down along the structure of [m]. *)
Ltac emits_step :=
  lazymatch goal with
  | |- emits _ (Async.bind _ _) => apply emits_bind; [|intros ?]
  | |- emits _ (Async.tryCatch _ _) => apply emits_tryCatch; [|intros ?]
  | |- emits _ (Async.all2 _ _ _) => apply emits_all2
  | |- emits _ (Async.mapM _ _) => apply emits_mapM; intros ?
  | |- emits _ (Async.resolve _) => apply emits_resolve
  | |- emits _ (Async.throw _) => apply emits_throw
  | |- emits _ (Async.lift _) => apply emits_lift
  | |- emits _ (Async.call _ _) => apply emits_call
  | |- emits _ (Async.emit _) => apply emits_emit
  | |- emits _ (if ?b then _ else _) => destruct b
  | |- emits _ (match ?x with _ => _ end) => destruct x
  | |- emits _ (let (_, _) := ?x in _) => destruct x
  end.

Lemma deletions_app evs1 evs2 : deletions (evs1 ++ evs2) = deletions evs1 + deletions evs2.
Proof. unfold deletions. by rewrite filter_app, length_app. Qed.

Lemma deletions_none evs :
  Forall (λ ev, isDeleteConnection ev = false) evs → deletions evs = 0.
Proof.
  unfold deletions. induction 1 as [|ev evs Hev _ IH]; [done|].
  rewrite filter_cons. destruct (decide (isDeleteConnection ev)) as [Hd|Hd]; [|done].
  rewrite Hev in Hd. done.
Qed.

(** ** The steps that never delete, test or write *)

Section Quiet.

Context (lib : Imports) (world : World) (options : StandardConnectionServiceOptions).

Lemma acl_step_events connection identityId :
  emits (λ ev, isAclEvent ev = true)
    (_createConnectionAclIfNeeded lib world options connection identityId).
Proof.
  unfold _createConnectionAclIfNeeded, _getConnectionAcls, _createAccessPolicyInConnection.
  repeat emits_step; done.
Qed.



End Quiet.

(** ** Creation through the API hub, step by step *)

Section HubRun.

Context (lib : Imports) (world : World) (options : StandardConnectionServiceOptions).

Lemma startsWith_append (p s : string) : Str.startsWith p (p +:+ s) = true.
Proof.
  induction p as [|a p IH]; [done|].
  rewrite append_cons. simpl. by rewrite Ascii.eqb_refl, IH.
Qed.

Lemma hub_blocked connectionName connectorId connectionInfo shouldTestConnection h :
  identityMissing lib options = true →
  ∃ e, _createConnectionInApiHub lib world options connectionName connectorId connectionInfo
         shouldTestConnection h = (h, inl e).
Proof. intros Hg. unfold _createConnectionInApiHub. rewrite Hg. by eexists. Qed.

Lemma hub_creation_fails connectionName connectorId connectionInfo shouldTestConnection h e :
  identityMissing lib options = false →
  createConnectionInApiHub world h connectionName connectorId connectionInfo = inl e →
  _createConnectionInApiHub lib world options connectionName connectorId connectionInfo
    shouldTestConnection h
  = (h ++ [CreateConnectionInApiHub connectionName connectorId connectionInfo], inl e).
Proof.
  intros Hg Hc. unfold _createConnectionInApiHub. rewrite Hg.
  rewrite run_bind. unfold Async.call. by rewrite Hc.
Qed.

(** After a successful creation everything hinges on the access-control
    step. *)
Lemma hub_run connectionName connectorId connectionInfo shouldTestConnection h connection :
  identityMissing lib options = false →
  createConnectionInApiHub world h connectionName connectorId connectionInfo = inr connection →
  _createConnectionInApiHub lib world options connectionName connectorId connectionInfo
    shouldTestConnection h
  = match _createConnectionAclIfNeeded lib world options connection None
            (h ++ [CreateConnectionInApiHub connectionName connectorId connectionInfo]) with
    | (h1, inl _) =>
        (h1 ++ [DeleteConnection (getAzureConnectionRequestPath lib connectionName)],
         inl (ThrownError aclCreationFailedMessage))
    | (h1, inr _) =>
        if shouldTestConnection
        then (h1 ++ [TestConnection connection],
              match testConnection world h1 connection with
              | inl e => inl e
              | inr _ => inr connection
              end)
        else (h1, inr connection)
    end.
Proof.
  intros Hg Hc. unfold _createConnectionInApiHub. rewrite Hg.
  rewrite run_bind. unfold Async.call at 1. rewrite Hc.
  rewrite run_bind, run_tryCatch.
  destruct (_createConnectionAclIfNeeded _ _ _ _ _ _) as [h1 [e|[]]]; [done|].
  rewrite run_bind. destruct shouldTestConnection; [|done].
  unfold Async.call. by destruct (testConnection world h1 connection).
Qed.

End HubRun.

(** ** Claims *)

(** C1: whenever the creation path that [createConnection] chose — the API
    hub for a connector with an ARM resource id, the local one otherwise —
    throws, [createConnection] invokes [deleteConnection] on the connection
    id it was given, and rejects with the message ["Failed to create
    connection: "] followed by the parsed error; it does not resolve with a
    connection. *)
Theorem createConnection_cleans_up_on_failure
    (lib : Imports) (world : World) (options : StandardConnectionServiceOptions)
    (connectionId : string) (connector : Connector) (connectionInfo : ConnectionCreationInfo)
    (parametersMetadata : option ConnectionParametersMetadata) (shouldTestConnection : bool)
    (h h' : History) (error : Thrown) :
  (isArmResourceId lib (connector_id connector) = true
   ∧ _createConnectionInApiHub lib world options (Str.lastSegment connectionId)
       (connector_id connector) connectionInfo shouldTestConnection h = (h', inl error))
  ∨ (isArmResourceId lib (connector_id connector) = false
     ∧ createConnectionInLocal lib world options (Str.lastSegment connectionId)
         connector connectionInfo parametersMetadata h = (h', inl error)) →
  ∃ message,
    createConnection lib world options connectionId connector connectionInfo
      parametersMetadata shouldTestConnection h
    = (h' ++ [DeleteConnection connectionId; LogError "createConnection" message],
       inl (ThrownString message))
    ∧ message = "Failed to create connection: " +:+ tryParseErrorMessage lib error
    ∧ Str.startsWith "Failed to create connection: " message = true.
Proof.
  intros Hpath.
  exists ("Failed to create connection: " +:+ tryParseErrorMessage lib error).
  split; [|split; [done|apply startsWith_append]].
  unfold createConnection. rewrite run_tryCatch. unfold createConnectionPath.
  destruct Hpath as [[-> ->]|[-> ->]];
    unfold Async.bind, Async.emit, Async.throw; simpl;
    by rewrite <- app_assoc.
Qed.

Lemma createConnection_cleans_up_witness :
  ∃ message,
    createConnection Sample.lib Sample.creationRefused Sample.options Sample.office365Id
      Sample.office365 Sample.noParameters None true []
    = ([CreateConnectionInApiHub "office365-1" (connector_id Sample.office365) Sample.noParameters]
         ++ [DeleteConnection Sample.office365Id; LogError "createConnection" message],
       inl (ThrownString message))
    ∧ message = "Failed to create connection: " +:+ tryParseErrorMessage Sample.lib (ThrownError "Conflict")
    ∧ Str.startsWith "Failed to create connection: " message = true.
Proof.
  apply (createConnection_cleans_up_on_failure Sample.lib Sample.creationRefused Sample.options
           Sample.office365Id Sample.office365 Sample.noParameters None true []).
  left. split; reflexivity.
Defined.

Lemma outside_acl_events aclEvents ev rest :
  Forall (λ ev, isAclEvent ev = true) aclEvents →
  ev ∈ aclEvents ++ rest → isAclEvent ev = false → ev ∈ rest.
Proof.
  intros Hall Hin Hev. apply elem_of_app in Hin as [Hin|Hin]; [|done].
  rewrite Forall_forall in Hall. rewrite (Hall ev Hin) in Hev. done.
Qed.

Lemma acl_events_deletions evs :
  Forall (λ ev, isAclEvent ev = true) evs → deletions evs = 0.
Proof.
  intros Hall. apply deletions_none. eapply Forall_impl; [exact Hall|].
  intros ev Hev. by destruct ev.
Qed.

(** What holds of the awaited access-control step, whatever it does
    inside: [_createConnectionInApiHub] calls the API hub to create the
    connection before anything else, and runs the step
    ([_createConnectionAclIfNeeded]) only on the connection that call
    returned.  The step rejects if and only if the method invokes
    [deleteConnection] on the connection it has just created and throws
    ["Acl creation failed for connection. Deleting the connection."].  The
    connection is tested if and only if [shouldTestConnection] holds and the
    step resolved, and then the test is the last call.  That the step
    resolves does not mean that the access policy was created: a refused
    policy [PUT] is only logged. *)
Theorem apiHub_acl_failure_rolls_back
    (lib : Imports) (world : World) (options : StandardConnectionServiceOptions)
    (connectionName connectorId : string) (connectionInfo : ConnectionCreationInfo)
    (shouldTestConnection : bool) (h : History) :
  let creation := CreateConnectionInApiHub connectionName connectorId connectionInfo in
  let rollback := DeleteConnection (getAzureConnectionRequestPath lib connectionName) in
  let run := _createConnectionInApiHub lib world options connectionName connectorId
               connectionInfo shouldTestConnection h in
  (* the creation call comes first *)
  (∃ evs, run.1 = h ++ evs ∧ (evs = [] ∨ ∃ rest, evs = creation :: rest))
  (* and when it fails, nothing follows *)
  ∧ (∀ e, identityMissing lib options = false →
          createConnectionInApiHub world h connectionName connectorId connectionInfo = inl e →
          run = (h ++ [creation], inl e))
  ∧ (∀ connection,
       identityMissing lib options = false →
       createConnectionInApiHub world h connectionName connectorId connectionInfo = inr connection →
       let acl := _createConnectionAclIfNeeded lib world options connection None (h ++ [creation]) in
       ∃ aclEvents rest,
         acl.1 = (h ++ [creation]) ++ aclEvents
         ∧ Forall (λ ev, isAclEvent ev = true) aclEvents
         ∧ run.1 = (h ++ [creation]) ++ aclEvents ++ rest
         ∧ ((∃ e, acl.2 = inl e) ↔
            (rollback ∈ aclEvents ++ rest
             ∧ run.2 = inl (ThrownError "Acl creation failed for connection. Deleting the connection.")))
         ∧ ((∃ e, acl.2 = inl e) → rest = [rollback])
         ∧ (acl.2 = inr () → deletions (aclEvents ++ rest) = 0)
         ∧ (∀ c, TestConnection c ∈ aclEvents ++ rest ↔
                 (shouldTestConnection = true ∧ acl.2 = inr () ∧ c = connection))
         ∧ (shouldTestConnection = true → acl.2 = inr () → rest = [TestConnection connection])).
Proof.
  intros creation rollback run. split; [|split].
  - destruct (identityMissing lib options) eqn:Hg.
    + destruct (hub_blocked lib world options connectionName connectorId connectionInfo
                  shouldTestConnection h Hg) as [e He].
      exists []. subst run. rewrite He, app_nil_r. split; [done|by left].
    + destruct (createConnectionInApiHub world h connectionName connectorId connectionInfo)
        as [e|connection] eqn:Hc.
      * exists [creation]. subst run. erewrite hub_creation_fails by done.
        split; [done|]. right. by exists [].
      * destruct (acl_step_events lib world options connection None (h ++ [creation]))
          as (aclEvents & E & _).
        subst run. erewrite hub_run by done. fold creation.
        destruct (_createConnectionAclIfNeeded _ _ _ _ _ _) as [h1 [e|[]]];
          simpl in E; subst h1.
        -- exists (creation :: aclEvents ++ [rollback]). simpl.
           rewrite <- !app_assoc. split; [done|]. right. by eexists.
        -- destruct shouldTestConnection; simpl.
           ++ exists (creation :: aclEvents ++ [TestConnection connection]).
              rewrite <- !app_assoc. split; [done|]. right. by eexists.
           ++ exists (creation :: aclEvents).
              rewrite <- !app_assoc. split; [done|]. right. by eexists.
  - intros e Hg Hc. subst run. by apply hub_creation_fails.
  - intros connection Hg Hc acl.
    destruct (acl_step_events lib world options connection None (h ++ [creation]))
      as (aclEvents & E & Hacl).
    subst run acl. erewrite hub_run by done. fold creation.
    destruct (_createConnectionAclIfNeeded _ _ _ _ _ _) as [h1 [e|[]]];
      simpl in E; subst h1; simpl.
    + exists aclEvents, [rollback]. rewrite <- !app_assoc.
      split_and!; try done.
      * split; [|by eexists]. intros _. split; [|done].
        apply elem_of_app. right. by apply list_elem_of_singleton.
      * intros c. split; [|by intros (_ & ? & _)].
        intros Hin. apply (outside_acl_events _ _ _ Hacl) in Hin; [|done].
        by apply list_elem_of_singleton in Hin.
    + destruct shouldTestConnection; simpl.
      * exists aclEvents, [TestConnection connection]. rewrite <- !app_assoc.
        split_and!; try done.
        -- split; [by intros [e ?]|]. intros [Hin _].
           apply (outside_acl_events _ _ _ Hacl) in Hin; [|done].
           by apply list_elem_of_singleton in Hin.
        -- by intros [e ?].
        -- intros _. by rewrite deletions_app, acl_events_deletions.
        -- intros c. split.
           ++ intros Hin. apply (outside_acl_events _ _ _ Hacl) in Hin; [|done].
              apply list_elem_of_singleton in Hin. by injection Hin as ->.
           ++ intros (_ & _ & ->). apply elem_of_app. right.
              by apply list_elem_of_singleton.
      * exists aclEvents, [].
        split_and!; try done.
        -- by rewrite app_nil_r.
        -- split; [by intros [e ?]|]. intros [Hin _].
           apply (outside_acl_events _ _ [] Hacl) in Hin; [|done].
           by apply elem_of_nil in Hin.
        -- by intros [e ?].
        -- intros _. rewrite app_nil_r. by apply acl_events_deletions.
        -- intros c. split; [|by intros (? & _)]. intros Hin.
           apply (outside_acl_events _ _ [] Hacl) in Hin; [|done].
           by apply elem_of_nil in Hin.
Qed.

Lemma apiHub_acl_failure_witness :
  DeleteConnection Sample.office365Id
    ∈ (_createConnectionInApiHub Sample.lib Sample.aclsUnreachable Sample.options "office365-1"
         (connector_id Sample.office365) Sample.noParameters true []).1
  ∧ (_createConnectionInApiHub Sample.lib Sample.aclsUnreachable Sample.options "office365-1"
       (connector_id Sample.office365) Sample.noParameters true []).2
    = inl (ThrownError "Acl creation failed for connection. Deleting the connection.").
Proof.
  destruct (apiHub_acl_failure_rolls_back Sample.lib Sample.aclsUnreachable Sample.options
              "office365-1" (connector_id Sample.office365) Sample.noParameters true [])
    as (_ & _ & Hcreated).
  destruct (Hcreated Sample.created eq_refl eq_refl)
    as (aclEvents & rest & _ & _ & Hrun & Hiff & _).
  destruct (proj1 Hiff (ex_intro _ (ThrownError "Forbidden") eq_refl)) as [Hin Hthrown].
  split; [|exact Hthrown].
  rewrite Hrun. apply elem_of_app. right. exact Hin.
Defined.

(** ** Counting deletions *)

Section Deletions.

Context (lib : Imports) (world : World) (options : StandardConnectionServiceOptions).








End Deletions.

Section OAuthDeletions.

Context (lib : Imports) (world : World) (options : StandardConnectionServiceOptions).



End OAuthDeletions.



(** ** Listing connections *)

(** Converting a table caches and returns each connection, in key order. *)
Lemma mapM_cacheConnection {A} (f : A → Async Connection) (g : A → Connection) items h :
  (∀ item, f item = cacheConnection (g item)) →
  Async.mapM f items h = (h ++ map (λ item, cached (g item)) items, inr (map g items)).
Proof.
  intros Hf. revert h. induction items as [|item rest IH]; intros h; simpl.
  - unfold Async.resolve. by rewrite app_nil_r.
  - rewrite run_bind, Hf. unfold cacheConnection at 1.
    unfold Async.bind at 1, Async.emit, Async.resolve at 1. simpl.
    rewrite run_bind, IH. unfold Async.resolve. simpl. by rewrite <- app_assoc.
Qed.

Lemma all2_calls {A B} first ev1 ev2 (answer1 : History → Outcome A)
    (answer2 : History → Outcome B) h :
  Async.all2 first (Async.call ev1 answer1) (Async.call ev2 answer2) h
  = (h ++ [ev1; ev2],
     match answer1 h, answer2 (h ++ [ev1]) with
     | inr a, inr b => inr (a, b)
     | inl e, inr _ => inl e
     | inr _, inl e => inl e
     | inl e1, inl e2 => if first h then inl e1 else inl e2
     end).
Proof. unfold Async.all2, Async.call. by rewrite <- app_assoc. Qed.

Lemma cached_bookkeeping {A} (g : A → Connection) items :
  Forall (λ ev, isBookkeeping ev = true) (map (λ item, cached (g item)) items).
Proof. apply Forall_map, Forall_forall. done. Qed.

Lemma listAll_run (lib : Imports) (localConnections : ConnectionsData)
    (apiHubConnections : list Connection) h :
  let serviceProviders := default [] (serviceProviderConnections localConnections) in
  let functions := default [] (functionConnections localConnections) in
  let apims := default [] (apiManagementConnections localConnections) in
  (let* _ := Async.emit AllConnectionsInitialized in
   let* fromServiceProviders :=
     Async.mapM (λ '(key, data),
       cacheConnection (convertServiceProviderConnectionDataToConnection key data))
       serviceProviders in
   let* fromFunctions :=
     Async.mapM (λ '(key, data),
       cacheConnection (convertFunctionsConnectionDataToConnection lib key data))
       functions in
   let* fromApim :=
     Async.mapM (λ '(key, data),
       cacheConnection (convertApimConnectionDataToConnection lib key data))
       apims in
   Async.resolve (fromServiceProviders ++ fromFunctions ++ fromApim ++ apiHubConnections)) h
  = (h ++ AllConnectionsInitialized
       :: map (λ entry, cached (fromServiceProvider entry)) serviceProviders
       ++ map (λ entry, cached (fromFunction lib entry)) functions
       ++ map (λ entry, cached (fromApim lib entry)) apims,
     inr (map fromServiceProvider serviceProviders ++ map (fromFunction lib) functions
          ++ map (fromApim lib) apims ++ apiHubConnections)).
Proof.
  intros serviceProviders functions apims.
  unfold Async.bind at 1, Async.emit. simpl.
  rewrite run_bind.
  rewrite (mapM_cacheConnection _ fromServiceProvider) by (by intros [key data]).
  rewrite run_bind.
  rewrite (mapM_cacheConnection _ (fromFunction lib)) by (by intros [key data]).
  rewrite run_bind.
  rewrite (mapM_cacheConnection _ (fromApim lib)) by (by intros [key data]).
  unfold Async.resolve. f_equal.
  rewrite <- !app_assoc. done.
Qed.

(** C4: [getConnections()] without a connector id makes exactly two reads,
    the [readConnections] callback and the API-hub listing, both started by
    one [Promise.all] whatever the other one does; everything after them is
    bookkeeping on the service object.  When both reads succeed the result
    is the converted service-provider connections, then the converted
    function connections, then the converted API-management connections,
    then the API-hub connections; when a read fails the call rejects with
    that read's error. *)
Theorem getConnections_reads_both_then_concatenates
    (lib : Imports) (world : World) (h : History) :
  let run := getConnections lib world None h in
  ∃ bookkeeping,
    run.1 = h ++ [ReadConnections; GetConnectionsInApiHub] ++ bookkeeping
    ∧ Forall (λ ev, isBookkeeping ev = true) bookkeeping
    ∧ match readConnections world h, getConnectionsInApiHub world (h ++ [ReadConnections]) with
      | inr localConnections, inr apiHubConnections =>
          run.2 = inr (map fromServiceProvider
                         (default [] (serviceProviderConnections localConnections))
                       ++ map (fromFunction lib)
                            (default [] (functionConnections localConnections))
                       ++ map (fromApim lib)
                            (default [] (apiManagementConnections localConnections))
                       ++ apiHubConnections)
      | inl e, inr _ | inr _, inl e => bookkeeping = [] ∧ run.2 = inl e
      | inl e1, inl e2 => bookkeeping = [] ∧ (run.2 = inl e1 ∨ run.2 = inl e2)
      end.
Proof.
  intros run. subst run. unfold getConnections. simpl.
  rewrite run_bind, all2_calls.
  destruct (readConnections world h) as [e1|localConnections];
    destruct (getConnectionsInApiHub world (h ++ [ReadConnections])) as [e2|apiHubConnections].
  - exists []. destruct (firstRejectsFirst world h); simpl; split_and!; auto.
  - by exists [].
  - by exists [].
  - rewrite listAll_run. simpl.
    exists (AllConnectionsInitialized
            :: map (λ entry, cached (fromServiceProvider entry))
                 (default [] (serviceProviderConnections localConnections))
            ++ map (λ entry, cached (fromFunction lib entry))
                 (default [] (functionConnections localConnections))
            ++ map (λ entry, cached (fromApim lib entry))
                 (default [] (apiManagementConnections localConnections))).
    split; [|split; [|reflexivity]].
    + by rewrite <- app_assoc.
    + apply Forall_cons. split; [done|].
      repeat apply Forall_app_2;
        apply (cached_bookkeeping (A := string * _)).
Qed.

(** ** Access-control reconciliation *)

Lemma strictEquals_true a b : strictEquals a b = true ↔ Some a = b.
Proof.
  destruct b as [b|]; simpl; [|done].
  rewrite String.eqb_eq. split; congruence.
Qed.

Lemma aclMatches_true identityDetails tenantId acl :
  aclMatches identityDetails tenantId acl = true
  ↔ Some (acl_objectId acl) = details_principalId identityDetails
    ∧ Some (acl_tenantId acl) = tenantId.
Proof. unfold aclMatches. by rewrite andb_true_iff, !strictEquals_true. Qed.

Lemma some_aclMatches identityDetails tenantId acls :
  existsb (aclMatches identityDetails tenantId) acls = true
  ↔ ∃ acl, acl ∈ acls
           ∧ Some (acl_objectId acl) = details_principalId identityDetails
           ∧ Some (acl_tenantId acl) = tenantId.
Proof.
  rewrite existsb_exists. split.
  - intros (acl & Hin & Hm). exists acl. split; [by apply list_elem_of_In|].
    by apply aclMatches_true.
  - intros (acl & Hin & Hm). exists acl. split; [by apply list_elem_of_In|].
    by apply aclMatches_true.
Qed.

(** C5: [_createConnectionAclIfNeeded] returns without any call when the
    connection id is not an ARM resource id or the options carry no
    [workflowAppDetails].  Otherwise, once the existing access policies of
    the connection are listed and an identity is chosen, it sends a policy
    [PUT] if and only if no listed policy has both the chosen identity's
    object id and the tenant id of the options; that [PUT] goes to
    [<baseUrl><connectionId>/accessPolicies/<appName>-<objectId>] and its
    content carries the chosen identity's object id and tenant id. *)
Theorem acl_reconciliation
    (lib : Imports) (world : World) (options : StandardConnectionServiceOptions)
    (connection : Connection) (identityId : option string) (h : History) :
  let run := _createConnectionAclIfNeeded lib world options connection identityId h in
  let tenantId := hub_tenantId (apiHubServiceDetails options) in
  let apiVersion := hub_apiVersion (apiHubServiceDetails options) in
  (isArmResourceId lib (conn_id connection) = false ∨ workflowAppDetails options = None →
   run = (h, inr ()))
  ∧ (∀ details acls identityDetails,
       workflowAppDetails options = Some details →
       isArmResourceId lib (conn_id connection) = true →
       isIdentityAssociatedWithLogicApp lib (identity details) = true →
       httpGetAcls world h (conn_id connection +:+ "/accessPolicies") = inr acls →
       _getIdentityDetailsForApiHubAuth lib (identity details) tenantId identityId
         = inr identityDetails →
       let listing :=
         HttpGet (conn_id connection +:+ "/accessPolicies") [("api-version", apiVersion)]
           [("x-ms-command-name", "LADesigner.getConnectionAcls")] in
       let objectId := details_principalId identityDetails in
       let policyName := appName details +:+ "-" +:+ Js.template objectId in
       let put :=
         HttpPut
           (hub_baseUrl (apiHubServiceDetails options) +:+ conn_id connection
              +:+ "/accessPolicies/" +:+ policyName)
           [("api-version", apiVersion)]
           [("If-Match", "*"); ("x-ms-command-name", "LADesigner.createAccessPolicyInConnection")]
           {| policy_name := appName details;
              policy_type := "Microsoft.Web/connections/accessPolicy";
              policy_location := conn_location connection;
              principal_type := "ActiveDirectory";
              policy_objectId := objectId;
              policy_tenantId := details_tenantId identityDetails |} in
       let granted :=
         ∃ acl, acl ∈ default [] acls
                ∧ Some (acl_objectId acl) = objectId
                ∧ Some (acl_tenantId acl) = tenantId in
       ∃ rest,
         run = (h ++ listing :: rest, inr ())
         ∧ (¬ granted ↔ put ∈ rest)
         ∧ (∀ ev, ev ∈ rest → isHttpPut ev = true → ev = put)
         ∧ (granted → rest = [])).
Proof.
  intros run tenantId apiVersion. subst run. split.
  - unfold _createConnectionAclIfNeeded. intros [Harm| ->]; [|done].
    destruct (workflowAppDetails options); [|done]. by rewrite Harm.
  - intros details acls identityDetails Hd Harm Hid Hacls Hdetails
      listing objectId policyName put granted.
    unfold _createConnectionAclIfNeeded. rewrite Hd, Harm, Hid. simpl.
    rewrite run_bind. unfold _getConnectionAcls, Async.call at 1. rewrite Hacls.
    rewrite run_bind. unfold Async.lift at 1. fold tenantId. rewrite Hdetails.
    rewrite run_tryCatch.
    destruct (existsb (aclMatches identityDetails tenantId) (default [] acls)) eqn:Hsome; simpl.
    + apply some_aclMatches in Hsome.
      exists []. split_and!; try done.
      * split; [done|]. intros Hin. by apply elem_of_nil in Hin.
      * intros ev Hin. by apply elem_of_nil in Hin.
    + assert (¬ granted) as Hnot.
      { intros Hg. apply some_aclMatches in Hg. congruence. }
      unfold _createAccessPolicyInConnection, Async.call, Async.emit.
      fold (accessPolicyPut options (conn_id connection) (appName details) identityDetails
              (conn_location connection)).
      change (accessPolicyPut options (conn_id connection) (appName details) identityDetails
                (conn_location connection)) with put.
      destruct (httpPut world _ _ _) as [e|[]].
      * exists [put; LogError "ConnectionACLCreate" "Acl creation failed for connection."].
        rewrite <- !app_assoc. split_and!; try done.
        -- split; [|done]. intros _. apply list_elem_of_here.
        -- intros ev Hin Hput. apply elem_of_cons in Hin as [->|Hin]; [done|].
           apply list_elem_of_singleton in Hin. by subst ev.
      * exists [put]. rewrite <- !app_assoc. split_and!; try done.
        -- split; [|done]. intros _. apply list_elem_of_here.
        -- intros ev Hin Hput. by apply list_elem_of_singleton in Hin.
Qed.

Lemma acl_reconciliation_witness :
  ∃ rest,
    _createConnectionAclIfNeeded Sample.lib Sample.calm Sample.options Sample.created None []
    = ([] ++ HttpGet (Sample.office365Id +:+ "/accessPolicies")
               [("api-version", "2018-07-01-preview")]
               [("x-ms-command-name", "LADesigner.getConnectionAcls")] :: rest, inr ())
    ∧ HttpPut
        ("https://management.azure.com" +:+ Sample.office365Id
           +:+ "/accessPolicies/" +:+ "app" +:+ "-" +:+ "principal-1")
        [("api-version", "2018-07-01-preview")]
        [("If-Match", "*"); ("x-ms-command-name", "LADesigner.createAccessPolicyInConnection")]
        {| policy_name := "app";
           policy_type := "Microsoft.Web/connections/accessPolicy";
           policy_location := Some "westus";
           principal_type := "ActiveDirectory";
           policy_objectId := Some "principal-1";
           policy_tenantId := Some "tenant-1" |} ∈ rest.
Proof.
  destruct (acl_reconciliation Sample.lib Sample.calm Sample.options Sample.created None [])
    as [_ Hlisted].
  destruct (Hlisted {| appName := "app"; identity := Some Sample.systemIdentity |}
              (Some [])
              {| details_principalId := Some "principal-1"; details_tenantId := Some "tenant-1" |}
              eq_refl eq_refl eq_refl eq_refl eq_refl)
    as (rest & Hrun & Hput & _).
  exists rest. split; [exact Hrun|].
  apply Hput. intros (acl & Hin & _). by apply elem_of_nil in Hin.
Defined.
(** ** Branching by connection type *)

Lemma testOutcome_passes answer r :
  testOutcome answer = inr r ↔ answer = inr (Some r) ∧ passesStatusCheck (Some r).
Proof.
  unfold testOutcome, passesStatusCheck.
  destruct answer as [e|[r'|]].
  - split; [done|]. by intros [? _].
  - destruct (status r') as [n|] eqn:Hstatus; simpl.
    + destruct (Z.ltb_spec n 200), (Z.geb_spec n 300); simpl.
      * split; [done|]. intros [[= ->] (r0 & [= <-] & Hrange)].
        rewrite Hstatus in Hrange. lia.
      * split; [done|]. intros [[= ->] (r0 & [= <-] & Hrange)].
        rewrite Hstatus in Hrange. lia.
      * split; [done|]. intros [[= ->] (r0 & [= <-] & Hrange)].
        rewrite Hstatus in Hrange. lia.
      * split.
        -- intros [= ->]. split; [done|]. exists r. split; [done|]. rewrite Hstatus. lia.
        -- by intros [[= ->] _].
    + split.
      * intros [= ->]. split; [done|]. exists r. split; [done|]. by rewrite Hstatus.
      * by intros [[= ->] _].
  - split; [done|]. by intros [? _].
Qed.

Section Branching.

Context (lib : Imports) (world : World) (options : StandardConnectionServiceOptions).

(** [createConnection] is the path it chose, with the cleanup behind a
    rejection. *)
Lemma createConnection_run connectionId connector connectionInfo parametersMetadata
    shouldTestConnection h :
  createConnection lib world options connectionId connector connectionInfo
    parametersMetadata shouldTestConnection h
  = match createConnectionPath lib world options (Str.lastSegment connectionId) connector
            connectionInfo parametersMetadata shouldTestConnection h with
    | (h', inr connection) => (h', inr connection)
    | (h', inl error) =>
        let message := "Failed to create connection: " +:+ tryParseErrorMessage lib error in
        (h' ++ [DeleteConnection connectionId; LogError "createConnection" message],
         inl (ThrownString message))
    end.
Proof.
  unfold createConnection. rewrite run_tryCatch.
  destruct (createConnectionPath _ _ _ _ _ _ _ _ _) as [h1 [e|c]]; [|done].
  unfold Async.bind, Async.emit, Async.throw. simpl. by rewrite <- app_assoc.
Qed.

(** [createConnection] resolves exactly when the path it chose does, with
    the same history and the same connection. *)
Lemma createConnection_resolves connectionId connector connectionInfo parametersMetadata
    shouldTestConnection h h' connection :
  createConnection lib world options connectionId connector connectionInfo
    parametersMetadata shouldTestConnection h = (h', inr connection)
  ↔ createConnectionPath lib world options (Str.lastSegment connectionId) connector
      connectionInfo parametersMetadata shouldTestConnection h = (h', inr connection).
Proof.
  rewrite createConnection_run.
  destruct (createConnectionPath _ _ _ _ _ _ _ _ _) as [h1 [e|c]]; [|done].
  simpl. split; intros [=].
Qed.

Lemma testServiceProviderConnection_run requestUrl connectionData h :
  _testServiceProviderConnection world options requestUrl connectionData h
  = (h ++ [HttpPost (testConnectionUri options requestUrl)
             [("api-version", apiVersion options)] connectionData],
     testOutcome (httpPost world h (testConnectionUri options requestUrl) connectionData)).
Proof.
  unfold _testServiceProviderConnection, testOutcome. rewrite run_tryCatch, run_bind.
  unfold Async.call.
  destruct (httpPost world h _ connectionData) as [e|[r|]]; [done| |done].
  by destruct (Js.lessThan (status r) 200 || Js.atLeast (status r) 300).
Qed.

(** The local path: the creation client, the check for the callback, the
    configuration, the write and the cache, each on the history the one
    before left. *)
Lemma local_creation_run connectionName connector connectionInfo metadata h :
  createConnectionInLocal lib world options connectionName connector connectionInfo
    (Some metadata) h
  = match callConnectionCreationClient world options connectionName connectionInfo metadata h with
    | (h1, inl e) => (h1, inl e)
    | (h1, inr clientInfo) =>
        if writeConnection options
        then
          match _getConnectionsConfiguration lib world options connectionName clientInfo
                  connector (Some metadata) h1 with
          | (h2, inl e) => (h2, inl e)
          | (h2, inr (payload, connection)) => writtenThenCached world payload connection h2
          end
        else (h1, inl (ThrownAssertionException "CALLBACK_NOTREGISTERED"
                         "Callback for write connection is not passed in service."))
    end.
Proof.
  unfold createConnectionInLocal. rewrite run_bind.
  destruct (callConnectionCreationClient _ _ _ _ _ _) as [h1 [e|clientInfo]]; [done|].
  destruct (writeConnection options); [|done]. simpl. rewrite run_bind.
  destruct (_getConnectionsConfiguration _ _ _ _ _ _ _ _) as [h2 [e|[payload connection]]];
    [done|].
  rewrite run_bind. unfold Async.call at 1, writtenThenCached.
  destruct (writeConnectionCallback world h2 payload) as [e|[]]; [done|].
  unfold cacheConnection, Async.bind, Async.emit, Async.resolve, cached. simpl.
  by rewrite <- app_assoc.
Qed.

(** The configuration of a function connection makes no call. *)
Lemma configuration_function_run connectionName connectionInfo connector parametersMetadata h :
  (parametersMetadata ≫= connectionMetadata) ≫= metadata_type = Some Function →
  _getConnectionsConfiguration lib world options connectionName connectionInfo connector
    parametersMetadata h
  = (h, match convertToFunctionsConnectionsData connectionName connectionInfo with
        | inl e => inl e
        | inr converted =>
            inr (asLocal FunctionsModel converted,
                 convertFunctionsConnectionDataToConnection lib connectionName
                   (connectionData converted))
        end).
Proof.
  intros Htype. unfold _getConnectionsConfiguration. rewrite Htype.
  rewrite run_bind. unfold Async.lift, convertToFunctionsConnectionsData.
  by destruct (Js.optField "authentication" _).
Qed.

(** Neither does the configuration of an API-management connection. *)
Lemma configuration_apim_run connectionName connectionInfo connector parametersMetadata h :
  (parametersMetadata ≫= connectionMetadata) ≫= metadata_type = Some ApiManagement →
  _getConnectionsConfiguration lib world options connectionName connectionInfo connector
    parametersMetadata h
  = (h, inr (asLocal APIManagementModel
               (convertToApimConnectionsData connectionName connectionInfo),
             convertApimConnectionDataToConnection lib connectionName
               (connectionData (convertToApimConnectionsData connectionName connectionInfo)))).
Proof. intros Htype. unfold _getConnectionsConfiguration. by rewrite Htype. Qed.

(** Every other type is configured as a service-provider connection, and
    tested when the connector has a test URL. *)
Lemma configuration_serviceProvider_run connectionName connectionInfo connector metadata h :
  connectionMetadata metadata ≫= metadata_type ≠ Some Function →
  connectionMetadata metadata ≫= metadata_type ≠ Some ApiManagement →
  _getConnectionsConfiguration lib world options connectionName connectionInfo connector
    (Some metadata) h
  = match convertToServiceProviderConnectionsData lib connectionName (connector_id connector)
            connectionInfo metadata with
    | inl e => (h, inl e)
    | inr converted =>
        let configured :=
          (asLocal ServiceProviderModel (connectionAndSettings converted),
           convertServiceProviderConnectionDataToConnection connectionName
             (connectionData (connectionAndSettings converted))) in
        if Js.truthy (testConnectionUrl connector)
        then
          let uri := testConnectionUri options (default "" (testConnectionUrl connector)) in
          (h ++ [HttpPost uri [("api-version", apiVersion options)] (rawConnection converted)],
           match testOutcome (httpPost world h uri (rawConnection converted)) with
           | inl e => inl e
           | inr _ => inr configured
           end)
        else (h, inr configured)
    end.
Proof.
  intros Hfunction Hapim.
  assert (_getConnectionsConfiguration lib world options connectionName connectionInfo
            connector (Some metadata) h
          = (let* converted :=
               Async.lift (convertToServiceProviderConnectionsData lib connectionName
                             (connector_id connector) connectionInfo metadata) in
             let connectionsData := connectionAndSettings converted in
             let connection :=
               convertServiceProviderConnectionDataToConnection
                 (connectionKey connectionsData) (connectionData connectionsData) in
             let* _ :=
               if Js.truthy (testConnectionUrl connector)
               then let* _ := _testServiceProviderConnection world options
                                (default "" (testConnectionUrl connector))
                                (rawConnection converted) in
                    Async.resolve ()
               else Async.resolve () in
             Async.resolve (asLocal ServiceProviderModel connectionsData, connection)) h) as ->.
  { unfold _getConnectionsConfiguration. simpl.
    by destruct (connectionMetadata metadata ≫= metadata_type) as [[]|]. }
  rewrite run_bind. unfold Async.lift at 1.
  destruct (convertToServiceProviderConnectionsData _ _ _ _ _) as [e|converted] eqn:Hconverted;
    [done|].
  assert (connectionKey (connectionAndSettings converted) = connectionName) as Hkey.
  { unfold convertToServiceProviderConnectionsData in Hconverted.
    destruct (givenParameterValues connectionInfo); [|done].
    by injection Hconverted as <-. }
  cbv zeta. rewrite Hkey.
  destruct (Js.truthy (testConnectionUrl connector)); [|done].
  rewrite !run_bind, testServiceProviderConnection_run.
  by destruct (testOutcome _).
Qed.

End Branching.

(** ** Storage locations of the local payloads *)

Lemma emits_bind_result {A B} (P : Event → Prop) (m : Async A) (k : A → Async B) :
  emits P m →
  (∀ a, (∃ h h', m h = (h', inr a)) → emits P (k a)) →
  emits P (Async.bind m k).
Proof.
  intros Hm Hk h. rewrite run_bind.
  destruct (Hm h) as (evs & Eh & Hevs).
  destruct (m h) as [h' [e|a]] eqn:Hrun; simpl in Eh; subst h'.
  - by exists evs.
  - destruct (Hk a (ex_intro _ h (ex_intro _ _ Hrun)) (h ++ evs)) as (evs' & Eh' & Hevs').
    exists (evs ++ evs'). rewrite Eh', app_assoc. split; [done|].
    by apply Forall_app.
Qed.

Section Locations.

Context (lib : Imports) (world : World) (options : StandardConnectionServiceOptions).

Lemma serviceProvider_location key connectorId connectionInfo metadata :
  match convertToServiceProviderConnectionsData lib key connectorId
          connectionInfo metadata with
  | inr converted =>
      pathLocation (connectionAndSettings converted) = ["serviceProviderConnections"]
      ∧ key = connectionKey (connectionAndSettings converted)
  | inl _ => givenParameterValues connectionInfo = None
  end.
Proof.
  unfold convertToServiceProviderConnectionsData.
  by destruct (givenParameterValues connectionInfo).
Qed.

Lemma functions_location connectionKey connectionInfo :
  match convertToFunctionsConnectionsData connectionKey connectionInfo with
  | inr connectionsData => pathLocation connectionsData = ["functionConnections"]
  | inl _ =>
      ∀ fields, Js.optField "authentication" (info_connectionParameters connectionInfo)
                ≠ JsObject fields
  end.
Proof.
  unfold convertToFunctionsConnectionsData.
  by destruct (Js.optField "authentication" _).
Qed.

(** The configuration pairs each payload with the location of its model,
    and the model follows the connection type. *)
Lemma configuration_location connectionName connectionInfo connector parametersMetadata
    h h' connectionsData connection :
  _getConnectionsConfiguration lib world options connectionName connectionInfo connector
    parametersMetadata h = (h', inr (connectionsData, connection)) →
  pathLocation connectionsData = [modelLocation (connectionData connectionsData)]
  ∧ modelLocation (connectionData connectionsData)
    = match (parametersMetadata ≫= connectionMetadata) ≫= metadata_type with
      | Some Function => functionsLocation
      | Some ApiManagement => apimLocation
      | _ => serviceProviderLocation
      end.
Proof.
  unfold _getConnectionsConfiguration.
  set (connectionType := (parametersMetadata ≫= connectionMetadata) ≫= metadata_type).
  assert (∀ metadata,
            (let* converted :=
               Async.lift (convertToServiceProviderConnectionsData lib connectionName
                             (connector_id connector) connectionInfo metadata) in
             let connectionsData := connectionAndSettings converted in
             let connection :=
               convertServiceProviderConnectionDataToConnection
                 (connectionKey connectionsData) (connectionData connectionsData) in
             let* _ :=
               if Js.truthy (testConnectionUrl connector)
               then let* _ := _testServiceProviderConnection world options
                                (default "" (testConnectionUrl connector))
                                (rawConnection converted) in
                    Async.resolve ()
               else Async.resolve () in
             Async.resolve (asLocal ServiceProviderModel connectionsData, connection)) h
            = (h', inr (connectionsData, connection)) →
            pathLocation connectionsData = [modelLocation (connectionData connectionsData)]
            ∧ modelLocation (connectionData connectionsData) = serviceProviderLocation)
    as HserviceProvider.
  { intros metadata. rewrite run_bind. unfold Async.lift.
    pose proof (serviceProvider_location connectionName (connector_id connector)
                  connectionInfo metadata) as Hloc.
    destruct (convertToServiceProviderConnectionsData _ _ _ _ _) as [e|converted]; [done|].
    destruct Hloc as [Hloc _]. rewrite run_bind.
    destruct (Js.truthy (testConnectionUrl connector)).
    - rewrite run_bind.
      destruct (_testServiceProviderConnection _ _ _ _ _) as [h1 [e|r]]; [done|].
      unfold Async.resolve. intros [= _ <- _]. simpl. by rewrite Hloc.
    - unfold Async.resolve. intros [= _ <- _]. simpl. by rewrite Hloc. }
  destruct connectionType as [[| | |name]|];
    try (destruct parametersMetadata as [metadata|]; [apply HserviceProvider|done]).
  - rewrite run_bind. unfold Async.lift.
    pose proof (functions_location connectionName connectionInfo) as Hloc.
    destruct (convertToFunctionsConnectionsData _ _) as [e|converted]; [done|].
    unfold Async.resolve. intros [= _ <- _]. simpl. by rewrite Hloc.
  - unfold Async.resolve. by intros [= _ <- _].
Qed.

Lemma configuration_events connectionName connectionInfo connector parametersMetadata :
  emits writesToOwnLocation
    (_getConnectionsConfiguration lib world options connectionName connectionInfo connector
       parametersMetadata).
Proof.
  unfold _getConnectionsConfiguration, _testServiceProviderConnection.
  repeat emits_step; done.
Qed.

Lemma local_writes connectionName connector connectionInfo parametersMetadata :
  emits writesToOwnLocation
    (createConnectionInLocal lib world options connectionName connector connectionInfo
       parametersMetadata).
Proof.
  unfold createConnectionInLocal.
  destruct parametersMetadata as [metadata|]; [|apply emits_throw].
  apply emits_bind; [unfold callConnectionCreationClient; repeat emits_step; done|].
  intros connectionInfo'.
  destruct (negb (writeConnection options)); [apply emits_throw|].
  apply emits_bind_result; [apply configuration_events|].
  intros [connectionsData connection] (h & h' & Hrun).
  apply configuration_location in Hrun as [Hloc _].
  unfold cacheConnection. repeat emits_step; try done.
  intros written [= <-]. exact Hloc.
Qed.

(** The payload of a configuration is the conversion that belongs to the
    connection type, under that type's location. *)
Lemma configuration_payload connectionName connectionInfo connector parametersMetadata
    h h' payload connection :
  _getConnectionsConfiguration lib world options connectionName connectionInfo connector
    parametersMetadata h = (h', inr (payload, connection)) →
  match (parametersMetadata ≫= connectionMetadata) ≫= metadata_type with
  | Some Function =>
      ∃ converted,
        convertToFunctionsConnectionsData connectionName connectionInfo = inr converted
        ∧ payload = asLocal FunctionsModel converted
        ∧ pathLocation payload = ["functionConnections"]
  | Some ApiManagement =>
      payload = asLocal APIManagementModel
                  (convertToApimConnectionsData connectionName connectionInfo)
      ∧ pathLocation payload = ["apiManagementConnections"]
  | _ =>
      ∃ metadata converted,
        parametersMetadata = Some metadata
        ∧ convertToServiceProviderConnectionsData lib connectionName (connector_id connector)
            connectionInfo metadata = inr converted
        ∧ payload = asLocal ServiceProviderModel (connectionAndSettings converted)
        ∧ pathLocation payload = ["serviceProviderConnections"]
  end.
Proof.
  intros Hrun.
  assert (HserviceProvider :
    (parametersMetadata ≫= connectionMetadata) ≫= metadata_type ≠ Some Function →
    (parametersMetadata ≫= connectionMetadata) ≫= metadata_type ≠ Some ApiManagement →
    ∃ metadata converted,
      parametersMetadata = Some metadata
      ∧ convertToServiceProviderConnectionsData lib connectionName (connector_id connector)
          connectionInfo metadata = inr converted
      ∧ payload = asLocal ServiceProviderModel (connectionAndSettings converted)
      ∧ pathLocation payload = ["serviceProviderConnections"]).
  { intros Hfunction Hapim.
    destruct parametersMetadata as [metadata|].
    2:{ unfold _getConnectionsConfiguration in Hrun. simpl in Hrun. done. }
    rewrite configuration_serviceProvider_run in Hrun by done.
    pose proof (serviceProvider_location connectionName (connector_id connector)
                  connectionInfo metadata) as Hlocation.
    destruct (convertToServiceProviderConnectionsData _ _ _ _ _) as [e|converted]
      eqn:Hconverted; [done|].
    destruct Hlocation as [Hlocation _]. exists metadata, converted.
    cbv zeta in Hrun. destruct (Js.truthy (testConnectionUrl connector)).
    - destruct (testOutcome _); [done|]. injection Hrun as _ <- _. by split_and!.
    - injection Hrun as _ <- _. by split_and!. }
  destruct ((parametersMetadata ≫= connectionMetadata) ≫= metadata_type)
    as [[| | |name]|] eqn:Htype; try (by apply HserviceProvider).
  - rewrite configuration_function_run in Hrun by done.
    pose proof (functions_location connectionName connectionInfo) as Hlocation.
    destruct (convertToFunctionsConnectionsData _ _) as [e|converted] eqn:Hconverted; [done|].
    exists converted. injection Hrun as _ <- _. by split_and!.
  - rewrite configuration_apim_run in Hrun by done. injection Hrun as _ <- _. by split_and!.
Qed.

(** Whatever a local creation writes is the typed payload of its
    connection type. *)
Lemma local_write_is_typed connectionName connector connectionInfo parametersMetadata :
  emits (λ ev, ∀ payload, ev = WriteConnection payload →
           pathLocation payload = [modelLocation (connectionData payload)]
           ∧ modelLocation (connectionData payload)
             = match (parametersMetadata ≫= connectionMetadata) ≫= metadata_type with
               | Some Function => functionsLocation
               | Some ApiManagement => apimLocation
               | _ => serviceProviderLocation
               end)
    (createConnectionInLocal lib world options connectionName connector connectionInfo
       parametersMetadata).
Proof.
  unfold createConnectionInLocal.
  destruct parametersMetadata as [metadata|]; [|apply emits_throw].
  apply emits_bind; [unfold callConnectionCreationClient; repeat emits_step; done|].
  intros clientInfo.
  destruct (negb (writeConnection options)); [apply emits_throw|].
  apply emits_bind_result.
  { unfold _getConnectionsConfiguration, _testServiceProviderConnection.
    repeat emits_step; done. }
  intros [payload connection] (h & h' & Hrun).
  apply configuration_location in Hrun.
  unfold cacheConnection. repeat emits_step; try done.
  by intros written [= <-].
Qed.

End Locations.

(** C7: each of the three local connection representations has its own
    payload and storage location.  A service-provider connection is
    converted to a [ServiceProviderConnectionModel] under
    [["serviceProviderConnections"]], a function connection to a
    [FunctionsConnectionModel] under [["functionConnections"]], an
    API-management connection to an [APIManagementConnectionModel] under
    [["apiManagementConnections"]]; the three locations are pairwise
    distinct.  And that is what is written: once the creation client has
    answered and the configuration is made, [createConnectionInLocal] hands
    to the [writeConnection] callback exactly the conversion that belongs
    to the connection type, under that type's location, and returns the
    connection when the callback accepts it; no run ever writes anything
    else. *)
Theorem local_connections_have_own_location
    (lib : Imports) (world : World) (options : StandardConnectionServiceOptions) :
  (∀ connectionKey connectorId connectionInfo metadata,
     match convertToServiceProviderConnectionsData lib connectionKey connectorId
             connectionInfo metadata with
     | inr converted =>
         pathLocation (connectionAndSettings converted) = ["serviceProviderConnections"]
     | inl _ => givenParameterValues connectionInfo = None
     end)
  ∧ (∀ connectionKey connectionInfo,
       match convertToFunctionsConnectionsData connectionKey connectionInfo with
       | inr connectionsData => pathLocation connectionsData = ["functionConnections"]
       | inl _ =>
           ∀ fields, Js.optField "authentication" (info_connectionParameters connectionInfo)
                     ≠ JsObject fields
       end)
  ∧ (∀ connectionKey connectionInfo,
       pathLocation (convertToApimConnectionsData connectionKey connectionInfo)
       = ["apiManagementConnections"])
  ∧ (serviceProviderLocation ≠ functionsLocation
     ∧ serviceProviderLocation ≠ apimLocation
     ∧ functionsLocation ≠ apimLocation)
  ∧ (∀ connectionName connector connectionInfo metadata h h1 clientInfo h2 payload connection,
       callConnectionCreationClient world options connectionName connectionInfo metadata h
       = (h1, inr clientInfo) →
       writeConnection options = true →
       _getConnectionsConfiguration lib world options connectionName clientInfo connector
         (Some metadata) h1 = (h2, inr (payload, connection)) →
       createConnectionInLocal lib world options connectionName connector connectionInfo
         (Some metadata) h
       = match writeConnectionCallback world h2 payload with
         | inl e => (h2 ++ [WriteConnection payload], inl e)
         | inr _ =>
             (h2 ++ [WriteConnection payload; CacheConnection (conn_id connection) connection],
              inr connection)
         end
       ∧ match connectionMetadata metadata ≫= metadata_type with
         | Some Function =>
             ∃ converted,
               convertToFunctionsConnectionsData connectionName clientInfo = inr converted
               ∧ payload = asLocal FunctionsModel converted
               ∧ pathLocation payload = ["functionConnections"]
         | Some ApiManagement =>
             payload = asLocal APIManagementModel
                         (convertToApimConnectionsData connectionName clientInfo)
             ∧ pathLocation payload = ["apiManagementConnections"]
         | _ =>
             ∃ converted,
               convertToServiceProviderConnectionsData lib connectionName
                 (connector_id connector) clientInfo metadata = inr converted
               ∧ payload = asLocal ServiceProviderModel (connectionAndSettings converted)
               ∧ pathLocation payload = ["serviceProviderConnections"]
         end)
  ∧ (∀ connectionName connector connectionInfo parametersMetadata h,
       ∃ evs,
         (createConnectionInLocal lib world options connectionName connector connectionInfo
            parametersMetadata h).1 = h ++ evs
         ∧ ∀ payload, WriteConnection payload ∈ evs →
             pathLocation payload = [modelLocation (connectionData payload)]
             ∧ modelLocation (connectionData payload)
               = match (parametersMetadata ≫= connectionMetadata) ≫= metadata_type with
                 | Some Function => "functionConnections"
                 | Some ApiManagement => "apiManagementConnections"
                 | _ => "serviceProviderConnections"
                 end).
Proof.
  split_and!.
  - intros connectionKey connectorId connectionInfo metadata.
    pose proof (serviceProvider_location lib connectionKey connectorId connectionInfo metadata)
      as Hloc.
    destruct (convertToServiceProviderConnectionsData _ _ _ _ _); [done|]. by destruct Hloc.
  - apply functions_location.
  - done.
  - done.
  - done.
  - done.
  - intros connectionName connector connectionInfo metadata h h1 clientInfo h2 payload
      connection Hclient Hcallback Hconfigured. split.
    + by rewrite local_creation_run, Hclient, Hcallback, Hconfigured.
    + apply (configuration_payload lib world options) in Hconfigured. simpl in Hconfigured.
      destruct (connectionMetadata metadata ≫= metadata_type) as [[| | |name]|];
        try done;
        destruct Hconfigured as (metadata' & converted & [= <-] & Hconverted);
        by exists converted.
  - intros connectionName connector connectionInfo parametersMetadata h.
    destruct (local_write_is_typed lib world options connectionName connector connectionInfo
                parametersMetadata h) as (evs & E & Hall).
    exists evs. split; [done|]. intros payload Hin.
    rewrite Forall_forall in Hall. by apply (Hall _ Hin).
Qed.

Lemma local_connections_witness :
  ∃ converted,
    convertToFunctionsConnectionsData "fn-1" Sample.functionInfo = inr converted
    ∧ pathLocation converted = ["functionConnections"]
    ∧ createConnectionInLocal Sample.lib Sample.calm Sample.options "fn-1" Sample.sql
        Sample.functionInfo (Some Cases.functionMetadata) []
      = ([WriteConnection (asLocal FunctionsModel converted);
          CacheConnection
            (conn_id (convertFunctionsConnectionDataToConnection Sample.lib "fn-1"
                        (connectionData converted)))
            (convertFunctionsConnectionDataToConnection Sample.lib "fn-1"
               (connectionData converted))],
         inr (convertFunctionsConnectionDataToConnection Sample.lib "fn-1"
                (connectionData converted))).
Proof.
  destruct (convertToFunctionsConnectionsData "fn-1" Sample.functionInfo)
    as [e|converted] eqn:Hconverted; [vm_compute in Hconverted; discriminate|].
  exists converted. split; [reflexivity|].
  destruct (local_connections_have_own_location Sample.lib Sample.calm Sample.options)
    as (_ & _ & _ & _ & Hwritten & _).
  edestruct (Hwritten "fn-1" Sample.sql Sample.functionInfo Cases.functionMetadata [] []
               Sample.functionInfo [] (asLocal FunctionsModel converted)
               (convertFunctionsConnectionDataToConnection Sample.lib "fn-1"
                  (connectionData converted)) eq_refl eq_refl)
    as [Hrun (converted' & Hsame & _ & Hlocation)].
  - rewrite (configuration_function_run Sample.lib Sample.calm Sample.options) by reflexivity.
    by rewrite Hconverted.
  - split; [|exact Hrun]. rewrite Hconverted in Hsame. by injection Hsame as <-.
Defined.

(** ** Secrets and app settings *)

Section ParameterLoop.

Context (lib : Imports) (connectionKey : string)
  (connectionParameters : option (gmap string ConnectionParameter))
  (parameterValues : JsRecord).

Local Abbreviation body := (parameterLoopBody lib connectionKey connectionParameters parameterValues).
Local Abbreviation declared parameterKey := (connectionParameters ≫= (.!! parameterKey)).
Local Abbreviation settingName := (serviceProviderAppSettingName connectionKey).

Lemma settingName_inj parameterKey1 parameterKey2 :
  settingName parameterKey1 = settingName parameterKey2 → parameterKey1 = parameterKey2.
Proof.
  unfold serviceProviderAppSettingName. intros Heq.
  by apply append_inj_l, append_inj_l, escapeSpecialChars_inj in Heq.
Qed.

Lemma loop_stored st parameterKeys :
  loop_parameterValues (foldl body st parameterKeys)
  = foldl (λ target parameterKey,
             safeSetObjectPropertyValue lib target
               (parameterPath (declared parameterKey) parameterKey)
               (storedParameterValue connectionKey (declared parameterKey) parameterKey
                  (Js.getField parameterKey parameterValues)))
      (loop_parameterValues st) parameterKeys.
Proof.
  revert st. induction parameterKeys as [|parameterKey rest IH]; intros st; [done|].
  simpl. by rewrite IH.
Qed.

Lemma loop_raw st parameterKeys :
  loop_rawParameterValues (foldl body st parameterKeys)
  = foldl (λ target parameterKey,
             safeSetObjectPropertyValue lib target
               (parameterPath (declared parameterKey) parameterKey)
               (Js.getField parameterKey parameterValues))
      (loop_rawParameterValues st) parameterKeys.
Proof.
  revert st. induction parameterKeys as [|parameterKey rest IH]; intros st; [done|].
  simpl. by rewrite IH.
Qed.

(** A setting that no app-configuration parameter names is left alone. *)
Lemma loop_settings_other st parameterKeys name :
  (∀ parameterKey, parameterKey ∈ parameterKeys →
     isAppConfiguration (declared parameterKey) = true → name ≠ settingName parameterKey) →
  loop_settings (foldl body st parameterKeys) !! name = loop_settings st !! name.
Proof.
  revert st. induction parameterKeys as [|parameterKey rest IH]; intros st Hother; [done|].
  simpl. rewrite IH.
  - simpl. destruct (isAppConfiguration (declared parameterKey)) eqn:Happ; [|done].
    apply lookup_insert_ne. intros Heq.
    by apply (Hother parameterKey (list_elem_of_here _ _) Happ).
  - intros parameterKey' Hin. apply Hother. by apply list_elem_of_further.
Qed.

(** Every app-configuration parameter ends up in the settings, under its
    own name and with its raw value. *)
Lemma loop_settings_own st parameterKeys parameterKey :
  parameterKey ∈ parameterKeys →
  isAppConfiguration (declared parameterKey) = true →
  loop_settings (foldl body st parameterKeys) !! settingName parameterKey
  = Some (Js.getField parameterKey parameterValues).
Proof.
  revert st. induction parameterKeys as [|first rest IH]; intros st Hin Happ.
  - by apply elem_of_nil in Hin.
  - simpl. destruct (decide (parameterKey ∈ rest)) as [Hrest|Hrest]; [by apply IH|].
    apply elem_of_cons in Hin as [->|Hin]; [|done].
    rewrite loop_settings_other.
    + simpl. rewrite Happ. apply lookup_insert_eq.
    + intros other Hother _ Heq. apply settingName_inj in Heq. by subst other.
Qed.

End ParameterLoop.

Lemma foldl_pointwise {A B} (f g : A → B → A) a l :
  (∀ a b, f a b = g a b) → foldl f a l = foldl g a l.
Proof.
  intros Hfg. revert a. induction l as [|b l IH]; intros a; [done|].
  simpl. by rewrite Hfg, IH.
Qed.

Lemma isAppConfiguration_true connectionParameter :
  isAppConfiguration connectionParameter = true
  ↔ connectionParameter ≫= parameterSource = Some AppConfiguration.
Proof.
  unfold isAppConfiguration.
  destruct (connectionParameter ≫= parameterSource) as [[|name]|]; split; congruence.
Qed.

Lemma getField_setField k v fields : Js.getField k (Js.setField k v fields) = v.
Proof.
  induction fields as [|[k' v'] rest IH]; simpl.
  - by rewrite String.eqb_refl.
  - destruct (String.eqb k' k) eqn:Heq; simpl; by rewrite Heq.
Qed.

(** C9, as amended: secrets are moved out of the stored payload into the
    app settings, and the payload refers to them as [@appsetting('<key>')],
    the key in single quotes.  For a function connection the original
    [authentication.value] is stored under
    [escapeSpecialChars(connectionKey) + '_functionAppKey'] and
    [authentication.value] becomes the reference to that key.  For an
    API-management connection the subscription key is stored under
    [escapeSpecialChars(connectionKey) + '_SubscriptionKey'] and the payload
    holds the reference.  For a service-provider connection the payload gets,
    for each given parameter in order, the reference to
    [escapeSpecialChars(connectionKey) + '_' + escapeSpecialChars(parameterKey)]
    when the parameter's source is [AppConfiguration] and the given value
    otherwise; the settings get the given value of exactly the
    [AppConfiguration] parameters, each under that key, and are otherwise
    the app settings that came with the request; the raw connection keeps
    every given value. *)
Theorem secrets_move_to_app_settings (lib : Imports) :
  (∀ connectionKey connectionInfo fields,
     Js.optField "authentication" (info_connectionParameters connectionInfo) = JsObject fields →
     let appSettingName := escapeSpecialChars connectionKey +:+ "_functionAppKey" in
     ∃ connectionsData,
       convertToFunctionsConnectionsData connectionKey connectionInfo = inr connectionsData
       ∧ settings connectionsData = {[ appSettingName := Js.getField "value" fields ]}
       ∧ authenticationValue (connectionData connectionsData)
         = JsString ("@appsetting('" +:+ appSettingName +:+ "')"))
  ∧ (∀ connectionKey connectionInfo,
       let appSettingName := escapeSpecialChars connectionKey +:+ "_SubscriptionKey" in
       let connectionsData := convertToApimConnectionsData connectionKey connectionInfo in
       settings connectionsData
       = {[ appSettingName :=
              Js.optField "subscriptionKey" (info_connectionParameters connectionInfo) ]}
       ∧ apim_subscriptionKey (connectionData connectionsData)
         = JsString ("@appsetting('" +:+ appSettingName +:+ "')"))
  ∧ (∀ connectionKey connectorId connectionInfo metadata parameterValues,
       givenParameterValues connectionInfo = Some parameterValues →
       let declared parameterKey := declaredParameters connectionInfo metadata ≫= (.!! parameterKey) in
       let fromAppConfiguration parameterKey :=
         declared parameterKey ≫= parameterSource = Some AppConfiguration in
       let given parameterKey := Js.getField parameterKey parameterValues in
       let appSettingName parameterKey :=
         escapeSpecialChars connectionKey +:+ "_" +:+ escapeSpecialChars parameterKey in
       let stored parameterKey :=
         match declared parameterKey ≫= parameterSource with
         | Some AppConfiguration =>
             JsString ("@appsetting('" +:+ appSettingName parameterKey +:+ "')")
         | _ => given parameterKey
         end in
       let write (value : string → JsValue) target parameterKey :=
         safeSetObjectPropertyValue lib target
           (default [] (declared parameterKey ≫= propertyPath) ++ [parameterKey])
           (value parameterKey) in
       ∃ converted,
         convertToServiceProviderConnectionsData lib connectionKey connectorId connectionInfo
           metadata = inr converted
         ∧ sp_parameterValues (connectionData (connectionAndSettings converted))
           = foldl (write stored) [] (Js.keys parameterValues)
         ∧ sp_parameterValues (rawConnection converted)
           = foldl (write given) [] (Js.keys parameterValues)
         ∧ (∀ parameterKey,
              parameterKey ∈ Js.keys parameterValues → fromAppConfiguration parameterKey →
              settings (connectionAndSettings converted) !! appSettingName parameterKey
              = Some (given parameterKey))
         ∧ (∀ name,
              (∀ parameterKey,
                 parameterKey ∈ Js.keys parameterValues → fromAppConfiguration parameterKey →
                 name ≠ appSettingName parameterKey) →
              settings (connectionAndSettings converted) !! name
              = default ∅ (appSettings connectionInfo) !! name)).
Proof.
  split_and!.
  - intros connectionKey connectionInfo fields Hauth appSettingName.
    unfold convertToFunctionsConnectionsData. rewrite Hauth.
    eexists. split; [done|]. split; [done|].
    unfold authenticationValue. simpl. by rewrite getField_setField.
  - done.
  - intros connectionKey connectorId connectionInfo metadata parameterValues Hgiven
      declared fromAppConfiguration given appSettingName stored write.
    unfold convertToServiceProviderConnectionsData. rewrite Hgiven.
    eexists. split; [done|]. simpl. split_and!.
    + rewrite loop_stored. simpl. apply foldl_pointwise. intros target parameterKey.
      subst write stored. simpl. unfold parameterPath, storedParameterValue, isAppConfiguration.
      fold (declared parameterKey).
      by destruct (declared parameterKey ≫= parameterSource) as [[|name]|].
    + rewrite loop_raw. done.
    + intros parameterKey Hin Happ. apply isAppConfiguration_true in Happ.
      by apply loop_settings_own.
    + intros name Hother. rewrite loop_settings_other; [done|].
      intros parameterKey Hin Happ. apply Hother; [done|]. by apply isAppConfiguration_true.
Qed.

Lemma secrets_move_witness :
  ∃ connectionsData,
    convertToFunctionsConnectionsData "my-func" Sample.functionInfo = inr connectionsData
    ∧ settings connectionsData = {[ "my_1func_functionAppKey" := JsString "secret-key" ]}
    ∧ authenticationValue (connectionData connectionsData)
      = JsString "@appsetting('my_1func_functionAppKey')".
Proof.
  destruct (secrets_move_to_app_settings Sample.lib) as [Hfunctions _].
  apply (Hfunctions "my-func" Sample.functionInfo
           [("type", JsString "QueryString"); ("name", JsString "Code");
            ("value", JsString "secret-key")] eq_refl).
Defined.

(** C9 as stated fails on the spelling of the reference: the payload of a
    function connection holds [@appsetting('my_1func_functionAppKey')], with
    single quotes, which is not the double-quoted
    [@appsetting("my_1func_functionAppKey")]. *)
Lemma reference_is_single_quoted :
  ∃ connectionsData,
    convertToFunctionsConnectionsData "my-func" Sample.functionInfo = inr connectionsData
    ∧ authenticationValue (connectionData connectionsData)
      = JsString "@appsetting('my_1func_functionAppKey')"
    ∧ authenticationValue (connectionData connectionsData)
      ≠ JsString (doubleQuotedReference (functionAppSettingName "my-func")).
Proof. eexists. split; [reflexivity|]. split; [reflexivity|]. vm_compute. discriminate. Qed.

(** ** The branches of [createConnection] *)

(** The raw connection of a service-provider conversion holds every given
    value as it was given: no value is replaced by a reference to an app
    setting. *)
Lemma raw_connection_as_given (lib : Imports) (key connectorId : string)
    (connectionInfo : ConnectionCreationInfo) (metadata : ConnectionParametersMetadata)
    (converted : ServiceProviderConversion) :
  convertToServiceProviderConnectionsData lib key connectorId connectionInfo metadata
  = inr converted →
  ∃ values,
    givenParameterValues connectionInfo = Some values
    ∧ rawConnection converted
      = {| sp_parameterValues :=
             foldl (λ target parameterKey,
                      safeSetObjectPropertyValue lib target
                        (parameterPath
                           (declaredParameters connectionInfo metadata ≫= (.!! parameterKey))
                           parameterKey)
                        (Js.getField parameterKey values))
               [] (Js.keys values);
           sp_serviceProviderId := connectorId;
           sp_parameterSetName := optional lib (set_name <$> connectionParametersSet connectionInfo);
           sp_displayName := displayName connectionInfo |}.
Proof.
  unfold convertToServiceProviderConnectionsData.
  destruct (givenParameterValues connectionInfo) as [values|]; [|done].
  intros [= <-]. exists values. split; [done|]. simpl. by rewrite loop_raw.
Qed.

(** C6: [createConnection] runs the API-hub path for a connector whose id
    is an ARM resource id and the local path otherwise, and nothing else
    but the cleanup behind a rejection.  The local path, once the creation
    client has answered, is the configuration followed by the write.  The
    configuration chooses the payload by the connection type of the
    parameters metadata: [Function] gives the function payload,
    [ApiManagement] the API-management payload, anything else the
    service-provider payload.  For a service-provider connector with a
    (non-empty) [testConnectionUrl] the raw connection is posted to the test
    URI first, and the configuration is returned exactly when the answer
    passes the check; the raw connection holds the parameter values as
    they were given, none replaced by a reference to an app setting. *)
Theorem createConnection_branches_by_type
    (lib : Imports) (world : World) (options : StandardConnectionServiceOptions)
    (connectionId : string) (connector : Connector) (connectionInfo : ConnectionCreationInfo)
    (parametersMetadata : option ConnectionParametersMetadata) (shouldTestConnection : bool)
    (h : History) :
  let connectionName := Str.lastSegment connectionId in
  let run := createConnection lib world options connectionId connector connectionInfo
               parametersMetadata shouldTestConnection h in
  let connectionType := (parametersMetadata ≫= connectionMetadata) ≫= metadata_type in
  let configuration := _getConnectionsConfiguration lib world options connectionName in
  let cleanedUp (path : History * Outcome Connection) :=
    match path with
    | (h', inr connection) => (h', inr connection)
    | (h', inl error) =>
        let message := "Failed to create connection: " +:+ tryParseErrorMessage lib error in
        (h' ++ [DeleteConnection connectionId; LogError "createConnection" message],
         inl (ThrownString message))
    end in
  (isArmResourceId lib (connector_id connector) = true →
   run = cleanedUp (_createConnectionInApiHub lib world options connectionName
                      (connector_id connector) connectionInfo shouldTestConnection h))
  ∧ (isArmResourceId lib (connector_id connector) = false →
     run = cleanedUp (createConnectionInLocal lib world options connectionName connector
                        connectionInfo parametersMetadata h))
  ∧ (∀ metadata,
       parametersMetadata = Some metadata →
       createConnectionInLocal lib world options connectionName connector connectionInfo
         parametersMetadata h
       = match callConnectionCreationClient world options connectionName connectionInfo
                 metadata h with
         | (h1, inl e) => (h1, inl e)
         | (h1, inr clientInfo) =>
             if writeConnection options
             then
               match configuration clientInfo connector parametersMetadata h1 with
               | (h2, inl e) => (h2, inl e)
               | (h2, inr (payload, connection)) =>
                   writtenThenCached world payload connection h2
               end
             else (h1, inl (ThrownAssertionException "CALLBACK_NOTREGISTERED"
                              "Callback for write connection is not passed in service."))
         end)
  ∧ (connectionType = Some Function →
     ∀ clientInfo h1,
       configuration clientInfo connector parametersMetadata h1
       = (h1, match convertToFunctionsConnectionsData connectionName clientInfo with
              | inl e => inl e
              | inr converted =>
                  inr (asLocal FunctionsModel converted,
                       convertFunctionsConnectionDataToConnection lib connectionName
                         (connectionData converted))
              end))
  ∧ (connectionType = Some ApiManagement →
     ∀ clientInfo h1,
       configuration clientInfo connector parametersMetadata h1
       = (h1, inr (asLocal APIManagementModel
                     (convertToApimConnectionsData connectionName clientInfo),
                   convertApimConnectionDataToConnection lib connectionName
                     (connectionData (convertToApimConnectionsData connectionName clientInfo)))))
  ∧ (connectionType ≠ Some Function → connectionType ≠ Some ApiManagement →
     ∀ metadata clientInfo h1,
       parametersMetadata = Some metadata →
       configuration clientInfo connector parametersMetadata h1
       = match convertToServiceProviderConnectionsData lib connectionName (connector_id connector)
                 clientInfo metadata with
         | inl e => (h1, inl e)
         | inr converted =>
             let configured :=
               (asLocal ServiceProviderModel (connectionAndSettings converted),
                convertServiceProviderConnectionDataToConnection connectionName
                  (connectionData (connectionAndSettings converted))) in
             match testConnectionUrl connector with
             | Some requestUrl =>
                 if String.eqb requestUrl "" then (h1, inr configured)
                 else
                   let uri := testConnectionUri options requestUrl in
                   (h1 ++ [HttpPost uri [("api-version", apiVersion options)]
                             (rawConnection converted)],
                    match httpPost world h1 uri (rawConnection converted) with
                    | inl e => inl e
                    | inr None => inl (ThrownResponse None)
                    | inr (Some r) =>
                        match status r with
                        | Some n =>
                            if (200 <=? n)%Z && (n <? 300)%Z then inr configured
                            else inl (ThrownResponse (Some r))
                        | None => inr configured
                        end
                    end)
             | None => (h1, inr configured)
             end
         end)
  ∧ (∀ metadata clientInfo converted,
       convertToServiceProviderConnectionsData lib connectionName (connector_id connector)
         clientInfo metadata = inr converted →
       ∃ values,
         givenParameterValues clientInfo = Some values
         ∧ rawConnection converted
           = {| sp_parameterValues :=
                  foldl (λ target parameterKey,
                           safeSetObjectPropertyValue lib target
                             (parameterPath
                                (declaredParameters clientInfo metadata ≫= (.!! parameterKey))
                                parameterKey)
                             (Js.getField parameterKey values))
                    [] (Js.keys values);
                sp_serviceProviderId := connector_id connector;
                sp_parameterSetName :=
                  optional lib (set_name <$> connectionParametersSet clientInfo);
                sp_displayName := displayName clientInfo |}).
Proof.
  intros connectionName run connectionType configuration cleanedUp.
  subst run configuration cleanedUp. split_and!.
  - intros Harm. rewrite createConnection_run. unfold createConnectionPath. by rewrite Harm.
  - intros Harm. rewrite createConnection_run. unfold createConnectionPath. by rewrite Harm.
  - intros metadata ->. apply local_creation_run.
  - intros Htype clientInfo h1. by apply configuration_function_run.
  - intros Htype clientInfo h1. by apply configuration_apim_run.
  - intros Hfunction Hapim metadata clientInfo h1 ->.
    rewrite configuration_serviceProvider_run by done.
    destruct (convertToServiceProviderConnectionsData _ _ _ _ _) as [e|converted]; [done|].
    cbv zeta. destruct (testConnectionUrl connector) as [requestUrl|]; simpl; [|done].
    destruct (String.eqb requestUrl ""); simpl; [done|].
    f_equal. unfold testOutcome.
    destruct (httpPost world h1 _ _) as [e|[r|]]; [done| |done].
    destruct (status r) as [n|]; simpl; [|done].
    destruct (Z.ltb_spec n 200), (Z.geb_spec n 300), (Z.leb_spec 200 n), (Z.ltb_spec n 300);
      simpl; try done; lia.
  - intros metadata clientInfo converted Hconverted.
    exact (raw_connection_as_given lib _ _ _ _ _ Hconverted).
Qed.

Lemma createConnection_branches_witness :
  createConnection Sample.lib Sample.calm Sample.options "/connections/sql-1" Sample.sql
    Sample.sqlInfo (Some Sample.sqlMetadata) true []
  = ([HttpPost "https://app.example/serviceProviders/sql/testConnection"
        [("api-version", "2018-11-01")]
        {| sp_parameterValues :=
             [("connectionString", JsString "Server=db;Password=hunter2");
              ("serverName", JsString "db")];
           sp_serviceProviderId := "/serviceProviders/sql";
           sp_parameterSetName := None;
           sp_displayName := Some "Orders" |};
      WriteConnection
        {| connectionKey := "sql-1";
           connectionData :=
             ServiceProviderModel
               {| sp_parameterValues :=
                    [("connectionString", JsString "@appsetting('sql_11_connectionString')");
                     ("serverName", JsString "db")];
                  sp_serviceProviderId := "/serviceProviders/sql";
                  sp_parameterSetName := None;
                  sp_displayName := Some "Orders" |};
           settings := {[ "sql_11_connectionString" := JsString "Server=db;Password=hunter2" ]};
           pathLocation := ["serviceProviderConnections"] |};
      cached (convertServiceProviderConnectionDataToConnection "sql-1"
                {| sp_parameterValues :=
                     [("connectionString", JsString "@appsetting('sql_11_connectionString')");
                      ("serverName", JsString "db")];
                   sp_serviceProviderId := "/serviceProviders/sql";
                   sp_parameterSetName := None;
                   sp_displayName := Some "Orders" |})],
     inr (convertServiceProviderConnectionDataToConnection "sql-1"
            {| sp_parameterValues :=
                 [("connectionString", JsString "@appsetting('sql_11_connectionString')");
                  ("serverName", JsString "db")];
               sp_serviceProviderId := "/serviceProviders/sql";
               sp_parameterSetName := None;
               sp_displayName := Some "Orders" |})).
Proof.
  destruct (createConnection_branches_by_type Sample.lib Sample.calm Sample.options
              "/connections/sql-1" Sample.sql Sample.sqlInfo (Some Sample.sqlMetadata) true [])
    as (_ & Hlocal & _).
  rewrite (Hlocal eq_refl). vm_compute. reflexivity.
Defined.

(** ** Escaping *)

(** C10, as amended: [escapeSpecialChars] replaces every ['_'] of its input
    by ["__"] and then every ['-'] by ["_1"], that is, each character on its
    own by ["__"], ["_1"] or itself; it is injective; and its output never
    contains ['-'].  Hence two distinct connection keys never get the same
    app-setting name for a function connection, for an API-management
    connection, or for a service-provider connection under one and the same
    parameter key, and two distinct parameter keys never get the same name
    under one connection key.  (Names built from a different connection key
    and a different parameter key can coincide.) *)
Theorem escapeSpecialChars_injective_without_dash :
  (∀ value,
     escapeSpecialChars value = Str.replaceAll "-" "_1" (Str.replaceAll "_" "__" value))
  ∧ escapeSpecialChars "" = ""
  ∧ (∀ a rest,
       escapeSpecialChars (String a rest)
       = (if Ascii.eqb a "_" then "__"
          else if Ascii.eqb a "-" then "_1"
          else String a "") +:+ escapeSpecialChars rest)
  ∧ (∀ x y, escapeSpecialChars x = escapeSpecialChars y → x = y)
  ∧ (∀ value, Str.contains "-" (escapeSpecialChars value) = false)
  ∧ (∀ connectionKey1 connectionKey2,
       functionAppSettingName connectionKey1 = functionAppSettingName connectionKey2 →
       connectionKey1 = connectionKey2)
  ∧ (∀ connectionKey1 connectionKey2,
       apimAppSettingName connectionKey1 = apimAppSettingName connectionKey2 →
       connectionKey1 = connectionKey2)
  ∧ (∀ connectionKey1 connectionKey2 parameterKey,
       serviceProviderAppSettingName connectionKey1 parameterKey
       = serviceProviderAppSettingName connectionKey2 parameterKey →
       connectionKey1 = connectionKey2)
  ∧ (∀ connectionKey parameterKey1 parameterKey2,
       serviceProviderAppSettingName connectionKey parameterKey1
       = serviceProviderAppSettingName connectionKey parameterKey2 →
       parameterKey1 = parameterKey2).
Proof.
  split_and!.
  - done.
  - done.
  - apply escapeSpecialChars_cons.
  - apply escapeSpecialChars_inj.
  - apply escapeSpecialChars_no_dash.
  - intros k1 k2 Heq. by apply append_inj_r, escapeSpecialChars_inj in Heq.
  - intros k1 k2 Heq. by apply append_inj_r, escapeSpecialChars_inj in Heq.
  - intros k1 k2 p Heq. unfold serviceProviderAppSettingName in Heq.
    by apply append_inj_r, escapeSpecialChars_inj in Heq.
  - intros k p1 p2 Heq. by apply settingName_inj in Heq.
Qed.

Lemma escapeSpecialChars_witness :
  escapeSpecialChars "my-conn_1" = "my_1conn__1"
  ∧ Str.contains "-" (escapeSpecialChars "my-conn_1") = false.
Proof.
  destruct escapeSpecialChars_injective_without_dash as (_ & _ & _ & _ & Hdash & _).
  split; [reflexivity|apply Hdash].
Defined.

(** C10 as stated fails on its conclusion about app-setting names: the
    distinct connection keys ["a"] and ["a_"] get the same app-setting name
    ["a___b"], the first for the parameter ["_b"], the second for ["b"]. *)
Lemma distinct_keys_share_an_app_setting_name :
  serviceProviderAppSettingName "a" "_b" = "a___b"
  ∧ serviceProviderAppSettingName "a_" "b" = "a___b"
  ∧ "a" ≠ "a_"
  ∧ "_b" ≠ "b".
Proof. split_and!; try reflexivity; discriminate. Qed.

(** ** The OAuth flow *)

Lemma resolvesWith_bind {A B} (Q : B → Prop) (m : Async A) (k : A → Async B) :
  (∀ a, resolvesWith Q (k a)) → resolvesWith Q (Async.bind m k).
Proof.
  intros Hk h h' b. rewrite run_bind.
  destruct (m h) as [h1 [e|a]]; [done|]. apply Hk.
Qed.

Lemma resolvesWith_resolve {A} (Q : A → Prop) (a : A) :
  Q a → resolvesWith Q (Async.resolve a).
Proof. intros HQ h h' a' [= _ <-]. done. Qed.

Section OAuth.

Context (lib : Imports) (world : World) (options : StandardConnectionServiceOptions).






End OAuth.


(** ** More on strings: segments, escaping, replacing *)

Section Segments.

Lemma split_nonempty sep value : Str.split sep value ≠ [].
Proof.
  destruct value as [|a rest]; simpl; [done|].
  destruct (Ascii.eqb a sep); [done|]. by destruct (Str.split sep rest).
Qed.

(** Splitting around a separator splits both sides. *)
Lemma split_app sep (p s : string) :
  Str.split sep (p +:+ String sep s) = Str.split sep p ++ Str.split sep s.
Proof.
  induction p as [|a p IH].
  - rewrite append_nil_l. simpl. by rewrite Ascii.eqb_refl.
  - rewrite append_cons. simpl. rewrite IH.
    destruct (Ascii.eqb a sep); [done|].
    pose proof (split_nonempty sep p) as Hne.
    by destruct (Str.split sep p).
Qed.

Lemma split_segments sep value :
  Forall (λ segment, Str.contains sep segment = false) (Str.split sep value).
Proof.
  induction value as [|a rest IH]; simpl.
  - by constructor.
  - destruct (Ascii.eqb a sep) eqn:Ha; [by constructor|].
    destruct (Str.split sep rest) as [|segment segments]; simpl.
    + constructor; [|done]. simpl. by rewrite Ha.
    + apply Forall_cons in IH as [Hseg Hsegs].
      constructor; [|done]. simpl. by rewrite Ha.
Qed.

Lemma split_without_separator sep value :
  Str.contains sep value = false → Str.split sep value = [value].
Proof.
  induction value as [|a rest IH]; simpl; [done|].
  intros Hc. apply orb_false_iff in Hc as [Ha Hrest].
  by rewrite Ha, IH.
Qed.

Lemma last_app_nonempty {A} (l1 l2 : list A) d : l2 ≠ [] → List.last (l1 ++ l2) d = List.last l2 d.
Proof.
  intros Hne. induction l1 as [|x l1 IH]; [done|].
  simpl. rewrite IH. destruct (l1 ++ l2) eqn:Happ; [|done].
  apply app_eq_nil in Happ as [_ ?]. done.
Qed.

Lemma lastSegment_after_slash (p s : string) :
  Str.lastSegment (p +:+ String "/" s) = Str.lastSegment s.
Proof.
  unfold Str.lastSegment. rewrite split_app.
  apply last_app_nonempty, split_nonempty.
Qed.

Lemma lastSegment_no_slash value : Str.contains "/" (Str.lastSegment value) = false.
Proof.
  unfold Str.lastSegment.
  pose proof (split_segments "/" value) as Hall.
  pose proof (split_nonempty "/" value) as Hne.
  induction Hall as [|segment segments Hseg Hsegs IH]; [done|].
  destruct segments as [|next segments]; [done|].
  change (List.last (segment :: next :: segments) EmptyString)
    with (List.last (next :: segments) EmptyString).
  by apply IH.
Qed.

Lemma lastSegment_fixed value :
  Str.contains "/" value = false → Str.lastSegment value = value.
Proof. intros Hc. unfold Str.lastSegment. by rewrite split_without_separator. Qed.

End Segments.

(** ** What a local creation returns *)

Lemma resolvesWith_bind_result {A B} (P : A → Prop) (Q : B → Prop)
    (m : Async A) (k : A → Async B) :
  resolvesWith P m → (∀ a, P a → resolvesWith Q (k a)) → resolvesWith Q (Async.bind m k).
Proof.
  intros Hm Hk h h' b. rewrite run_bind.
  destruct (m h) as [h1 [e|a]] eqn:Hrun; [done|].
  apply Hk. by eapply Hm.
Qed.

Lemma resolvesWith_lift {A} (Q : A → Prop) (o : Outcome A) :
  (∀ a, o = inr a → Q a) → resolvesWith Q (Async.lift o).
Proof. intros Ho h h' a [= _ Heq]. by apply Ho. Qed.

Lemma resolvesWith_throw {A} (Q : A → Prop) e : resolvesWith Q (Async.throw (A := A) e).
Proof. by intros h h' a. Qed.

Lemma resolvesWith_any {A} (m : Async A) : resolvesWith (λ _, True) m.
Proof. by intros h h' a. Qed.

Section LocalResult.

Context (lib : Imports) (world : World) (options : StandardConnectionServiceOptions).

Lemma configuration_connection connectionName connectionInfo connector parametersMetadata :
  resolvesWith (λ configured, isLocalConnection connectionName configured.2)
    (_getConnectionsConfiguration lib world options connectionName connectionInfo connector
       parametersMetadata).
Proof.
  unfold _getConnectionsConfiguration.
  assert (∀ metadata,
            resolvesWith (λ configured, isLocalConnection connectionName configured.2)
              (let* converted :=
                 Async.lift (convertToServiceProviderConnectionsData lib connectionName
                               (connector_id connector) connectionInfo metadata) in
               let connectionsData := connectionAndSettings converted in
               let connection :=
                 convertServiceProviderConnectionDataToConnection
                   (connectionKey connectionsData) (connectionData connectionsData) in
               let* _ :=
                 if Js.truthy (testConnectionUrl connector)
                 then let* _ := _testServiceProviderConnection world options
                                  (default "" (testConnectionUrl connector))
                                  (rawConnection converted) in
                      Async.resolve ()
                 else Async.resolve () in
               Async.resolve (asLocal ServiceProviderModel connectionsData, connection)))
    as HserviceProvider.
  { intros metadata.
    apply (resolvesWith_bind_result
             (λ converted, connectionKey (connectionAndSettings converted) = connectionName)).
    - apply resolvesWith_lift. intros converted Hconv.
      pose proof (serviceProvider_location lib connectionName (connector_id connector)
                    connectionInfo metadata) as Hloc.
      rewrite Hconv in Hloc. by destruct Hloc.
    - intros converted Hkey. simpl. apply resolvesWith_bind. intros _.
      apply resolvesWith_resolve. simpl. rewrite Hkey. done. }
  destruct ((parametersMetadata ≫= connectionMetadata) ≫= metadata_type) as [[| | |name]|];
    try (destruct parametersMetadata as [metadata|];
         [apply HserviceProvider|apply resolvesWith_throw]).
  - apply (resolvesWith_bind_result (λ connectionsData, connectionKey connectionsData = connectionName)).
    + apply resolvesWith_lift. intros connectionsData.
      unfold convertToFunctionsConnectionsData.
      destruct (Js.optField "authentication" _); try done. by intros [= <-].
    + intros connectionsData Hkey. apply resolvesWith_resolve. simpl. rewrite Hkey. done.
  - apply resolvesWith_resolve. done.
Qed.

Lemma local_connection connectionName connector connectionInfo parametersMetadata :
  resolvesWith (isLocalConnection connectionName)
    (createConnectionInLocal lib world options connectionName connector connectionInfo
       parametersMetadata).
Proof.
  unfold createConnectionInLocal.
  destruct parametersMetadata as [metadata|]; [|apply resolvesWith_throw].
  apply resolvesWith_bind. intros connectionInfo'.
  destruct (negb (writeConnection options)); [apply resolvesWith_throw|].
  eapply resolvesWith_bind_result; [apply configuration_connection|].
  intros [connectionsData connection] Hlocal. simpl in Hlocal.
  apply resolvesWith_bind. intros _.
  unfold cacheConnection. apply resolvesWith_bind. intros _.
  by apply resolvesWith_resolve.
Qed.

End LocalResult.

(** X1: the connection that [createConnection] returns on the local path is
    named after the last [/]-segment of the requested connection id: its
    name is that segment, its id is [<api id>/connections/<name>], so the
    last segment of its id is its name again, and it is reported as
    connected. *)
Theorem local_connection_is_named_after_its_id
    (lib : Imports) (world : World) (options : StandardConnectionServiceOptions)
    (connectionId : string) (connector : Connector) (connectionInfo : ConnectionCreationInfo)
    (parametersMetadata : option ConnectionParametersMetadata) (shouldTestConnection : bool)
    (h h' : History) (connection : Connection) :
  isArmResourceId lib (connector_id connector) = false →
  createConnection lib world options connectionId connector connectionInfo parametersMetadata
    shouldTestConnection h = (h', inr connection) →
  conn_name connection = Str.lastSegment connectionId
  ∧ Str.contains "/" (conn_name connection) = false
  ∧ conn_id connection = conn_apiId connection +:+ "/connections/" +:+ conn_name connection
  ∧ Str.lastSegment (conn_id connection) = conn_name connection
  ∧ conn_type connection = "connections"
  ∧ conn_overallStatus connection = Some "Connected".
Proof.
  intros Harm Hrun. apply createConnection_resolves in Hrun.
  unfold createConnectionPath in Hrun. rewrite Harm in Hrun.
  apply (local_connection lib world options) in Hrun
    as (Hname & Hid & Htype & _ & Hstatus).
  assert (Str.contains "/" (conn_name connection) = false) as Hslash.
  { rewrite Hname. apply lastSegment_no_slash. }
  split_and!; try done.
  - by rewrite Hname.
  - rewrite Hid, Hname.
    change ("/connections/" +:+ Str.lastSegment connectionId)
      with ("/connections" +:+ String "/" (Str.lastSegment connectionId)).
    rewrite <- append_assoc, lastSegment_after_slash.
    rewrite <- Hname. by apply lastSegment_fixed.
Qed.

Lemma local_connection_name_witness :
  ∃ connection,
    (createConnection Sample.lib Sample.calm Sample.options "/connections/sql-1" Sample.sql
       Sample.sqlInfo (Some Sample.sqlMetadata) true []).2 = inr connection
    ∧ conn_name connection = "sql-1"
    ∧ Str.lastSegment (conn_id connection) = conn_name connection.
Proof.
  destruct (createConnection Sample.lib Sample.calm Sample.options "/connections/sql-1"
              Sample.sql Sample.sqlInfo (Some Sample.sqlMetadata) true [])
    as [h' [e|connection]] eqn:Hrun; [vm_compute in Hrun; discriminate|].
  exists connection. split; [reflexivity|].
  destruct (local_connection_is_named_after_its_id Sample.lib Sample.calm Sample.options
              "/connections/sql-1" Sample.sql Sample.sqlInfo (Some Sample.sqlMetadata) true
              [] h' connection eq_refl Hrun) as (Hname & _ & _ & Hlast & _).
  split; [exact Hname|exact Hlast].
Defined.

(** ** More on escaping and on the payloads *)

Lemma escapeSpecialChars_append s t :
  escapeSpecialChars (s +:+ t) = escapeSpecialChars s +:+ escapeSpecialChars t.
Proof.
  induction s as [|a s IH]; [done|].
  by rewrite append_cons, !escapeSpecialChars_cons, IH, append_assoc.
Qed.

Lemma escapeSpecialChars_length value :
  (String.length value ≤ String.length (escapeSpecialChars value))%nat
  ∧ (String.length (escapeSpecialChars value) ≤ 2 * String.length value)%nat.
Proof.
  induction value as [|a s [IHl IHu]]; [simpl; lia|].
  rewrite escapeSpecialChars_cons, append_length.
  destruct (escapeChar_cases a) as [[_ ->]|[[_ ->]|(_ & _ & ->)]]; simpl; lia.
Qed.

Lemma escapeSpecialChars_unchanged value :
  escapeSpecialChars value = value
  ↔ Str.contains "_" value = false ∧ Str.contains "-" value = false.
Proof.
  induction value as [|a s IH]; [done|].
  rewrite escapeSpecialChars_cons. simpl.
  destruct (escapeChar_cases a) as [[-> ->]|[[-> ->]|(Hu & Hd & ->)]].
  - split; [|by intros [? _]].
    rewrite !append_cons, append_nil_l. intros [= Heq].
    apply (f_equal String.length) in Heq. simpl in Heq.
    pose proof (escapeSpecialChars_length s). lia.
  - split; [|by intros [_ ?]]. rewrite !append_cons. intros [=].
  - rewrite append_cons, append_nil_l.
    apply Ascii.eqb_neq in Hu, Hd. rewrite Hu, Hd. simpl.
    rewrite <- IH. split; [by intros [= ->]|by intros ->].
Qed.

(** X2: [escapeSpecialChars] works character by character: the escape of a
    concatenation is the concatenation of the escapes; a string is left as
    it is exactly when it holds neither ['_'] nor ['-']; and escaping never
    shortens a string nor more than doubles its length. *)
Theorem escapeSpecialChars_is_characterwise :
  (∀ s t, escapeSpecialChars (s +:+ t) = escapeSpecialChars s +:+ escapeSpecialChars t)
  ∧ (∀ value,
       escapeSpecialChars value = value
       ↔ Str.contains "_" value = false ∧ Str.contains "-" value = false)
  ∧ (∀ value,
       (String.length value ≤ String.length (escapeSpecialChars value))%nat
       ∧ (String.length (escapeSpecialChars value) ≤ 2 * String.length value)%nat).
Proof.
  split_and!.
  - apply escapeSpecialChars_append.
  - apply escapeSpecialChars_unchanged.
  - apply escapeSpecialChars_length.
Qed.

Lemma serviceProviderAppSettingName_no_dash connectionKey parameterKey :
  Str.contains "-" (serviceProviderAppSettingName connectionKey parameterKey) = false.
Proof.
  unfold serviceProviderAppSettingName.
  by rewrite !contains_app, !escapeSpecialChars_no_dash.
Qed.

Lemma functionAppSettingName_no_dash connectionKey :
  Str.contains "-" (functionAppSettingName connectionKey) = false.
Proof.
  unfold functionAppSettingName. by rewrite contains_app, escapeSpecialChars_no_dash.
Qed.

Lemma apimAppSettingName_no_dash connectionKey :
  Str.contains "-" (apimAppSettingName connectionKey) = false.
Proof.
  unfold apimAppSettingName. by rewrite contains_app, escapeSpecialChars_no_dash.
Qed.

(** X3: no app setting that the conversions add has a ['-'] in its name.
    The settings of a function payload hold exactly one entry, under the
    dash-free name [<escaped key>_functionAppKey]; those of an
    API-management payload exactly one, under the dash-free name
    [<escaped key>_SubscriptionKey].  The settings of a service-provider
    payload hold exactly the entries that came with the request and one
    entry for every given parameter that comes from the app configuration,
    under the dash-free name [<escaped key>_<escaped parameter>]. *)
Theorem added_app_settings_have_no_dash (lib : Imports) :
  (∀ connectionKey connectionInfo connectionsData,
     convertToFunctionsConnectionsData connectionKey connectionInfo = inr connectionsData →
     (∀ name, is_Some (settings connectionsData !! name)
              ↔ name = functionAppSettingName connectionKey)
     ∧ Str.contains "-" (functionAppSettingName connectionKey) = false)
  ∧ (∀ connectionKey connectionInfo,
       (∀ name,
          is_Some (settings (convertToApimConnectionsData connectionKey connectionInfo) !! name)
          ↔ name = apimAppSettingName connectionKey)
       ∧ Str.contains "-" (apimAppSettingName connectionKey) = false)
  ∧ (∀ connectionKey connectorId connectionInfo metadata values,
       givenParameterValues connectionInfo = Some values →
       ∃ converted,
         convertToServiceProviderConnectionsData lib connectionKey connectorId connectionInfo
           metadata = inr converted
         ∧ (∀ name,
              is_Some (settings (connectionAndSettings converted) !! name)
              ↔ is_Some (default ∅ (appSettings connectionInfo) !! name)
                ∨ ∃ parameterKey,
                    parameterKey ∈ Js.keys values
                    ∧ isAppConfiguration
                        (declaredParameters connectionInfo metadata ≫= (.!! parameterKey))
                      = true
                    ∧ name = serviceProviderAppSettingName connectionKey parameterKey)
         ∧ (∀ parameterKey,
              Str.contains "-" (serviceProviderAppSettingName connectionKey parameterKey)
              = false)).
Proof.
  split_and!.
  - intros connectionKey connectionInfo connectionsData.
    unfold convertToFunctionsConnectionsData.
    destruct (Js.optField "authentication" _); try done.
    intros [= <-]. simpl. split; [|apply functionAppSettingName_no_dash].
    intros name. split.
    + intros [v Hv]. by apply lookup_singleton_Some in Hv as [<- _].
    + intros ->. rewrite lookup_singleton_eq. by eexists.
  - intros connectionKey connectionInfo. simpl. split; [|apply apimAppSettingName_no_dash].
    intros name. split.
    + intros [v Hv]. by apply lookup_singleton_Some in Hv as [<- _].
    + intros ->. rewrite lookup_singleton_eq. by eexists.
  - intros connectionKey connectorId connectionInfo metadata values Hgiven.
    unfold convertToServiceProviderConnectionsData. rewrite Hgiven.
    eexists. split; [done|]. simpl.
    split; [|intros parameterKey; apply serviceProviderAppSettingName_no_dash].
    intros name.
    destruct (decide (Exists (λ parameterKey,
                isAppConfiguration (declaredParameters connectionInfo metadata
                                      ≫= (.!! parameterKey)) = true
                ∧ name = serviceProviderAppSettingName connectionKey parameterKey)
                (Js.keys values))) as [Hfound|Hnone].
    + apply Exists_exists in Hfound as (parameterKey & Hin & Happ & ->).
      split.
      * intros _. right. by exists parameterKey.
      * intros _. rewrite loop_settings_own by done. by eexists.
    + rewrite loop_settings_other.
      * simpl. split; [by left|].
        intros [Hrequest|(parameterKey & Hin & Happ & ->)]; [done|].
        exfalso. apply Hnone. apply Exists_exists. by exists parameterKey.
      * intros parameterKey Hin Happ Heq. apply Hnone.
        apply Exists_exists. by exists parameterKey.
Qed.

Lemma getField_setField_other k k' v fields :
  k' ≠ k → Js.getField k' (Js.setField k v fields) = Js.getField k' fields.
Proof.
  intros Hne. induction fields as [|[k0 v0] rest IH]; simpl.
  - apply String.eqb_neq in Hne. by rewrite String.eqb_sym, Hne.
  - destruct (String.eqb k0 k) eqn:Hk; simpl.
    + apply String.eqb_eq in Hk as ->.
      apply String.eqb_neq in Hne. by rewrite String.eqb_sym, Hne.
    + by rewrite IH.
Qed.

Lemma keys_setField k v fields :
  Js.keys (Js.setField k v fields)
  = if bool_decide (k ∈ Js.keys fields) then Js.keys fields else Js.keys fields ++ [k].
Proof.
  unfold Js.keys. induction fields as [|[k0 v0] rest IH].
  - case_bool_decide as Hin; [by apply elem_of_nil in Hin|done].
  - cbn [Js.setField]. destruct (String.eqb k0 k) eqn:Hk.
    + apply String.eqb_eq in Hk as ->.
      clear IH. rewrite !fmap_cons. simpl.
      case_bool_decide as Hin; [done|]. exfalso. apply Hin. apply list_elem_of_here.
    + apply String.eqb_neq in Hk. rewrite !fmap_cons, IH. simpl.
      repeat case_bool_decide; try done.
      * exfalso. apply H0. by apply list_elem_of_further.
      * exfalso. apply elem_of_cons in H0 as [->|?]; done.
Qed.

(** X4: converting a function connection rewrites [authentication.value]
    and nothing else: every other property of [authentication] keeps its
    value, the properties keep their order ([value] is added last when it
    was missing), and [function], [triggerUrl], the display name and the
    connection key are passed through. *)
Theorem function_payload_keeps_the_rest
    (key : string) (connectionInfo : ConnectionCreationInfo) (fields : JsRecord) :
  Js.optField "authentication" (info_connectionParameters connectionInfo) = JsObject fields →
  ∃ connectionsData fields',
    convertToFunctionsConnectionsData key connectionInfo = inr connectionsData
    ∧ fn_authentication (connectionData connectionsData) = JsObject fields'
    ∧ (∀ property, property ≠ "value" → Js.getField property fields' = Js.getField property fields)
    ∧ Js.keys fields'
      = (if bool_decide ("value" ∈ Js.keys fields) then Js.keys fields
         else Js.keys fields ++ ["value"])
    ∧ fn_function (connectionData connectionsData)
      = Js.optField "function" (info_connectionParameters connectionInfo)
    ∧ fn_triggerUrl (connectionData connectionsData)
      = Js.optField "triggerUrl" (info_connectionParameters connectionInfo)
    ∧ fn_displayName (connectionData connectionsData) = displayName connectionInfo
    ∧ connectionKey connectionsData = key.
Proof.
  intros Hauth. unfold convertToFunctionsConnectionsData. rewrite Hauth.
  eexists _, _. split; [reflexivity|]. simpl. split; [reflexivity|].
  split_and!; try reflexivity.
  - intros property Hne. by apply getField_setField_other.
  - apply keys_setField.
Qed.

Lemma function_payload_witness :
  ∃ connectionsData fields',
    convertToFunctionsConnectionsData "my-func" Sample.functionInfo = inr connectionsData
    ∧ fn_authentication (connectionData connectionsData) = JsObject fields'
    ∧ Js.getField "type" fields' = JsString "QueryString"
    ∧ Js.getField "name" fields' = JsString "Code"
    ∧ Js.keys fields' = ["type"; "name"; "value"].
Proof.
  destruct (function_payload_keeps_the_rest "my-func" Sample.functionInfo
              [("type", JsString "QueryString"); ("name", JsString "Code");
               ("value", JsString "secret-key")] eq_refl)
    as (connectionsData & fields' & Hrun & Hauth & Hother & Hkeys & _).
  exists connectionsData, fields'. split; [exact Hrun|]. split; [exact Hauth|].
  split; [|split].
  - rewrite Hother; [reflexivity|discriminate].
  - rewrite Hother; [reflexivity|discriminate].
  - rewrite Hkeys. reflexivity.
Defined.

Lemma foldl_agree {A B} (f g : A → B → A) a l :
  (∀ a b, b ∈ l → f a b = g a b) → foldl f a l = foldl g a l.
Proof.
  revert a. induction l as [|b l IH]; intros a Hfg; [done|].
  simpl. rewrite Hfg by apply list_elem_of_here.
  apply IH. intros a' b' Hin. apply Hfg. by apply list_elem_of_further.
Qed.

(** X5: when none of the given parameters of a service-provider connection
    comes from the app configuration, nothing is moved: the stored payload
    is the raw connection, and the settings are the app settings that came
    with the request (none, if none came). *)
Theorem plain_service_provider_payload_is_raw
    (lib : Imports) (key connectorId : string) (connectionInfo : ConnectionCreationInfo)
    (metadata : ConnectionParametersMetadata) (parameterValues : JsRecord) :
  givenParameterValues connectionInfo = Some parameterValues →
  (∀ parameterKey,
     parameterKey ∈ Js.keys parameterValues →
     (declaredParameters connectionInfo metadata ≫= (.!! parameterKey)) ≫= parameterSource
     ≠ Some AppConfiguration) →
  ∃ converted,
    convertToServiceProviderConnectionsData lib key connectorId connectionInfo metadata
    = inr converted
    ∧ connectionData (connectionAndSettings converted) = rawConnection converted
    ∧ settings (connectionAndSettings converted) = default ∅ (appSettings connectionInfo)
    ∧ sp_serviceProviderId (rawConnection converted) = connectorId
    ∧ sp_displayName (rawConnection converted) = displayName connectionInfo.
Proof.
  intros Hgiven Hplain.
  assert (∀ parameterKey,
            parameterKey ∈ Js.keys parameterValues →
            isAppConfiguration (declaredParameters connectionInfo metadata ≫= (.!! parameterKey))
            = false) as Hfalse.
  { intros parameterKey Hin. apply not_true_is_false. intros Happ.
    apply isAppConfiguration_true in Happ. by apply (Hplain parameterKey). }
  unfold convertToServiceProviderConnectionsData. rewrite Hgiven.
  eexists. split; [reflexivity|]. simpl. split_and!; try reflexivity.
  - f_equal. rewrite loop_stored, loop_raw. simpl.
    apply foldl_agree. intros target parameterKey Hin.
    unfold storedParameterValue. by rewrite (Hfalse parameterKey Hin).
  - apply map_eq. intros name. rewrite loop_settings_other; [done|].
    intros parameterKey Hin Happ. by rewrite (Hfalse parameterKey Hin) in Happ.
Qed.

Lemma plain_service_provider_witness :
  ∃ converted,
    convertToServiceProviderConnectionsData Sample.lib "sql-1" "/serviceProviders/sql"
      Sample.sqlInfo Cases.plainMetadata = inr converted
    ∧ connectionData (connectionAndSettings converted) = rawConnection converted
    ∧ settings (connectionAndSettings converted) = ∅.
Proof.
  destruct (plain_service_provider_payload_is_raw Sample.lib "sql-1" "/serviceProviders/sql"
              Sample.sqlInfo Cases.plainMetadata
              [("connectionString", JsString "Server=db;Password=hunter2");
               ("serverName", JsString "db")] eq_refl)
    as (converted & Hrun & Hraw & Hsettings & _).
  - intros parameterKey Hin.
    apply elem_of_cons in Hin as [->|Hin]; [vm_compute; discriminate|].
    apply elem_of_cons in Hin as [->|Hin]; [vm_compute; discriminate|].
    by apply elem_of_nil in Hin.
  - exists converted. split; [exact Hrun|]. split; [exact Hraw|exact Hsettings].
Defined.

(** ** Choosing the identity for the access policy *)

Lemma find_first {A} (f : A → bool) (l1 l2 : list A) x :
  (∀ y, y ∈ l1 → f y = false) → f x = true → List.find f (l1 ++ x :: l2) = Some x.
Proof.
  intros Hl1 Hx. induction l1 as [|y l1 IH]; simpl.
  - by rewrite Hx.
  - rewrite (Hl1 y) by apply list_elem_of_here.
    apply IH. intros z Hz. apply Hl1. by apply list_elem_of_further.
Qed.

Lemma find_none_all {A} (f : A → bool) (l : list A) :
  (∀ y, y ∈ l → f y = false) → List.find f l = None.
Proof.
  intros Hl. induction l as [|y l IH]; [done|]. simpl.
  rewrite (Hl y) by apply list_elem_of_here.
  apply IH. intros z Hz. apply Hl. by apply list_elem_of_further.
Qed.

Lemma find_some_elem {A} (f : A → bool) (l : list A) x :
  List.find f l = Some x → x ∈ l ∧ f x = true.
Proof.
  induction l as [|y l IH]; [done|]. simpl.
  destruct (f y) eqn:Hy.
  - intros [= <-]. split; [apply list_elem_of_here|done].
  - intros Hfind. destruct (IH Hfind). split; [by apply list_elem_of_further|done].
Qed.

Lemma lookup_by_key {A} (table : list (string * A)) key :
  key ∈ table.*1 → ∃ entry, List.find (λ entry, String.eqb entry.1 key) table = Some entry.
Proof.
  induction table as [|[k v] table IH]; intros Hin.
  - by apply elem_of_nil in Hin.
  - simpl. destruct (String.eqb k key) eqn:Hk; [by eexists|].
    apply IH. rewrite fmap_cons in Hin. apply elem_of_cons in Hin as [->|Hin]; [|done].
    simpl in Hk. by rewrite String.eqb_refl in Hk.
Qed.

Section Identity.

Context (lib : Imports).

Lemma identity_details_run managedIdentity tenantId identityId :
  _getIdentityDetailsForApiHubAuth lib (Some managedIdentity) tenantId identityId
  = if usesSystemAssigned lib managedIdentity identityId
    then inr {| details_principalId := principalId managedIdentity;
                details_tenantId := identity_tenantId managedIdentity |}
    else
      let identityKeys := (default [] (userAssignedIdentities managedIdentity)).*1 in
      let selectedIdentity :=
        match List.find (λ identityKey, equals lib (Some identityKey) identityId) identityKeys with
        | Some identityKey => Some identityKey
        | None => head identityKeys
        end in
      match userAssignedIdentities managedIdentity with
      | None => inr {| details_principalId := None; details_tenantId := tenantId |}
      | Some table =>
          match selectedIdentity ≫=
                  (λ selected, List.find (λ entry, String.eqb entry.1 selected) table) with
          | Some entry => inr {| details_principalId := ua_principalId entry.2;
                                 details_tenantId := tenantId |}
          | None => inl (ThrownTypeError "Cannot read properties of undefined (reading 'principalId')")
          end
      end.
Proof. reflexivity. Qed.

Lemma selected_identity_found (table : list (string * UserAssignedIdentity)) identityId :
  table ≠ [] →
  ∃ entry,
    match List.find (λ identityKey, equals lib (Some identityKey) identityId) table.*1 with
    | Some identityKey => Some identityKey
    | None => head table.*1
    end ≫= (λ selected, List.find (λ entry, String.eqb entry.1 selected) table) = Some entry.
Proof.
  intros Hnonempty.
  destruct (List.find _ table.*1) as [selected|] eqn:Hfind.
  - apply find_some_elem in Hfind as [Hin _]. by apply lookup_by_key.
  - destruct table as [|[key value] table]; [done|]. simpl.
    rewrite String.eqb_refl. by eexists.
Qed.

(** X6: choosing the identity throws exactly when there is no managed
    identity at all, or when a user-assigned identity has to be taken and
    the table of user-assigned identities is there but empty.  A missing
    table does not throw: the principal is then undefined. *)
Theorem identity_details_throw_exactly_when
    (managedIdentity : option ManagedIdentity) (tenantId identityId : option string) :
  (∃ e, _getIdentityDetailsForApiHubAuth lib managedIdentity tenantId identityId = inl e)
  ↔ managedIdentity = None
    ∨ ∃ identity,
        managedIdentity = Some identity
        ∧ usesSystemAssigned lib identity identityId = false
        ∧ userAssignedIdentities identity = Some [].
Proof.
  destruct managedIdentity as [identity|].
  2:{ split; [by left|]. intros _. by eexists. }
  rewrite identity_details_run.
  destruct (usesSystemAssigned lib identity identityId) eqn:Hsystem.
  { split; [by intros [e ?]|]. intros [?|(identity' & [= <-] & ? & _)]; congruence. }
  destruct (userAssignedIdentities identity) as [table|] eqn:Htable; cbv zeta.
  - destruct (decide (table = [])) as [->|Hnonempty].
    + split; [|by eexists]. intros _. right. by exists identity.
    + destruct (selected_identity_found table identityId Hnonempty) as [entry Hentry].
      change (default [] (Some table)) with table. rewrite Hentry.
      split; [by intros [e ?]|].
      intros [?|(identity' & [= <-] & _ & ?)]; congruence.
  - split; [by intros [e ?]|]. intros [?|(identity' & [= <-] & _ & ?)]; congruence.
Qed.

Lemma chosen_user_identity identity tenantId identityId before entry after :
  usesSystemAssigned lib identity identityId = false →
  userAssignedIdentities identity = Some (before ++ entry :: after) →
  (∀ earlier, earlier ∈ before → equals lib (Some earlier.1) identityId = false) →
  equals lib (Some entry.1) identityId = true →
  _getIdentityDetailsForApiHubAuth lib (Some identity) tenantId identityId
  = inr {| details_principalId := ua_principalId entry.2; details_tenantId := tenantId |}.
Proof.
  intros Hsystem Htable Hbefore Hentry.
  rewrite identity_details_run, Hsystem, Htable. simpl.
  rewrite fmap_app, fmap_cons.
  rewrite (find_first _ (before.*1) (after.*1) entry.1); [|..|done].
  - simpl.
    rewrite (find_first (λ e, String.eqb e.1 entry.1) before after entry); [done| |].
    + intros earlier Hin. apply not_true_is_false. intros Heq.
      apply String.eqb_eq in Heq. specialize (Hbefore earlier Hin).
      rewrite Heq in Hbefore. congruence.
    + apply String.eqb_refl.
  - intros key Hin. apply list_elem_of_fmap in Hin as (earlier & -> & Hin).
    by apply Hbefore.
Qed.

(** X7: which identity is chosen.  The system-assigned identity, with its
    own tenant, when no identity is asked for and the managed identity has
    one.  Otherwise the first user-assigned identity whose key [equals] the
    identity asked for, and the first user-assigned identity of all when no
    key does; in both cases with the tenant of the service options. *)
Theorem identity_selection
    (identity : ManagedIdentity) (tenantId identityId : option string) :
  let chosen := _getIdentityDetailsForApiHubAuth lib (Some identity) tenantId identityId in
  (usesSystemAssigned lib identity identityId = true →
   chosen = inr {| details_principalId := principalId identity;
                   details_tenantId := identity_tenantId identity |})
  ∧ (usesSystemAssigned lib identity identityId = false →
     (userAssignedIdentities identity = None →
      chosen = inr {| details_principalId := None; details_tenantId := tenantId |})
     ∧ (∀ before entry after,
          userAssignedIdentities identity = Some (before ++ entry :: after) →
          (∀ earlier, earlier ∈ before → equals lib (Some earlier.1) identityId = false) →
          equals lib (Some entry.1) identityId = true →
          chosen = inr {| details_principalId := ua_principalId entry.2;
                          details_tenantId := tenantId |})
     ∧ (∀ entry rest,
          userAssignedIdentities identity = Some (entry :: rest) →
          (∀ other, other ∈ entry :: rest → equals lib (Some other.1) identityId = false) →
          chosen = inr {| details_principalId := ua_principalId entry.2;
                          details_tenantId := tenantId |})).
Proof.
  intros chosen. subst chosen. split.
  - rewrite identity_details_run. by intros ->.
  - intros Hsystem. split_and!.
    + rewrite identity_details_run, Hsystem. by intros ->.
    + intros before entry after Htable Hbefore Hentry. by eapply chosen_user_identity.
    + rewrite identity_details_run, Hsystem. intros [key value] rest -> Hnone.
      change (default [] (Some ((key, value) :: rest))) with ((key, value) :: rest).
      cbv zeta. rewrite find_none_all.
      * cbn. by rewrite String.eqb_refl.
      * intros identityKey Hin.
        apply list_elem_of_fmap in Hin as (other & -> & Hin). by apply Hnone.
Qed.

End Identity.

Lemma identity_selection_witness :
  _getIdentityDetailsForApiHubAuth Sample.lib (Some Cases.userIdentities) (Some "tenant-1")
    (Some "/identities/b")
  = inr {| details_principalId := Some "principal-b"; details_tenantId := Some "tenant-1" |}.
Proof.
  destruct (identity_selection Sample.lib Cases.userIdentities (Some "tenant-1")
              (Some "/identities/b")) as [_ Huser].
  destruct (Huser eq_refl) as (_ & Hmatch & _).
  apply (Hmatch [("/identities/a", {| ua_principalId := Some "principal-a" |})]
                ("/identities/b", {| ua_principalId := Some "principal-b" |}) [] eq_refl).
  - intros earlier Hin. apply list_elem_of_singleton in Hin as ->. reflexivity.
  - reflexivity.
Defined.

(** ** When the access-control step rejects *)

Section AclStep.

Context (lib : Imports) (world : World) (options : StandardConnectionServiceOptions).

Local Abbreviation tenantId := (hub_tenantId (apiHubServiceDetails options)).

Local Abbreviation listing connection :=
  (HttpGet (conn_id connection +:+ "/accessPolicies")
     [("api-version", hub_apiVersion (apiHubServiceDetails options))]
     [("x-ms-command-name", "LADesigner.getConnectionAcls")]).

Local Abbreviation aclFailureLogged :=
  (LogError "ConnectionACLCreate" "Acl creation failed for connection.").

(** The whole run of the step once it has passed its three guards. *)
Lemma acl_step_run connection identityId details h :
  workflowAppDetails options = Some details →
  isArmResourceId lib (conn_id connection) = true →
  isIdentityAssociatedWithLogicApp lib (identity details) = true →
  _createConnectionAclIfNeeded lib world options connection identityId h
  = match httpGetAcls world h (conn_id connection +:+ "/accessPolicies") with
    | inl e => (h ++ [listing connection], inl e)
    | inr fetched =>
        match _getIdentityDetailsForApiHubAuth lib (identity details) tenantId identityId with
        | inl e => (h ++ [listing connection], inl e)
        | inr identityDetails =>
            if existsb (aclMatches identityDetails tenantId) (default [] fetched)
            then (h ++ [listing connection], inr ())
            else
              let put := accessPolicyPut options (conn_id connection) (appName details)
                           identityDetails (conn_location connection) in
              match httpPut world (h ++ [listing connection])
                      (accessPolicyUri options (conn_id connection) (appName details)
                         (details_principalId identityDetails))
                      (accessPolicyContent (appName details) identityDetails
                         (conn_location connection)) with
              | inr _ => (h ++ [listing connection; put], inr ())
              | inl _ => (h ++ [listing connection; put; aclFailureLogged], inr ())
              end
        end
    end.
Proof.
  intros Hdetails Harm Hidentity.
  unfold _createConnectionAclIfNeeded. rewrite Hdetails, Harm, Hidentity. simpl.
  rewrite run_bind. unfold _getConnectionAcls, Async.call at 1.
  destruct (httpGetAcls world h _) as [e|fetched]; [done|].
  rewrite run_bind. unfold Async.lift at 1.
  destruct (_getIdentityDetailsForApiHubAuth lib _ _ _) as [e|identityDetails]; [done|].
  rewrite run_tryCatch.
  destruct (existsb _ _); simpl; [done|].
  unfold _createAccessPolicyInConnection, Async.call.
  destruct (httpPut world _ _ _) as [e|[]]; simpl.
  - unfold Async.emit. by rewrite <- !app_assoc.
  - by rewrite <- app_assoc.
Qed.

(** X8: the access-control step rejects exactly when it has work to do
    (workflow app details are set and the connection id is an ARM resource
    id) and either no managed identity is associated with the logic app, or
    listing the access policies fails, or no identity can be chosen.  A
    rejected run has sent no policy [PUT].  A policy [PUT] that the hub
    refuses never makes the step reject: the failure is logged and the step
    resolves. *)
Theorem acl_step_rejects_exactly_when
    (connection : Connection) (identityId : option string) (h : History) :
  let run := _createConnectionAclIfNeeded lib world options connection identityId h in
  ((∃ e, run.2 = inl e)
   ↔ ∃ details,
       workflowAppDetails options = Some details
       ∧ isArmResourceId lib (conn_id connection) = true
       ∧ (isIdentityAssociatedWithLogicApp lib (identity details) = false
          ∨ (∃ e, httpGetAcls world h (conn_id connection +:+ "/accessPolicies") = inl e)
          ∨ (∃ e, _getIdentityDetailsForApiHubAuth lib (identity details) tenantId identityId
                  = inl e)))
  ∧ ∃ evs,
      run.1 = h ++ evs
      ∧ ((∃ e, run.2 = inl e) → Forall (λ ev, isHttpPut ev = false) evs)
      ∧ (∀ area message,
           LogError area message ∈ evs →
           run.2 = inr () ∧ ∃ put, isHttpPut put = true ∧ put ∈ evs).
Proof.
  intros run. subst run.
  destruct (workflowAppDetails options) as [details|] eqn:Hdetails.
  2:{ unfold _createConnectionAclIfNeeded. rewrite Hdetails. simpl. split.
      - split; [by intros [e ?]|]. by intros (details & ? & _).
      - exists []. rewrite app_nil_r. split_and!; [done|done|].
        intros area message Hin. by apply elem_of_nil in Hin. }
  destruct (isArmResourceId lib (conn_id connection)) eqn:Harm.
  2:{ unfold _createConnectionAclIfNeeded. rewrite Hdetails, Harm. simpl. split.
      - split; [by intros [e ?]|]. by intros (details' & _ & ? & _).
      - exists []. rewrite app_nil_r. split_and!; [done|done|].
        intros area message Hin. by apply elem_of_nil in Hin. }
  destruct (isIdentityAssociatedWithLogicApp lib (identity details)) eqn:Hidentity.
  2:{ unfold _createConnectionAclIfNeeded. rewrite Hdetails, Harm, Hidentity. simpl. split.
      - split; [|by eexists]. intros _. exists details. split_and!; [done|done|by left].
      - exists []. rewrite app_nil_r. split_and!; [done|done|].
        intros area message Hin. by apply elem_of_nil in Hin. }
  rewrite (acl_step_run connection identityId details h Hdetails Harm Hidentity).
  destruct (httpGetAcls world h _) as [e|fetched] eqn:Hlisting; simpl.
  { split.
    - split; [|by eexists]. intros _. exists details.
      split_and!; [done|done|]. right. left. by eexists.
    - eexists. split_and!; [done|by repeat constructor|].
      intros area message Hin. by apply list_elem_of_singleton in Hin. }
  destruct (_getIdentityDetailsForApiHubAuth lib _ _ _) as [e|identityDetails] eqn:Hchosen; simpl.
  { split.
    - split; [|by eexists]. intros _. exists details.
      split_and!; [done|done|]. right. right. by eexists.
    - eexists. split_and!; [done|by repeat constructor|].
      intros area message Hin. by apply list_elem_of_singleton in Hin. }
  assert (Hresolves :
    ∀ outcome : Outcome (), outcome = inr () →
      ((∃ e, outcome = inl e)
       ↔ ∃ details0,
           Some details = Some details0
           ∧ true = true
           ∧ (isIdentityAssociatedWithLogicApp lib (identity details0) = false
              ∨ (∃ e, @inr Thrown _ fetched = inl e)
              ∨ (∃ e, _getIdentityDetailsForApiHubAuth lib (identity details0) tenantId identityId
                      = inl e)))).
  { intros outcome ->. split; [by intros [e ?]|].
    intros (details0 & [= <-] & _ & [?|[[e ?]|[e ?]]]); congruence. }
  destruct (existsb _ _); simpl.
  { split; [by apply (Hresolves (inr ()))|].
    eexists. split_and!; [done|by intros [e ?]|].
    intros area message Hin. by apply list_elem_of_singleton in Hin. }
  destruct (httpPut world _ _ _) as [e|[]]; simpl.
  - split; [by apply (Hresolves (inr ()))|].
    eexists. split_and!; [done|by intros [e' ?]|].
    intros area message _. split; [done|].
    eexists. split; [|apply list_elem_of_further, list_elem_of_here]. done.
  - split; [by apply (Hresolves (inr ()))|].
    eexists. split_and!; [done|by intros [e' ?]|].
    intros area message Hin.
    apply elem_of_cons in Hin as [?|Hin]; [done|].
    by apply list_elem_of_singleton in Hin.
Qed.

End AclStep.

(** ** A refused access policy *)

(** C2: the connection is not rolled back when the creation of its access
    policy fails.  The API hub has created the connection, the access
    policies are listed, none of them grants the chosen identity, and the
    policy [PUT] is refused.  The refusal is logged as ["Acl creation
    failed for connection."] inside [_createConnectionAclIfNeeded] and goes
    no further: [_createConnectionInApiHub] invokes no [deleteConnection],
    does not throw ["Acl creation failed for connection. Deleting the
    connection."], tests the connection when [shouldTestConnection] holds
    and returns it. *)
Theorem refused_policy_put_is_not_rolled_back
    (lib : Imports) (world : World) (options : StandardConnectionServiceOptions)
    (connectionName connectorId : string) (connectionInfo : ConnectionCreationInfo)
    (shouldTestConnection : bool) (h : History) (connection : Connection)
    (details : WorkflowAppDetails) (identityDetails : IdentityDetails)
    (acls : option (list ConnectionAcl)) (refusal : Thrown) :
  let tenantId := hub_tenantId (apiHubServiceDetails options) in
  let creation := CreateConnectionInApiHub connectionName connectorId connectionInfo in
  let listing :=
    HttpGet (conn_id connection +:+ "/accessPolicies")
      [("api-version", hub_apiVersion (apiHubServiceDetails options))]
      [("x-ms-command-name", "LADesigner.getConnectionAcls")] in
  let put := accessPolicyPut options (conn_id connection) (appName details) identityDetails
               (conn_location connection) in
  let logged :=
    h ++ [creation; listing; put;
          LogError "ConnectionACLCreate" "Acl creation failed for connection."] in
  workflowAppDetails options = Some details →
  isIdentityAssociatedWithLogicApp lib (identity details) = true →
  createConnectionInApiHub world h connectionName connectorId connectionInfo = inr connection →
  isArmResourceId lib (conn_id connection) = true →
  httpGetAcls world (h ++ [creation]) (conn_id connection +:+ "/accessPolicies") = inr acls →
  _getIdentityDetailsForApiHubAuth lib (identity details) tenantId None = inr identityDetails →
  existsb (aclMatches identityDetails tenantId) (default [] acls) = false →
  httpPut world (h ++ [creation; listing])
    (accessPolicyUri options (conn_id connection) (appName details)
       (details_principalId identityDetails))
    (accessPolicyContent (appName details) identityDetails (conn_location connection))
  = inl refusal →
  _createConnectionInApiHub lib world options connectionName connectorId connectionInfo
    shouldTestConnection h
  = (if shouldTestConnection
     then (logged ++ [TestConnection connection],
           match testConnection world logged connection with
           | inl e => inl e
           | inr _ => inr connection
           end)
     else (logged, inr connection))
  ∧ deletions [creation; listing; put;
               LogError "ConnectionACLCreate" "Acl creation failed for connection.";
               TestConnection connection] = 0.
Proof.
  intros tenantId creation listing put logged Hdetails Hassociated Hcreated Harm Hlisting
    Hchosen Hnone Hrefused.
  subst tenantId creation listing put logged. split; [|done].
  assert (identityMissing lib options = false) as Hmissing.
  { unfold identityMissing. by rewrite Hdetails, Hassociated. }
  rewrite (hub_run lib world options _ _ _ _ _ connection Hmissing Hcreated).
  rewrite (acl_step_run lib world options connection None details _ Hdetails Harm Hassociated).
  rewrite Hlisting, Hchosen, Hnone. cbv zeta.
  rewrite <- app_assoc. simpl. rewrite Hrefused. rewrite <- !app_assoc. simpl.
  by destruct shouldTestConnection.
Qed.

Lemma rejected_put_keeps_connection :
  _createConnectionInApiHub Sample.lib Sample.putRefused Sample.options "office365-1"
    (connector_id Sample.office365) Sample.noParameters true []
  = ([CreateConnectionInApiHub "office365-1" (connector_id Sample.office365) Sample.noParameters;
      HttpGet (Sample.office365Id +:+ "/accessPolicies")
        [("api-version", "2018-07-01-preview")]
        [("x-ms-command-name", "LADesigner.getConnectionAcls")];
      accessPolicyPut Sample.options Sample.office365Id "app"
        {| details_principalId := Some "principal-1"; details_tenantId := Some "tenant-1" |}
        (Some "westus");
      LogError "ConnectionACLCreate" "Acl creation failed for connection.";
      TestConnection Sample.created],
     inr Sample.created).
Proof.
  refine (proj1
            (refused_policy_put_is_not_rolled_back Sample.lib Sample.putRefused Sample.options
               "office365-1" (connector_id Sample.office365) Sample.noParameters true []
               Sample.created {| appName := "app"; identity := Some Sample.systemIdentity |}
               {| details_principalId := Some "principal-1";
                  details_tenantId := Some "tenant-1" |}
               (Some []) (ThrownError "Forbidden")
               eq_refl eq_refl eq_refl eq_refl eq_refl eq_refl eq_refl eq_refl)).
Defined.

(** ** What listing the connections leaves in the cache *)

Lemma local_connection_forms (lib : Imports) :
  (∀ entry, isLocalConnection entry.1 (fromServiceProvider entry))
  ∧ (∀ entry, isLocalConnection entry.1 (fromFunction lib entry))
  ∧ (∀ entry, isLocalConnection entry.1 (fromApim lib entry)).
Proof. by split_and!; intros [key data]. Qed.

(** X9: listing all connections (no connector id, or the empty one) caches
    the connections read from the workflow, and only these: when both reads
    succeed the calls are the two reads, the initialisation mark and one
    cache entry for every local connection under its own id, in the order
    service providers, functions, API management.  The connections of the
    API hub are part of the result but are not cached by this method. *)
Theorem getConnections_caches_local_connections
    (lib : Imports) (world : World) (connectorId : option string) (h : History)
    (localConnections : ConnectionsData) (apiHubConnections : list Connection) :
  Js.truthy connectorId = false →
  readConnections world h = inr localConnections →
  getConnectionsInApiHub world (h ++ [ReadConnections]) = inr apiHubConnections →
  let locals :=
    map fromServiceProvider (default [] (serviceProviderConnections localConnections))
    ++ map (fromFunction lib) (default [] (functionConnections localConnections))
    ++ map (fromApim lib) (default [] (apiManagementConnections localConnections)) in
  getConnections lib world connectorId h
  = (h ++ [ReadConnections; GetConnectionsInApiHub; AllConnectionsInitialized]
       ++ map cached locals,
     inr (locals ++ apiHubConnections))
  ∧ Forall (λ connection, ∃ key, isLocalConnection key connection) locals.
Proof.
  intros Hfalsy Hlocal Hhub locals. subst locals. split.
  - unfold getConnections. rewrite Hfalsy.
    rewrite run_bind, all2_calls, Hlocal, Hhub, listAll_run. simpl.
    rewrite !map_app, !map_map, <- !app_assoc. done.
  - destruct (local_connection_forms lib) as (Hsp & Hfn & Hapim).
    repeat apply Forall_app_2; apply Forall_forall; intros connection Hin;
      apply list_elem_of_In, in_map_iff in Hin as (entry & <- & _); by exists entry.1.
Qed.

Lemma getConnections_cache_witness :
  getConnections Sample.lib Cases.storedWorld (Some "") []
  = ([ReadConnections; GetConnectionsInApiHub; AllConnectionsInitialized;
      cached (fromServiceProvider
                ("sql-1", {| sp_parameterValues := [];
                             sp_serviceProviderId := "/serviceProviders/sql";
                             sp_parameterSetName := None;
                             sp_displayName := Some "orders" |}));
      cached (fromFunction Sample.lib
                ("fn-1", {| fn_function := JsUndefined;
                            fn_triggerUrl := JsUndefined;
                            fn_authentication := JsUndefined;
                            fn_displayName := None |}))],
     inr [fromServiceProvider
            ("sql-1", {| sp_parameterValues := [];
                         sp_serviceProviderId := "/serviceProviders/sql";
                         sp_parameterSetName := None;
                         sp_displayName := Some "orders" |});
          fromFunction Sample.lib
            ("fn-1", {| fn_function := JsUndefined;
                        fn_triggerUrl := JsUndefined;
                        fn_authentication := JsUndefined;
                        fn_displayName := None |});
          Sample.created]).
Proof.
  apply (getConnections_caches_local_connections Sample.lib Cases.storedWorld (Some "") []
           Cases.storedConnections [Sample.created]); reflexivity.
Defined.

(** ** The order of the steps of a local creation *)

Section LocalSteps.

Context (lib : Imports) (world : World) (options : StandardConnectionServiceOptions).

Lemma configuration_prepares connectionName connectionInfo connector parametersMetadata :
  emits (λ ev, isPreparation ev = true)
    (_getConnectionsConfiguration lib world options connectionName connectionInfo connector
       parametersMetadata).
Proof.
  unfold _getConnectionsConfiguration, _testServiceProviderConnection.
  repeat emits_step; done.
Qed.

Lemma client_prepares connectionName connectionInfo metadata :
  emits (λ ev, isPreparation ev = true)
    (callConnectionCreationClient world options connectionName connectionInfo metadata).
Proof. unfold callConnectionCreationClient. repeat emits_step; done. Qed.

(** A local creation prepares, then writes, then caches; it stops at the
    first step that fails. *)
Lemma local_creation_shape connectionName connector connectionInfo parametersMetadata h :
  ∃ before,
    Forall (λ ev, isPreparation ev = true) before
    ∧ ((∃ e, createConnectionInLocal lib world options connectionName connector connectionInfo
               parametersMetadata h = (h ++ before, inl e))
       ∨ (∃ data connection,
            (∃ info called,
               _getConnectionsConfiguration lib world options connectionName info connector
                 parametersMetadata (h ++ called) = (h ++ before, inr (data, connection)))
            ∧ match writeConnectionCallback world (h ++ before) data with
              | inl e =>
                  createConnectionInLocal lib world options connectionName connector
                    connectionInfo parametersMetadata h
                  = (h ++ before ++ [WriteConnection data], inl e)
              | inr _ =>
                  createConnectionInLocal lib world options connectionName connector
                    connectionInfo parametersMetadata h
                  = (h ++ before ++ [WriteConnection data; cached connection], inr connection)
              end)).
Proof.
  destruct parametersMetadata as [metadata|].
  2:{ exists []. split; [done|]. left. rewrite app_nil_r. by eexists. }
  rewrite local_creation_run.
  destruct (client_prepares connectionName connectionInfo metadata h) as (evs1 & Hh1 & Hevs1).
  destruct (callConnectionCreationClient _ _ _ _ _ _) as [h1 [e|info]];
    simpl in Hh1; subst h1.
  { exists evs1. split; [done|]. left. by eexists. }
  destruct (writeConnection options).
  2:{ exists evs1. split; [done|]. left. by eexists. }
  destruct (configuration_prepares connectionName info connector (Some metadata) (h ++ evs1))
    as (evs2 & Hh2 & Hevs2).
  destruct (_getConnectionsConfiguration _ _ _ _ _ _ _ _) as [h2 [e|[data connection]]]
    eqn:Hconfiguration; simpl in Hh2; subst h2; rewrite <- app_assoc in *.
  { exists (evs1 ++ evs2). split; [by apply Forall_app_2|]. left. by eexists. }
  exists (evs1 ++ evs2). split; [by apply Forall_app_2|]. right.
  exists data, connection. split; [by exists info, evs1|].
  unfold writtenThenCached.
  destruct (writeConnectionCallback world (h ++ evs1 ++ evs2) data) as [e|[]] eqn:Hwrite;
    by rewrite <- !app_assoc.
Qed.

End LocalSteps.

(** X10: a local creation caches the connection only after the
    [writeConnection] callback has accepted it.  A run that resolves ends
    with the write of the payload followed by the cache entry of the very
    connection it resolves with, and everything before is preparation (the
    creation client, the connection test).  A run that rejects has cached
    nothing, and if it has written then the write is its last call and the
    rejection is the error of the write. *)
Theorem local_creation_caches_after_write
    (lib : Imports) (world : World) (options : StandardConnectionServiceOptions)
    (connectionName : string) (connector : Connector) (connectionInfo : ConnectionCreationInfo)
    (parametersMetadata : option ConnectionParametersMetadata) (h : History) :
  let run := createConnectionInLocal lib world options connectionName connector connectionInfo
               parametersMetadata h in
  ∃ evs,
    run.1 = h ++ evs
    ∧ (∀ connection,
         run.2 = inr connection →
         ∃ before data,
           evs = before ++ [WriteConnection data; cached connection]
           ∧ Forall (λ ev, isPreparation ev = true) before
           ∧ writeConnectionCallback world (h ++ before) data = inr ())
    ∧ (∀ e,
         run.2 = inl e →
         Forall (λ ev, isCacheConnection ev = false) evs
         ∧ ∀ data, WriteConnection data ∈ evs →
             ∃ before,
               evs = before ++ [WriteConnection data]
               ∧ Forall (λ ev, isPreparation ev = true) before
               ∧ writeConnectionCallback world (h ++ before) data = inl e).
Proof.
  intros run. subst run.
  assert (Hquiet : ∀ evs, Forall (λ ev, isPreparation ev = true) evs →
            Forall (λ ev, isCacheConnection ev = false) evs
            ∧ ∀ data, WriteConnection data ∉ evs).
  { intros evs Hevs. split.
    - eapply Forall_impl; [done|]. by intros [].
    - intros data Hin. rewrite Forall_forall in Hevs. by specialize (Hevs _ Hin). }
  destruct (local_creation_shape lib world options connectionName connector connectionInfo
              parametersMetadata h)
    as (before & Hbefore & [[e ->]|(data & connection & _ & Hrun)]); simpl.
  2: destruct (writeConnectionCallback world (h ++ before) data) as [e|[]] eqn:Hwrite;
       rewrite Hrun; simpl.
  - exists before. split_and!; [done|done|].
    intros e' _. destruct (Hquiet before Hbefore) as [Hcache Hnowrite].
    split; [done|]. intros data Hin. by destruct (Hnowrite data).
  - exists (before ++ [WriteConnection data]). split_and!; [done|done|].
    intros e' [= <-]. destruct (Hquiet before Hbefore) as [Hcache Hnowrite]. split.
    + apply Forall_app_2; [done|]. by repeat constructor.
    + intros data' Hin. exists before.
      apply elem_of_app in Hin as [Hin|Hin]; [by destruct (Hnowrite data')|].
      apply list_elem_of_singleton in Hin as [= ->]. done.
  - exists (before ++ [WriteConnection data; cached connection]). split_and!; [done| |done].
    intros connection' [= <-]. by exists before, data.
Qed.

(** X11: a service that was given no [writeConnection] callback cannot
    create a local connection, and finds out late: with metadata that names
    a registered creation client, the client is called first, and only when
    it has answered is [CALLBACK_NOTREGISTERED] thrown.  A creation client
    that is not found is reported before the missing callback, with
    [CONNECTION_CREATION_CLIENT_NOTREGISTERED]; a name that is not
    registered but that every object inherits, such as [toString], is found
    and cannot be called, which throws a [TypeError].  Nothing is written,
    tested or cached. *)
Theorem missing_write_callback_is_found_late
    (lib : Imports) (world : World) (options : StandardConnectionServiceOptions)
    (connectionName : string) (connector : Connector) (connectionInfo : ConnectionCreationInfo)
    (metadata : ConnectionParametersMetadata) (h : History) :
  writeConnection options = false →
  let run := createConnectionInLocal lib world options connectionName connector connectionInfo
               (Some metadata) h in
  let client := connectionMetadata metadata ≫= connectionCreationClient in
  let missingCallback :=
    ThrownAssertionException "CALLBACK_NOTREGISTERED"
      "Callback for write connection is not passed in service." in
  (Js.truthy client = false → run = (h, inl missingCallback))
  ∧ (∀ name, client = Some name → name ≠ "" →
       (connectionCreationClients options = None
        ∨ ∃ registered,
            connectionCreationClients options = Some registered
            ∧ (name ∉ registered)
            ∧ Js.inheritedFromObject name = false) →
       run = (h, inl (ThrownAssertionException "CONNECTION_CREATION_CLIENT_NOTREGISTERED"
                        ("The connection creation client for " +:+ name
                         +:+ " is not registered"))))
  ∧ (∀ name registered, client = Some name → name ≠ "" →
       connectionCreationClients options = Some registered →
       name ∉ registered →
       Js.inheritedFromObject name = true →
       ∃ message, run = (h, inl (ThrownTypeError message)))
  ∧ (∀ name registered, client = Some name → name ≠ "" →
       connectionCreationClients options = Some registered →
       name ∈ registered →
       run = (h ++ [ConnectionCreationFunc name connectionInfo connectionName],
              match connectionCreationFunc world h name connectionInfo connectionName with
              | inl e => inl e
              | inr _ => inl missingCallback
              end)).
Proof.
  intros Hcallback run client missingCallback. subst run client missingCallback.
  rewrite local_creation_run, Hcallback. unfold callConnectionCreationClient.
  assert (Htruthy : ∀ name, name ≠ "" → Js.truthy (Some name) = true).
  { intros name Hname. simpl. by apply negb_true_iff, String.eqb_neq. }
  split_and!.
  - by intros ->.
  - intros name -> Hname [->|(registered & -> & Hclient & Hinherited)];
      rewrite (Htruthy name Hname); simpl; [done|].
    by rewrite bool_decide_eq_false_2, Hinherited.
  - intros name registered -> Hname -> Hclient Hinherited. rewrite (Htruthy name Hname). simpl.
    rewrite bool_decide_eq_false_2, Hinherited by done. by eexists.
  - intros name registered -> Hname -> Hclient. rewrite (Htruthy name Hname). simpl.
    rewrite bool_decide_eq_true_2 by done. unfold Async.call.
    by destruct (connectionCreationFunc world h name connectionInfo connectionName).
Qed.

Lemma missing_write_callback_witness :
  createConnectionInLocal Sample.lib Sample.calm Cases.readOnlyOptions "files-1" Sample.sql
    Sample.sqlInfo (Some Cases.fileSystemMetadata) []
  = ([ConnectionCreationFunc "FileSystem" Sample.sqlInfo "files-1"],
     inl (ThrownAssertionException "CALLBACK_NOTREGISTERED"
            "Callback for write connection is not passed in service.")).
Proof.
  destruct (missing_write_callback_is_found_late Sample.lib Sample.calm Cases.readOnlyOptions
              "files-1" Sample.sql Sample.sqlInfo Cases.fileSystemMetadata [] eq_refl)
    as (_ & _ & _ & Hregistered).
  apply (Hregistered "FileSystem" {[ "FileSystem" ]} eq_refl).
  - discriminate.
  - reflexivity.
  - apply elem_of_singleton. reflexivity.
Defined.

(** ** The OAuth flow *)




(** ** The test of a service-provider connection *)

(** X12: a service-provider connection whose connector has a test URL is
    written only after its test has passed.  Whenever
    [createConnectionInLocal] calls [writeConnection] for it, the call right
    before is the [POST] to the test URI of the raw connection, the one
    that the conversion of the connection info (as the creation client
    left it) gives beside the payload; that [POST] was answered, and its
    answer passed the status check; the payload written is the converted
    one; nothing was written before.  And the other way round: once the
    creation client has answered, the conversion succeeds and the answer to
    the [POST] passes the check, the payload is handed to [writeConnection]
    and, when accepted, the connection is cached and returned. *)
Theorem service_provider_write_follows_successful_test
    (lib : Imports) (world : World) (options : StandardConnectionServiceOptions)
    (connectionName : string) (connector : Connector) (connectionInfo : ConnectionCreationInfo)
    (metadata : ConnectionParametersMetadata) (h : History) :
  connectionMetadata metadata ≫= metadata_type ≠ Some Function →
  connectionMetadata metadata ≫= metadata_type ≠ Some ApiManagement →
  Js.truthy (testConnectionUrl connector) = true →
  let run := createConnectionInLocal lib world options connectionName connector connectionInfo
               (Some metadata) h in
  let uri := testConnectionUri options (default "" (testConnectionUrl connector)) in
  let test raw := HttpPost uri [("api-version", apiVersion options)] raw in
  (∃ evs,
     run.1 = h ++ evs
     ∧ ∀ payload,
         WriteConnection payload ∈ evs →
         ∃ before clientInfo converted response after,
           evs = before ++ [test (rawConnection converted); WriteConnection payload] ++ after
           ∧ callConnectionCreationClient world options connectionName connectionInfo metadata h
             = (h ++ before, inr clientInfo)
           ∧ convertToServiceProviderConnectionsData lib connectionName (connector_id connector)
               clientInfo metadata = inr converted
           ∧ payload = asLocal ServiceProviderModel (connectionAndSettings converted)
           ∧ httpPost world (h ++ before) uri (rawConnection converted) = inr response
           ∧ passesStatusCheck response
           ∧ Forall (λ ev, isWriteConnection ev = false) before)
  ∧ (∀ h1 clientInfo converted response,
       callConnectionCreationClient world options connectionName connectionInfo metadata h
       = (h1, inr clientInfo) →
       writeConnection options = true →
       convertToServiceProviderConnectionsData lib connectionName (connector_id connector)
         clientInfo metadata = inr converted →
       httpPost world h1 uri (rawConnection converted) = inr response →
       passesStatusCheck response →
       run = writtenThenCached world
               (asLocal ServiceProviderModel (connectionAndSettings converted))
               (convertServiceProviderConnectionDataToConnection connectionName
                  (connectionData (connectionAndSettings converted)))
               (h1 ++ [test (rawConnection converted)])).
Proof.
  intros Hfunction Hapim Htruthy run uri test. subst run uri test.
  rewrite local_creation_run. split.
  - destruct (client_prepares world options connectionName connectionInfo metadata h)
      as (before & Hh1 & Hbefore).
    assert (Hquiet : Forall (λ ev, isWriteConnection ev = false) before).
    { eapply Forall_impl; [done|]. by intros []. }
    assert (Hnone : ∀ payload (P : Prop), WriteConnection payload ∈ before → P).
    { intros payload P Hin. rewrite Forall_forall in Hquiet. by specialize (Hquiet _ Hin). }
    destruct (callConnectionCreationClient _ _ _ _ _ _) as [h1 [e|clientInfo]] eqn:Hclient;
      simpl in Hh1; subst h1.
    { exists before. split; [done|]. intros payload Hin. by eapply Hnone. }
    destruct (writeConnection options).
    2:{ exists before. split; [done|]. intros payload Hin. by eapply Hnone. }
    rewrite configuration_serviceProvider_run by done.
    destruct (convertToServiceProviderConnectionsData _ _ _ _ _) as [e|converted] eqn:Hconverted.
    { exists before. split; [done|]. intros payload Hin. by eapply Hnone. }
    cbv zeta. rewrite Htruthy.
    destruct (testOutcome _) as [e|r] eqn:Htest.
    { eexists. rewrite <- app_assoc. split; [done|]. intros payload Hin.
      apply elem_of_app in Hin as [Hin|Hin]; [by eapply Hnone|].
      by apply list_elem_of_singleton in Hin. }
    apply testOutcome_passes in Htest as [Hanswer Hpasses].
    assert (∀ after,
              Forall (λ ev, isWriteConnection ev = false) after →
              ∀ payload,
                WriteConnection payload
                ∈ before
                  ++ [HttpPost (testConnectionUri options (default "" (testConnectionUrl connector)))
                        [("api-version", apiVersion options)] (rawConnection converted);
                      WriteConnection
                        (asLocal ServiceProviderModel (connectionAndSettings converted))]
                  ++ after →
                payload = asLocal ServiceProviderModel (connectionAndSettings converted))
      as Honly.
    { intros after Hafter payload Hin.
      apply elem_of_app in Hin as [Hin|Hin]; [by eapply Hnone|].
      apply elem_of_cons in Hin as [Hin|Hin]; [done|].
      apply elem_of_cons in Hin as [Hin|Hin]; [congruence|].
      rewrite Forall_forall in Hafter. by specialize (Hafter _ Hin). }
    unfold writtenThenCached.
    destruct (writeConnectionCallback world _ _) as [e|[]]; simpl.
    + exists (before
              ++ [HttpPost (testConnectionUri options (default "" (testConnectionUrl connector)))
                    [("api-version", apiVersion options)] (rawConnection converted);
                  WriteConnection
                    (asLocal ServiceProviderModel (connectionAndSettings converted))]
              ++ []).
      split; [by rewrite <- !app_assoc|]. intros payload Hin.
      assert (payload = asLocal ServiceProviderModel (connectionAndSettings converted)) as ->.
      { eapply Honly; [|exact Hin]. done. }
      by exists before, clientInfo, converted, (Some r), [].
    + exists (before
              ++ [HttpPost (testConnectionUri options (default "" (testConnectionUrl connector)))
                    [("api-version", apiVersion options)] (rawConnection converted);
                  WriteConnection
                    (asLocal ServiceProviderModel (connectionAndSettings converted))]
              ++ [cached (convertServiceProviderConnectionDataToConnection connectionName
                            (connectionData (connectionAndSettings converted)))]).
      split; [by rewrite <- !app_assoc|]. intros payload Hin.
      assert (payload = asLocal ServiceProviderModel (connectionAndSettings converted)) as ->.
      { eapply Honly; [|exact Hin]. by repeat constructor. }
      by eexists before, clientInfo, converted, (Some r), _.
  - intros h1 clientInfo converted response -> -> Hconverted Hanswer Hpasses.
    rewrite configuration_serviceProvider_run, Hconverted by done.
    cbv zeta. rewrite Htruthy, Hanswer.
    destruct Hpasses as (r & -> & Hrange).
    destruct (testOutcome (inr (Some r))) as [e|r'] eqn:Htest; [|done].
    exfalso.
    assert (testOutcome (inr (Some r)) = inr r) as Hok.
    { apply testOutcome_passes. split; [done|]. by exists r. }
    congruence.
Qed.

Lemma service_provider_test_witness :
  ∃ converted,
    convertToServiceProviderConnectionsData Sample.lib "sql-1" (connector_id Sample.sql)
      Sample.sqlInfo Sample.sqlMetadata = inr converted
    ∧ createConnectionInLocal Sample.lib Sample.calm Sample.options "sql-1" Sample.sql
        Sample.sqlInfo (Some Sample.sqlMetadata) []
      = ([HttpPost "https://app.example/serviceProviders/sql/testConnection"
            [("api-version", "2018-11-01")] (rawConnection converted);
          WriteConnection (asLocal ServiceProviderModel (connectionAndSettings converted));
          cached (convertServiceProviderConnectionDataToConnection "sql-1"
                    (connectionData (connectionAndSettings converted)))],
         inr (convertServiceProviderConnectionDataToConnection "sql-1"
                (connectionData (connectionAndSettings converted)))).
Proof.
  destruct (convertToServiceProviderConnectionsData Sample.lib "sql-1" (connector_id Sample.sql)
              Sample.sqlInfo Sample.sqlMetadata) as [e|converted] eqn:Hconverted;
    [vm_compute in Hconverted; discriminate|].
  exists converted. split; [reflexivity|].
  destruct (service_provider_write_follows_successful_test Sample.lib Sample.calm
              Sample.options "sql-1" Sample.sql Sample.sqlInfo Sample.sqlMetadata []
              ltac:(discriminate) ltac:(discriminate) eq_refl) as [_ Hwritten].
  apply (Hwritten [] Sample.sqlInfo converted
           (Some {| status := Some 200%Z; body := JsUndefined |}) eq_refl eq_refl Hconverted
           eq_refl).
  eexists. split; [reflexivity|]. simpl. lia.
Defined.

(** X13: on a logic app without a managed identity, creating a connection
    of an API-hub connector makes no call to the hub at all; still
    [deleteConnection] is invoked on the connection id, for a connection
    that was never created, and the call rejects with the message about the
    missing identity behind the usual prefix. *)
Theorem missing_identity_blocks_the_hub
    (lib : Imports) (world : World) (options : StandardConnectionServiceOptions)
    (connectionId : string) (connector : Connector) (connectionInfo : ConnectionCreationInfo)
    (parametersMetadata : option ConnectionParametersMetadata) (shouldTestConnection : bool)
    (h : History) :
  isArmResourceId lib (connector_id connector) = true →
  identityMissing lib options = true →
  let message :=
    "Failed to create connection: "
    +:+ tryParseErrorMessage lib
          (ThrownError "To create and use an API connection, you must have a managed identity configured on this logic app.") in
  createConnection lib world options connectionId connector connectionInfo parametersMetadata
    shouldTestConnection h
  = (h ++ [DeleteConnection connectionId; LogError "createConnection" message],
     inl (ThrownString message)).
Proof.
  intros Harm Hmissing message. subst message.
  unfold createConnection, createConnectionPath. rewrite Harm, run_tryCatch.
  unfold _createConnectionInApiHub. rewrite Hmissing.
  unfold Async.throw, Async.bind, Async.emit. simpl. by rewrite <- app_assoc.
Qed.

Lemma missing_identity_witness :
  createConnection Sample.lib Sample.calm Cases.noIdentityOptions Sample.office365Id
    Sample.office365 Sample.noParameters None true []
  = ([DeleteConnection Sample.office365Id;
      LogError "createConnection"
        ("Failed to create connection: "
         +:+ tryParseErrorMessage Sample.lib
               (ThrownError "To create and use an API connection, you must have a managed identity configured on this logic app."))],
     inl (ThrownString
            ("Failed to create connection: "
             +:+ tryParseErrorMessage Sample.lib
                   (ThrownError "To create and use an API connection, you must have a managed identity configured on this logic app.")))).
Proof.
  apply (missing_identity_blocks_the_hub Sample.lib Sample.calm Cases.noIdentityOptions
           Sample.office365Id Sample.office365 Sample.noParameters None true []);
    reflexivity.
Defined.

(** ** The payload and the connection of a configuration *)

(** X14: the payload that [_getConnectionsConfiguration] hands out and the
    connection beside it describe the same thing: both carry the connection
    name they were asked for, both carry the display name of the creation
    request, and the connection's [apiId] is the connector of the payload:
    the service provider the payload names, which is the id of the
    connector asked for, or the built-in function or API-management
    connector. *)
Theorem payload_describes_the_connection
    (lib : Imports) (world : World) (options : StandardConnectionServiceOptions)
    (connectionName : string) (connectionInfo : ConnectionCreationInfo) (connector : Connector)
    (parametersMetadata : option ConnectionParametersMetadata) (h h' : History)
    (data : ConnectionAndAppSetting LocalConnectionModel) (connection : Connection) :
  _getConnectionsConfiguration lib world options connectionName connectionInfo connector
    parametersMetadata h = (h', inr (data, connection)) →
  connectionKey data = connectionName
  ∧ conn_name connection = connectionName
  ∧ conn_displayName connection = displayName connectionInfo
  ∧ modelDisplayName (connectionData data) = displayName connectionInfo
  ∧ conn_apiId connection = modelApiId lib (connectionData data)
  ∧ (∀ m, connectionData data = ServiceProviderModel m →
          sp_serviceProviderId m = connector_id connector).
Proof.
  unfold _getConnectionsConfiguration.
  assert (∀ metadata,
            (let* converted :=
               Async.lift (convertToServiceProviderConnectionsData lib connectionName
                             (connector_id connector) connectionInfo metadata) in
             let connectionsData := connectionAndSettings converted in
             let connection :=
               convertServiceProviderConnectionDataToConnection
                 (connectionKey connectionsData) (connectionData connectionsData) in
             let* _ :=
               if Js.truthy (testConnectionUrl connector)
               then let* _ := _testServiceProviderConnection world options
                                (default "" (testConnectionUrl connector))
                                (rawConnection converted) in
                    Async.resolve ()
               else Async.resolve () in
             Async.resolve (asLocal ServiceProviderModel connectionsData, connection)) h
            = (h', inr (data, connection)) →
            connectionKey data = connectionName
            ∧ conn_name connection = connectionName
            ∧ conn_displayName connection = displayName connectionInfo
            ∧ modelDisplayName (connectionData data) = displayName connectionInfo
            ∧ conn_apiId connection = modelApiId lib (connectionData data)
            ∧ (∀ m, connectionData data = ServiceProviderModel m →
                    sp_serviceProviderId m = connector_id connector)) as HserviceProvider.
  { intros metadata. rewrite run_bind. unfold Async.lift at 1.
    unfold convertToServiceProviderConnectionsData.
    destruct (givenParameterValues connectionInfo) as [parameterValues|]; [|done].
    cbv zeta. rewrite run_bind.
    match goal with
    | |- context [if ?b then ?tested else ?untested] =>
        destruct ((if b then tested else untested) h) as [h1 [e|[]]]
    end; [done|].
    intros [= _ <- <-]. split_and!; try done. by intros m [= <-]. }
  destruct ((parametersMetadata ≫= connectionMetadata) ≫= metadata_type) as [[| | |name]|];
    try (destruct parametersMetadata as [metadata|]; [apply HserviceProvider|done]).
  - rewrite run_bind. unfold Async.lift at 1, convertToFunctionsConnectionsData.
    destruct (Js.optField "authentication" _); try done.
    intros [= _ <- <-]. by split_and!.
  - intros [= _ <- <-]. by split_and!.
Qed.

Lemma payload_describes_witness :
  connectionKey
    (asLocal APIManagementModel (convertToApimConnectionsData "orders-1" Sample.apimInfo))
  = "orders-1"
  ∧ conn_name
      (convertApimConnectionDataToConnection Sample.lib "orders-1"
         (connectionData (convertToApimConnectionsData "orders-1" Sample.apimInfo)))
    = "orders-1"
  ∧ conn_displayName
      (convertApimConnectionDataToConnection Sample.lib "orders-1"
         (connectionData (convertToApimConnectionsData "orders-1" Sample.apimInfo)))
    = Some "orders"
  ∧ modelDisplayName
      (APIManagementModel
         (connectionData (convertToApimConnectionsData "orders-1" Sample.apimInfo)))
    = Some "orders"
  ∧ conn_apiId
      (convertApimConnectionDataToConnection Sample.lib "orders-1"
         (connectionData (convertToApimConnectionsData "orders-1" Sample.apimInfo)))
    = "/connectionProviders/apiManagementOperation"
  ∧ (∀ m,
       APIManagementModel
         (connectionData (convertToApimConnectionsData "orders-1" Sample.apimInfo))
       = ServiceProviderModel m →
       sp_serviceProviderId m = connector_id Sample.sql).
Proof.
  apply (payload_describes_the_connection Sample.lib Sample.calm Sample.options "orders-1"
           Sample.apimInfo Sample.sql
           (Some {| connectionMetadata :=
                      Some {| metadata_type := Some ApiManagement;
                              connectionCreationClient := None |};
                    meta_connectionParameters := None;
                    meta_connectionParameterSet := None |})
           [] []).
  reflexivity.
Defined.

(** ** Before and during the OAuth consent *)

Section Consent.

Context (lib : Imports) (world : World) (options : StandardConnectionServiceOptions).







End Consent.




(** ** Where a service-provider connection is tested *)

Lemma drop_append (p s : string) : Str.drop (String.length p) (p +:+ s) = s.
Proof. induction p as [|a p IH]; [done|]. by rewrite append_cons. Qed.

Lemma replaceFirst_first_occurrence (pattern replacement host rest : string) :
  (∀ i, (i < String.length host)%nat →
        Str.startsWith pattern (Str.drop i (host +:+ pattern +:+ rest)) = false) →
  Str.replaceFirst pattern replacement (host +:+ pattern +:+ rest)
  = host +:+ replacement +:+ rest.
Proof.
  induction host as [|c host IH]; intros Hbefore.
  - rewrite !append_nil_l.
    destruct (pattern +:+ rest) as [|a value] eqn:Hvalue.
    + destruct pattern as [|a pattern]; [|by rewrite append_cons in Hvalue].
      rewrite append_nil_l in Hvalue. subst rest. simpl.
      clear. induction replacement as [|a r IH]; [done|]. by rewrite append_cons, <- IH.
    + cbn [Str.replaceFirst]. rewrite <- Hvalue, startsWith_append, drop_append. done.
  - rewrite !append_cons. cbn [Str.replaceFirst].
    pose proof (Hbefore 0%nat) as Hhere. rewrite !append_cons in Hhere.
    cbn [Str.drop] in Hhere. rewrite Hhere by (simpl; lia).
    f_equal. apply IH. intros i Hi.
    specialize (Hbefore (S i)). rewrite !append_cons in Hbefore. cbn [Str.drop] in Hbefore.
    apply Hbefore. simpl. lia.
Qed.

Lemma replaceFirst_absent (pattern replacement value : string) :
  (∀ i, (i ≤ String.length value)%nat →
        Str.startsWith pattern (Str.drop i value) = false) →
  Str.replaceFirst pattern replacement value = value.
Proof.
  induction value as [|c value IH]; intros Habsent.
  - simpl. specialize (Habsent 0%nat). simpl in Habsent. by rewrite Habsent.
  - cbn [Str.replaceFirst].
    pose proof (Habsent 0%nat) as Hhere. cbn [Str.drop] in Hhere.
    rewrite Hhere by (simpl; lia). f_equal. apply IH. intros i Hi.
    specialize (Habsent (S i)). cbn [Str.drop] in Habsent. apply Habsent. simpl. lia.
Qed.

(** X17: the test of a service-provider connection goes to the base URL
    without its management path, followed by the test URL.  Only the first
    occurrence of ["/runtime/webhooks/workflow/api/management"] is taken
    out: what comes before and after it is kept.  A base URL in which the
    path does not occur is used as it is. *)
Theorem test_uri_drops_the_first_management_path
    (options : StandardConnectionServiceOptions) (requestUrl : string) :
  (∀ host rest,
     baseUrl options = host +:+ managementPath +:+ rest →
     (∀ i, (i < String.length host)%nat →
           Str.startsWith managementPath (Str.drop i (baseUrl options)) = false) →
     testConnectionUri options requestUrl = host +:+ rest +:+ requestUrl)
  ∧ ((∀ i, (i ≤ String.length (baseUrl options))%nat →
           Str.startsWith managementPath (Str.drop i (baseUrl options)) = false) →
     testConnectionUri options requestUrl = baseUrl options +:+ requestUrl).
Proof.
  unfold testConnectionUri. fold managementPath. split.
  - intros host rest Hurl Hbefore. rewrite Hurl in *.
    rewrite replaceFirst_first_occurrence by done.
    by rewrite append_nil_l, append_assoc.
  - intros Habsent. by rewrite replaceFirst_absent.
Qed.

Lemma test_uri_witness :
  testConnectionUri Sample.options "/serviceProviders/sql/testConnection"
  = "https://app.example" +:+ "" +:+ "/serviceProviders/sql/testConnection".
Proof.
  destruct (test_uri_drops_the_first_management_path Sample.options
              "/serviceProviders/sql/testConnection") as [Hfirst _].
  apply (Hfirst "https://app.example" ""); [reflexivity|].
  intros i Hi. do 19 (destruct i as [|i]; [reflexivity|]). simpl in Hi. lia.
Defined.

(** ** Assigning a connection with a chosen identity *)

(** X18: [setupConnectionIfNeeded] with an identity id grants access to
    that identity.  On a logic app with user-assigned identities, for an
    ARM connection and an identity id that [equals] the key of one of them
    (the first such key), the access policies are listed; if one of them
    already names the principal of that identity and the tenant of the
    options, nothing more is done; otherwise one policy is [PUT], named
    [<appName>-<principalId>], for that principal and the tenant of the
    options, and the call resolves whether or not the [PUT] is accepted. *)
Theorem setup_grants_the_identity_asked_for
    (lib : Imports) (world : World) (options : StandardConnectionServiceOptions)
    (connection : Connection) (identityId : option string)
    (details : WorkflowAppDetails) (managedIdentity : ManagedIdentity)
    (before after : list (string * UserAssignedIdentity))
    (entry : string * UserAssignedIdentity)
    (acls : option (list ConnectionAcl)) (h : History) :
  workflowAppDetails options = Some details →
  isArmResourceId lib (conn_id connection) = true →
  isIdentityAssociatedWithLogicApp lib (identity details) = true →
  identity details = Some managedIdentity →
  Js.truthy identityId = true →
  userAssignedIdentities managedIdentity = Some (before ++ entry :: after) →
  (∀ earlier, earlier ∈ before → equals lib (Some earlier.1) identityId = false) →
  equals lib (Some entry.1) identityId = true →
  httpGetAcls world h (conn_id connection +:+ "/accessPolicies") = inr acls →
  let tenantId := hub_tenantId (apiHubServiceDetails options) in
  let apiVersion := hub_apiVersion (apiHubServiceDetails options) in
  let granted :=
    ∃ acl, acl ∈ default [] acls
           ∧ Some (acl_objectId acl) = ua_principalId entry.2
           ∧ Some (acl_tenantId acl) = tenantId in
  let listing :=
    HttpGet (conn_id connection +:+ "/accessPolicies") [("api-version", apiVersion)]
      [("x-ms-command-name", "LADesigner.getConnectionAcls")] in
  let put :=
    HttpPut
      (hub_baseUrl (apiHubServiceDetails options) +:+ conn_id connection
         +:+ "/accessPolicies/" +:+ appName details +:+ "-"
         +:+ Js.template (ua_principalId entry.2))
      [("api-version", apiVersion)]
      [("If-Match", "*"); ("x-ms-command-name", "LADesigner.createAccessPolicyInConnection")]
      {| policy_name := appName details;
         policy_type := "Microsoft.Web/connections/accessPolicy";
         policy_location := conn_location connection;
         principal_type := "ActiveDirectory";
         policy_objectId := ua_principalId entry.2;
         policy_tenantId := tenantId |} in
  (granted →
   setupConnectionIfNeeded lib world options connection identityId h = (h ++ [listing], inr ()))
  ∧ (¬ granted →
     ∃ rest,
       setupConnectionIfNeeded lib world options connection identityId h
       = (h ++ [listing; put] ++ rest, inr ())
       ∧ (rest = []
          ∨ rest = [LogError "ConnectionACLCreate" "Acl creation failed for connection."])).
Proof.
  intros Hdetails Harm Hassociated Hidentity Htruthy Htable Hbefore Hentry Hlisting
    tenantId apiVersion granted listing put.
  subst tenantId apiVersion granted listing put.
  unfold setupConnectionIfNeeded.
  rewrite (acl_step_run lib world options connection identityId details h
             Hdetails Harm Hassociated), Hlisting, Hidentity.
  rewrite (chosen_user_identity lib managedIdentity _ identityId before entry after);
    [|by unfold usesSystemAssigned; rewrite Htruthy|done..].
  destruct (existsb _ _) eqn:Hexists.
  - split; [done|]. intros Hnot. by apply some_aclMatches in Hexists.
  - split.
    + intros Hgranted.
      apply (some_aclMatches
               {| details_principalId := ua_principalId entry.2;
                  details_tenantId := hub_tenantId (apiHubServiceDetails options) |})
        in Hgranted.
      congruence.
    + intros _. cbv zeta. destruct (httpPut world _ _ _) as [e|[]].
      * eexists. split; [|by right]. done.
      * exists []. split; [|by left]. done.
Qed.

Lemma setup_identity_witness :
  ∃ rest,
    setupConnectionIfNeeded Sample.lib Sample.calm Cases.userIdentityOptions Sample.created
      (Some "/identities/b") []
    = ([] ++ [HttpGet (Sample.office365Id +:+ "/accessPolicies")
                [("api-version", "2018-07-01-preview")]
                [("x-ms-command-name", "LADesigner.getConnectionAcls")];
              HttpPut
                ("https://management.azure.com" +:+ Sample.office365Id
                   +:+ "/accessPolicies/" +:+ "app" +:+ "-" +:+ "principal-b")
                [("api-version", "2018-07-01-preview")]
                [("If-Match", "*");
                 ("x-ms-command-name", "LADesigner.createAccessPolicyInConnection")]
                {| policy_name := "app";
                   policy_type := "Microsoft.Web/connections/accessPolicy";
                   policy_location := Some "westus";
                   principal_type := "ActiveDirectory";
                   policy_objectId := Some "principal-b";
                   policy_tenantId := Some "tenant-1" |}] ++ rest,
       inr ())
    ∧ (rest = []
       ∨ rest = [LogError "ConnectionACLCreate" "Acl creation failed for connection."]).
Proof.
  refine (proj2
            (setup_grants_the_identity_asked_for Sample.lib Sample.calm
               Cases.userIdentityOptions Sample.created (Some "/identities/b")
               {| appName := "app"; identity := Some Cases.userIdentities |}
               Cases.userIdentities
               [("/identities/a", {| ua_principalId := Some "principal-a" |})] []
               ("/identities/b", {| ua_principalId := Some "principal-b" |})
               (Some []) [] eq_refl eq_refl eq_refl eq_refl eq_refl eq_refl _ eq_refl eq_refl)
            _).
  - intros earlier Hin. apply list_elem_of_singleton in Hin as ->. reflexivity.
  - intros (acl & Hin & _). by apply elem_of_nil in Hin.
Defined.
